(** * discord_bot.py: command registry, dispatcher and footer-encoded menus

    A shallow embedding of [src/discord_bot.py] (class [Bot], built on
    discord.py's [Client]).  Python objects become records, dicts become
    [gmap]s, exceptions become an explicit [result] type and the calls on the
    chat transport become state passing over a [World] that keeps the channel
    log and a trace of what was sent, edited, deleted and invoked. *)

From Stdlib Require Import ZArith Ascii String DecimalString DecimalZ DecimalPos.
From stdpp Require Import base option list gmap strings fin_maps.

Local Open Scope Z_scope.

(** ** Python strings *)

Module PyStr.

(** [s.startswith(p)], returning the remainder after [p] when it holds. *)
Fixpoint strip_prefix (p s : string) : option string :=
  match p with
  | EmptyString => Some s
  | String a p' =>
      match s with
      | EmptyString => None
      | String b s' => if Ascii.eqb a b then strip_prefix p' s' else None
      end
  end.

Definition startswith (s p : string) : bool :=
  match strip_prefix p s with Some _ => true | None => false end.

Fixpoint mem_char (c : ascii) (chars : string) : bool :=
  match chars with
  | EmptyString => false
  | String a rest => Ascii.eqb c a || mem_char c rest
  end.

(** [s.lstrip(chars)]: drops every leading character that occurs in
    [chars]; the argument is a set of characters, not a prefix. *)
Fixpoint lstrip (chars s : string) : string :=
  match s with
  | EmptyString => EmptyString
  | String c s' => if mem_char c chars then lstrip chars s' else s
  end.

Fixpoint all_chars (cls : ascii -> bool) (s : string) : bool :=
  match s with
  | EmptyString => true
  | String c s' => cls c && all_chars cls s'
  end.

(** [str(n)] for a Python int. *)
Definition str_int (z : Z) : string := NilZero.string_of_int (Z.to_int z).

(** [str(b)] for a Python bool. *)
Definition str_bool (b : bool) : string := if b then "True" else "False".

(** [int(s)] on a string of decimal digits (the only strings the program
    converts are those matched by the footer grammar). *)
Definition int_of_digits (s : string) : option Z :=
  match NilZero.uint_of_string s with
  | Some d => Some (Z.of_uint d)
  | None => None
  end.

End PyStr.

(** ** Regular expressions: the fragment of [re] used by [__state_regex]

    Backtracking matcher in continuation-passing style.  The continuation
    receives the text consumed, the remaining input and the groups captured
    so far; alternatives are tried left to right and [+] is greedy, as in
    Python's [re]. *)

Module Re.

Inductive regex : Type :=
  | Lit (s : string)
  | Plus (cls : ascii -> bool)
  | Alt (r1 r2 : regex)
  | Group (i : nat) (r : regex)
  | Seq (r1 r2 : regex).

Section Matcher.
Context {X : Type}.

Definition kont : Type := string -> string -> gmap nat string -> option X.

Fixpoint class_star (cls : ascii -> bool) (acc s : string)
    (k : string -> string -> option X) : option X :=
  match s with
  | String c s' =>
      if cls c then
        match class_star cls (acc +:+ String c EmptyString) s' k with
        | Some x => Some x
        | None => k acc s
        end
      else k acc s
  | EmptyString => k acc s
  end.

Fixpoint rmatch (r : regex) (s : string) (g : gmap nat string) (k : kont) : option X :=
  match r with
  | Lit l =>
      match PyStr.strip_prefix l s with
      | Some rest => k l rest g
      | None => None
      end
  | Plus cls =>
      match s with
      | String c s' =>
          if cls c then class_star cls (String c EmptyString) s' (fun t rest => k t rest g)
          else None
      | EmptyString => None
      end
  | Alt r1 r2 =>
      match rmatch r1 s g k with
      | Some x => Some x
      | None => rmatch r2 s g k
      end
  | Group i r' => rmatch r' s g (fun t rest g' => k t rest (<[i := t]> g'))
  | Seq r1 r2 =>
      rmatch r1 s g (fun t1 s1 g1 =>
        rmatch r2 s1 g1 (fun t2 s2 g2 => k (t1 +:+ t2) s2 g2))
  end.
End Matcher.

(** [pattern.fullmatch(s)]: the whole of [s] has to be consumed. *)
Definition fullmatch (r : regex) (s : string) : option (gmap nat string) :=
  rmatch r s ∅ (fun _ rest g => match rest with EmptyString => Some g | _ => None end).

End Re.

(** The input left after a run of [cls]: empty, or starting outside [cls]. *)
Definition stops (cls : ascii -> bool) (rest : string) : Prop :=
  match rest with
  | EmptyString => True
  | String c _ => cls c = false
  end.

(** ** The footer grammar *)

Definition digit_1_9 (c : ascii) : bool :=
  let n := nat_of_ascii c in (49 <=? n)%nat && (n <=? 57)%nat.

Definition name_char (c : ascii) : bool :=
  let n := nat_of_ascii c in
  ((97 <=? n)%nat && (n <=? 122)%nat) || ((65 <=? n)%nat && (n <=? 90)%nat) || Nat.eqb n 95.

(** [regex.compile("Page: ([1-9]+) List: ([a-zA-Z_]+) Selection: (True|False)")] *)
Definition state_regex : Re.regex :=
  Re.Seq (Re.Lit "Page: ")
    (Re.Seq (Re.Group 1 (Re.Plus digit_1_9))
      (Re.Seq (Re.Lit " List: ")
        (Re.Seq (Re.Group 2 (Re.Plus name_char))
          (Re.Seq (Re.Lit " Selection: ")
            (Re.Group 3 (Re.Alt (Re.Lit "True") (Re.Lit "False"))))))).

(** The f-string of [__create_embed_menu]:
    [f"Page: {page} List: {title} Selection: {allow_selection}"]. *)
Definition state_string (page : Z) (title : string) (allow_selection : bool) : string :=
  "Page: " +:+ PyStr.str_int page +:+ " List: " +:+ title +:+ " Selection: "
    +:+ PyStr.str_bool allow_selection.

(** The decoding half of [__find_menu]: [fullmatch], then [int(group(1))],
    [group(2)] and the comparison of [group(3)] with ["True"].  [None] is the
    [else] branch that raises [SyntaxError("Invaild footer detected.")]. *)
Definition decode_footer (footer : string) : option (Z * string * bool) :=
  match Re.fullmatch state_regex footer with
  | Some g =>
      match g !! 1%nat, g !! 2%nat, g !! 3%nat with
      | Some g1, Some g2, Some g3 =>
          match PyStr.int_of_digits g1 with
          | Some page => Some (page, g2, String.eqb g3 "True")
          | None => None
          end
      | _, _, _ => None
      end
  | None => None
  end.

(** ** Exceptions and the effect monad *)

Inductive exn : Type :=
  | TypeError
  | SyntaxError (msg : string)
  | KeyError
  | IndexError
  | AttributeError
  | UnboundLocalError
  | ValueError.

Inductive result (A : Type) : Type :=
  | Ok (a : A)
  | Raise (e : exn).
Arguments Ok {A} a.
Arguments Raise {A} e.

(** A computation over a state [S] that returns or raises; what was done to
    the state before a [raise] stays done. *)
Definition M (S A : Type) : Type := S -> result A * S.

Definition ret {S A} (a : A) : M S A := fun s => (Ok a, s).
Definition raise {S A} (e : exn) : M S A := fun s => (Raise e, s).
Definition bind {S A B} (m : M S A) (f : A -> M S B) : M S B :=
  fun s => match m s with
           | (Ok a, s') => f a s'
           | (Raise e, s') => (Raise e, s')
           end.
Definition lift {S A} (r : result A) : M S A := fun s => (r, s).
Definition gets {S A} (f : S -> A) : M S A := fun s => (Ok (f s), s).
Definition modify {S} (f : S -> S) : M S unit := fun s => (Ok tt, f s).

(** [try: m except SyntaxError as e: h e]; every other exception goes on. *)
Definition except_SyntaxError {S A} (m : M S A) (h : string -> M S A) : M S A :=
  fun s => match m s with
           | (Raise (SyntaxError msg), s') => h msg s'
           | other => other
           end.

Declare Scope py_scope.
Delimit Scope py_scope with py.
Notation "x <- m ;; k" := (bind m (fun x => k))
  (at level 100, m at next level, right associativity) : py_scope.
Notation "m ;;; k" := (bind m (fun _ => k))
  (at level 100, right associativity) : py_scope.
Local Open Scope py_scope.

Definition result_bind {A B} (r : result A) (f : A -> result B) : result B :=
  match r with Ok a => f a | Raise e => Raise e end.

(** ** Python values stored in attributes and parsed arguments *)

Inductive pyval : Type :=
  | VNone
  | VBool (b : bool)
  | VInt (z : Z)
  | VStr (s : string)
  | VList (l : list string).

#[global] Instance pyval_eq_dec : EqDecision pyval.
Proof. solve_decision. Defined.

Definition truthy (v : pyval) : bool :=
  match v with
  | VNone => false
  | VBool b => b
  | VInt z => negb (Z.eqb z 0)
  | VStr s => negb (String.eqb s "")
  | VList l => match l with [] => false | _ => true end
  end.

Definition str_of (v : pyval) : string :=
  match v with
  | VNone => "None"
  | VBool b => PyStr.str_bool b
  | VInt z => PyStr.str_int z
  | VStr s => s
  | VList l => "[" +:+ String.concat ", " (map (fun s => "'" +:+ s +:+ "'") l) +:+ "]"
  end.

(** ** The chat transport: users, embeds, messages and the channel log *)

(** What only a [discord.Member] has; a plain [discord.User] (a private
    channel) has neither attribute. *)
Record MemberInfo : Type := {
  nick : option string;
  server_permissions : gmap string bool
}.

Record User : Type := {
  user_id : nat;
  user_name : string;
  mention : string;
  member : option MemberInfo
}.

(** [a == b] on users compares ids. *)
Definition user_eqb (a b : User) : bool := Nat.eqb (user_id a) (user_id b).

(** An embed, both as built by [discord.Embed] and as read back from
    [message.embeds]; a field that is [None] is a key the dict lacks. *)
Record Embed : Type := {
  e_title : option string;
  e_footer : option string;
  e_fields : list (Z * string);
  e_description : option string
}.

Record Message : Type := {
  m_id : nat;
  m_channel : nat;
  m_author : User;
  m_content : string;
  m_embeds : list Embed
}.

Inductive destination : Type :=
  | ToChannel (c : nat)
  | ToUser (u : User).

Definition obj_id : Type := nat.

(** Arguments a handler is called with. *)
Inductive arg : Type :=
  | AMessage (m : Message)
  | ANamespace (ns : gmap string pyval)
  | AValue (v : pyval).

Inductive event : Type :=
  | ESend (d : destination) (content : option string) (embed : option Embed)
  | EEdit (msg : nat) (embed : Embed)
  | EDelete (msgs : list nat)
  | ECall (callee : obj_id) (positional : list arg) (keywords : gmap string pyval).

(** The log is kept most recent first; ids grow with time. *)
Record World : Type := {
  history : list Message;
  next_id : nat;
  trace : list event
}.

Definition emit (e : event) : M World unit :=
  modify (fun w => {| history := history w; next_id := next_id w; trace := trace w ++ [e] |}).

(** [send_message(destination, content, embed=...)] by the bot [me]; a
    message sent to a channel enters that channel's log. *)
Definition send_message (me : User) (d : destination) (content : option string)
    (embed : option Embed) : M World unit :=
  emit (ESend d content embed) ;;;
  match d with
  | ToChannel c =>
      modify (fun w =>
        {| history :=
             {| m_id := next_id w; m_channel := c; m_author := me;
                m_content := default "" content;
                m_embeds := match embed with Some e => [e] | None => [] end |}
             :: history w;
           next_id := S (next_id w);
           trace := trace w |})
  | ToUser _ => ret tt
  end.

Definition edit_message (msg : Message) (embed : Embed) : M World unit :=
  emit (EEdit (m_id msg) embed) ;;;
  modify (fun w =>
    {| history :=
         map (fun m => if Nat.eqb (m_id m) (m_id msg)
                       then {| m_id := m_id m; m_channel := m_channel m;
                               m_author := m_author m; m_content := m_content m;
                               m_embeds := [embed] |}
                       else m) (history w);
       next_id := next_id w;
       trace := trace w |}).

Definition delete_messages (msgs : list Message) : M World unit :=
  emit (EDelete (map m_id msgs)) ;;;
  modify (fun w =>
    {| history :=
         filter (fun m => m_id m ∉ map m_id msgs) (history w);
       next_id := next_id w;
       trace := trace w |}).

Definition delete_message (msg : Message) : M World unit := delete_messages [msg].

(** [logs_from(channel, limit, before=message)]: the [limit] most recent
    messages of the channel older than [message], most recent first. *)
Definition logs_from (channel : nat) (limit : nat) (before : Message) : M World (list Message) :=
  gets (fun w =>
    take limit
      (filter (fun m => m_channel m = channel ∧ (m_id m < m_id before)%nat) (history w))).

(** ** Function objects, the argument grammar and the bot *)

Inductive param_kind : Type :=
  | POSITIONAL_ONLY
  | POSITIONAL_OR_KEYWORD
  | VAR_POSITIONAL
  | KEYWORD_ONLY
  | VAR_KEYWORD.

Inductive pyclass : Type :=
  | ClsType
  | ClsStr
  | ClsInt
  | ClsBool
  | ClsDict
  | ClsMessage.

#[global] Instance pyclass_eq_dec : EqDecision pyclass.
Proof. solve_decision. Defined.

(** What a parameter can be annotated with: nothing
    ([inspect.Parameter.empty]), a class, [True]/[False], or a dict. *)
Inductive annotation : Type :=
  | AnnEmpty
  | AnnClass (c : pyclass)
  | AnnBool (b : bool)
  | AnnDict (d : gmap string pyval).

Record Param : Type := {
  p_name : string;
  p_kind : param_kind;
  p_annotation : annotation
}.

(** A reference to an object as far as [is] can tell references apart: a
    class object, or an instance just built by calling a class. *)
Inductive pyref : Type :=
  | RefClass (c : pyclass)
  | RefNew (c : pyclass).

Definition class_of (a : annotation) : pyclass :=
  match a with
  | AnnEmpty => ClsType
  | AnnClass _ => ClsType
  | AnnBool _ => ClsBool
  | AnnDict _ => ClsDict
  end.

(** Calling the class bound to a name on one argument: the builtin [type]
    gives the argument's class, any other class builds an instance. *)
Definition call_class (callee : pyclass) (a : annotation) : pyref :=
  match callee with
  | ClsType => RefClass (class_of a)
  | c => RefNew c
  end.

Definition py_is (a b : pyref) : bool :=
  match a, b with
  | RefClass c1, RefClass c2 => bool_decide (c1 = c2)
  | _, _ => false
  end.

(** One [add_argument] call on a sub-parser. *)
Record GrammarEntry : Type := {
  ge_name : string;
  ge_action : string;
  ge_const : option pyval;
  ge_type : pyclass
}.

Record SubParser : Type := {
  sp_name : option string;
  sp_help : option string;
  sp_args : list GrammarEntry
}.

Inductive callable_kind : Type :=
  | KFunction
  | KMethod
  | KOther.

Inductive code : Type :=
  | UserCode
  | WrappedCommand (command : obj_id)
  | ActivateMenu (title : option string) (allow_selection : bool)
  | BuiltinNext
  | BuiltinBack
  | BuiltinSelect
  | BuiltinDismiss.

Record FuncObj : Type := {
  f_kind : callable_kind;
  f_name : string;
  f_doc : option string;
  f_params : list Param;
  f_attrs : gmap string pyval;
  f_code : code
}.

(** An entry of [self.__menus]: the dict always has ["options"], and
    ["handler"] only for a selectable menu. *)
Record Menu : Type := {
  options : list string;
  handler : option obj_id
}.

Inductive check : Type :=
  | CheckPermissions
  | CheckOwner.

(** The bot together with the function objects it refers to.  Dict keys are
    [option string] because the code also uses [None] as a key. *)
Record Bot : Type := {
  user : User;
  title : string;
  prefix : string;
  sub_parsers : list SubParser;
  commands : gmap (option string) obj_id;
  menus : gmap (option string) Menu;
  permission_checks : list check;
  heap : gmap obj_id FuncObj;
  next_obj : obj_id
}.

Definition items_per_page : Z := 5.

Definition set_heap (h : gmap obj_id FuncObj) (n : obj_id) (b : Bot) : Bot :=
  {| user := user b; title := title b; prefix := prefix b; sub_parsers := sub_parsers b;
     commands := commands b; menus := menus b; permission_checks := permission_checks b;
     heap := h; next_obj := n |}.

Definition set_sub_parsers (ps : list SubParser) (b : Bot) : Bot :=
  {| user := user b; title := title b; prefix := prefix b; sub_parsers := ps;
     commands := commands b; menus := menus b; permission_checks := permission_checks b;
     heap := heap b; next_obj := next_obj b |}.

Definition set_commands (c : gmap (option string) obj_id) (b : Bot) : Bot :=
  {| user := user b; title := title b; prefix := prefix b; sub_parsers := sub_parsers b;
     commands := c; menus := menus b; permission_checks := permission_checks b;
     heap := heap b; next_obj := next_obj b |}.

Definition set_menus (m : gmap (option string) Menu) (b : Bot) : Bot :=
  {| user := user b; title := title b; prefix := prefix b; sub_parsers := sub_parsers b;
     commands := commands b; menus := m; permission_checks := permission_checks b;
     heap := heap b; next_obj := next_obj b |}.

(** A [def] (or the creation of a bound method): a new object. *)
Definition alloc (f : FuncObj) : M Bot obj_id :=
  fun b => (Ok (next_obj b), set_heap (<[next_obj b := f]> (heap b)) (S (next_obj b)) b).

Definition get_obj (o : obj_id) : M Bot FuncObj :=
  fun b => match heap b !! o with
           | Some f => (Ok f, b)
           | None => (Raise TypeError, b)
           end.

(** [getattr(o, attr)]; [None] stands for [AttributeError]. *)
Definition getattr (h : gmap obj_id FuncObj) (o : obj_id) (attr : string) : option pyval :=
  match h !! o with
  | Some f => f_attrs f !! attr
  | None => None
  end.

(** [setattr(o, attr, v)]: a function takes new attributes, a bound method
    refuses them with [AttributeError]. *)
Definition setattr (o : obj_id) (attr : string) (v : pyval) : M Bot unit :=
  fun b => match heap b !! o with
           | Some f =>
               match f_kind f with
               | KMethod => (Raise AttributeError, b)
               | _ =>
                   (Ok tt,
                    set_heap (<[o := {| f_kind := f_kind f; f_name := f_name f; f_doc := f_doc f;
                                        f_params := f_params f;
                                        f_attrs := <[attr := v]> (f_attrs f);
                                        f_code := f_code f |}]> (heap b)) (next_obj b) b)
               end
           | None => (Raise AttributeError, b)
           end.

(** ** Decorators that attach metadata *)

Definition owner_only (command : obj_id) : M Bot obj_id :=
  setattr command "bot_owner" (VBool true) ;;; ret command.

(** [permissions_required] applied to a command (directly, or through the
    [partial] it returns when called without one). *)
Definition permissions_required (command : obj_id) (permissions : pyval)
    (check_failed : pyval) : M Bot obj_id :=
  setattr command "permissions_required" permissions ;;;
  setattr command "check_failed" check_failed ;;;
  ret command.



(** ** [__parse_keyword_postional] and [__parse_parameters] *)

Definition add_parser (name : option string) (help : option string) : M Bot nat :=
  fun b => (Ok (length (sub_parsers b)),
            set_sub_parsers (sub_parsers b ++ [{| sp_name := name; sp_help := help; sp_args := [] |}]) b).

(** [sub_parser.add_argument(name, action=, const=, type=)].  Only the
    ["store"] action accepts both a [const] and a [type] keyword; the
    constructors of the other actions raise [TypeError] on them. *)
Definition add_argument (sub_parser : nat) (e : GrammarEntry) : M Bot unit :=
  if String.eqb (ge_action e) "store" then
    modify (fun b =>
      set_sub_parsers
        (alter (fun sp => {| sp_name := sp_name sp; sp_help := sp_help sp;
                             sp_args := sp_args sp ++ [e] |}) sub_parser (sub_parsers b)) b)
  else raise TypeError.

(** The locals [action], [const] and [type] at the [add_argument] call.  The
    local [type] is bound to [str] before the tests, so [type(...)] in the
    tests calls [str]. *)
Definition keyword_postional_entry (parameter : Param) (name : string) : result GrammarEntry :=
  let action := "store" in
  let const := None in
  let type := ClsStr in
  if py_is (call_class type (p_annotation parameter)) (RefClass ClsBool) then
    match p_annotation parameter with
    | AnnBool true =>
        Ok {| ge_name := name; ge_action := "store_true"; ge_const := const; ge_type := type |}
    | _ => Raise AttributeError   (* [parameter.annontation] *)
    end
  else if py_is (call_class type (p_annotation parameter)) (RefClass ClsDict) then
    match p_annotation parameter with
    | AnnDict d =>
        match d !! "const" with
        | Some c =>
            Ok {| ge_name := name; ge_action := "store_const"; ge_const := Some c;
                  ge_type := type |}
        | None => Raise KeyError
        end
    | _ => Raise TypeError
    end
  else
    match p_annotation parameter with
    | AnnClass ClsInt =>
        Ok {| ge_name := name; ge_action := action; ge_const := const; ge_type := ClsInt |}
    | _ => Ok {| ge_name := name; ge_action := action; ge_const := const; ge_type := type |}
    end.

Definition parse_keyword_postional (parameter : Param) (name : string)
    (sub_parser : nat) : M Bot unit :=
  e <- lift (keyword_postional_entry parameter name) ;;
  add_argument sub_parser e.

Fixpoint parse_parameter_list (parameters : list Param) (sub_parser : nat) : M Bot unit :=
  match parameters with
  | [] => ret tt
  | parameter :: rest =>
      match p_annotation parameter with
      | AnnClass ClsMessage => parse_parameter_list rest sub_parser
      | _ =>
          match p_kind parameter with
          | POSITIONAL_ONLY => raise (SyntaxError "Parameters can not be postional only.")
          | POSITIONAL_OR_KEYWORD | KEYWORD_ONLY =>
              parse_keyword_postional parameter (p_name parameter) sub_parser ;;;
              parse_parameter_list rest sub_parser
          | _ => parse_parameter_list rest sub_parser
          end
      end
  end.

Definition falsy_name (name : option string) : bool :=
  match name with
  | None => true
  | Some s => String.eqb s ""
  end.

Definition parse_parameters (command : obj_id) (name : option string) : M Bot string :=
  f <- get_obj command ;;
  match f_kind f with
  | KFunction | KMethod =>
      let name := if falsy_name name then f_name f else default "" name in
      let help := f_doc f in
      new_sub_parser <- add_parser (Some name) help ;;
      parse_parameter_list (f_params f) new_sub_parser ;;;
      ret name
  | KOther => raise (SyntaxError "Commands must be functions.")
  end.

(** ** [Bot.command]: wrapping and registration *)

(** [@wraps(command) def wrapped_command(message, parsed_args)]: a new
    function object that takes over the name, the doc string and a copy of
    the attribute dict of [command]; [inspect.signature] follows
    [__wrapped__], hence the same parameters.  (The [__wrapped__] entry
    itself is left out of [f_attrs]: nothing else reads it.) *)
Definition wraps (command : obj_id) : M Bot obj_id :=
  f <- get_obj command ;;
  alloc {| f_kind := KFunction; f_name := f_name f; f_doc := f_doc f;
           f_params := f_params f; f_attrs := f_attrs f;
           f_code := WrappedCommand command |}.

(** [mirrorAttr(source, dest, attr)].  [wrapped_command] is the variable of
    the enclosing [command] call that the [except] branch reads. *)
Definition mirrorAttr (wrapped_command : obj_id) (source dest : obj_id) (attr : string)
    : M Bot obj_id :=
  fun b =>
    match getattr (heap b) source attr with
    | Some value =>
        match setattr dest attr value b with
        | (Ok _, b') => (Ok source, b')
        | (Raise AttributeError, b') => (Ok wrapped_command, b')
        | (Raise e, b') => (Raise e, b')
        end
    | None => (Ok wrapped_command, b)
    end.

Definition store_command (name : option string) (o : obj_id) : M Bot unit :=
  modify (fun b => set_commands (<[name := o]> (commands b)) b).

Definition command (command : option obj_id) (name : option string) : M Bot obj_id :=
  match command with
  | None => raise TypeError   (* [partial(None, ...)] *)
  | Some command =>
      name <- parse_parameters command name ;;
      wrapped_command <- wraps command ;;
      wrapped_command <- mirrorAttr wrapped_command command wrapped_command "bot_owner" ;;
      wrapped_command <- mirrorAttr wrapped_command command wrapped_command "check_failed" ;;
      wrapped_command <-
        mirrorAttr wrapped_command command wrapped_command "permissions_required" ;;
      store_command (Some name) wrapped_command ;;;
      ret wrapped_command
  end.

(** What registration keeps true of the heap: [c] holds the attributes and
    code of [f], and [n] holds a wrapper function around [c]. *)
Definition mirrors (c n : obj_id) (f : FuncObj) (b : Bot) : Prop :=
  (exists f', heap b !! c = Some f' /\ f_attrs f' = f_attrs f /\ f_code f' = f_code f)
  /\ (exists w, heap b !! n = Some w /\ f_kind w = KFunction /\ f_code w = WrappedCommand c).

(** ** Menu registration *)

Definition activate_menu_obj (identifier : option string) (allow_selection : bool) : FuncObj :=
  {| f_kind := KFunction; f_name := "activate_menu"; f_doc := None;
     f_params := [ {| p_name := "message"; p_kind := POSITIONAL_OR_KEYWORD;
                      p_annotation := AnnEmpty |};
                   {| p_name := "parsed_args"; p_kind := POSITIONAL_OR_KEYWORD;
                      p_annotation := AnnEmpty |} ];
     f_attrs := ∅;
     f_code := ActivateMenu identifier allow_selection |}.

Definition store_menu (name : option string) (m : Menu) : M Bot unit :=
  modify (fun b => set_menus (<[name := m]> (menus b)) b).

(** The decorator [register_menu] returned by [__register_select_menu],
    applied to [command].  [None] is the implicit return for something that
    is not a plain function. *)
Definition register_select_menu (menu_options : list string) (name : option string)
    (command : obj_id) : M Bot (option obj_id) :=
  let allow_selection := true in
  f <- get_obj command ;;
  match f_kind f with
  | KFunction =>
      let identifier := match name with None => f_name f | Some n => n end in
      let help := f_doc f in
      add_parser (Some identifier) help ;;;
      store_menu name {| options := menu_options; handler := Some command |} ;;;
      activate_menu <- alloc (activate_menu_obj (Some identifier) allow_selection) ;;
      store_command (Some identifier) activate_menu ;;;
      ret (Some command)
  | _ => ret None
  end.

Definition register_no_select_menu (menu_options : list string) (name : option string)
    (help : option string) : M Bot unit :=
  add_parser name help ;;;
  store_menu name {| options := menu_options; handler := None |} ;;;
  activate_menu <- alloc (activate_menu_obj name false) ;;
  store_command name activate_menu.

(** [menu_command(menu_options, allow_selection, name, help)]: with
    selection it returns the decorator, which is then applied to
    [decorated]; without it registers at once and returns [None]. *)
Definition menu_command (menu_options : list string) (allow_selection : bool)
    (name help : option string) (decorated : obj_id) : M Bot (option obj_id) :=
  if allow_selection then register_select_menu menu_options name decorated
  else register_no_select_menu menu_options name help ;;; ret None.

(** ** [Bot.__init__] *)

Definition message_param : Param :=
  {| p_name := "message"; p_kind := POSITIONAL_OR_KEYWORD; p_annotation := AnnClass ClsMessage |}.

Definition builtin_method (name doc : string) (extra : list Param) (c : code) : FuncObj :=
  {| f_kind := KMethod; f_name := name; f_doc := Some doc;
     f_params := message_param :: extra; f_attrs := ∅; f_code := c |}.

Definition builtins : list (string * FuncObj) :=
  [ ("next", builtin_method "next" "Go to the next page on the nearest menu." [] BuiltinNext);
    ("back", builtin_method "back" "Go to the next page on the nearest menu." [] BuiltinBack);
    ("select",
     builtin_method "select" "Select a menu option."
       [ {| p_name := "choice"; p_kind := POSITIONAL_OR_KEYWORD; p_annotation := AnnClass ClsInt |} ]
       BuiltinSelect);
    ("dismiss", builtin_method "dismiss" "Dismiss the nearest menu." [] BuiltinDismiss) ].

Fixpoint register_builtins (l : list (string * FuncObj)) : M Bot unit :=
  match l with
  | [] => ret tt
  | (command_name, f) :: rest =>
      o <- alloc f ;;
      command (Some o) (Some command_name) ;;;
      register_builtins rest
  end.

Definition empty_bot (me : User) (title prefix : string) : Bot :=
  {| user := me; title := title; prefix := prefix; sub_parsers := [];
     commands := ∅; menus := ∅;
     permission_checks := [CheckPermissions; CheckOwner];
     heap := ∅; next_obj := 0%nat |}.

Definition init (me : User) (title prefix : string) : result unit * Bot :=
  register_builtins builtins (empty_bot me title prefix).

(** ** The menu state machine *)

(** [l[i]] on a Python list: negative indices count from the end. *)
Definition py_index {A} (l : list A) (i : Z) : result A :=
  let n := Z.of_nat (length l) in
  let j := if i <? 0 then i + n else i in
  if (0 <=? j) && (j <? n) then
    match l !! Z.to_nat j with
    | Some x => Ok x
    | None => Raise IndexError
    end
  else Raise IndexError.

(** [range(start, stop)] *)
Definition py_range (start stop : Z) : list Z := seqZ start (stop - start).

Definition fmt_title (title : option string) : string := default "None" title.

Fixpoint menu_fields (options : list string) (indices : list Z) : result (list (Z * string)) :=
  match indices with
  | [] => Ok []
  | index :: rest =>
      result_bind (py_index options index) (fun option =>
      result_bind (menu_fields options rest) (fun fields =>
      Ok ((index + 1, option) :: fields)))
  end.

Fixpoint menu_description (options : list string) (indices : list Z) (description : string)
    : result string :=
  match indices with
  | [] => Ok description
  | index :: rest =>
      result_bind (py_index options index) (fun option =>
      menu_description options rest (description +:+ option +:+ String "010"%char EmptyString))
  end.

Definition create_embed_menu (b : Bot) (title : option string) (page : Z)
    (allow_selection : bool) : result Embed :=
  let start := (page - 1) * items_per_page in
  let embed_title := user_name (user b) +:+ " menu: " +:+ fmt_title title in
  let state_string := state_string page (fmt_title title) allow_selection in
  match menus b !! title with
  | None => Raise KeyError
  | Some menu =>
      let indices := py_range start (start + items_per_page) in
      if allow_selection then
        result_bind (menu_fields (options menu) indices) (fun fields =>
        Ok {| e_title := Some embed_title; e_footer := Some state_string;
              e_fields := fields; e_description := None |})
      else
        result_bind (menu_description (options menu) indices "") (fun description =>
        Ok {| e_title := Some embed_title; e_footer := Some state_string;
              e_fields := []; e_description := Some description |})
  end.

Definition found_menu : Type := Message * Z * string * bool.

(** The [async for] loop of [__find_menu] over the messages [logs_from]
    yields.  [Ok None] is the end of the function without a [return].  The
    [return] statement sits inside the test on the number of embeds and
    outside the test on the title, so a title without the prefix reaches it
    with [page] never assigned. *)
Fixpoint find_menu_scan (b : Bot) (messages : list Message) : result (option found_menu) :=
  let title_prefix := user_name (user b) +:+ " menu:" in
  match messages with
  | [] => Ok None
  | message :: rest =>
      if user_eqb (m_author message) (user b) then
        match m_embeds message with
        | [embed] =>
            match e_title embed with
            | None => Raise KeyError
            | Some title =>
                if PyStr.startswith title title_prefix then
                  match e_footer embed with
                  | None => Raise KeyError
                  | Some footer =>
                      match decode_footer footer with
                      | Some (page, list, allow_selection) =>
                          Ok (Some (message, page, list, allow_selection))
                      | None => Raise (SyntaxError "Invaild footer detected.")
                      end
                  end
                else Raise UnboundLocalError
            end
        | _ => find_menu_scan b rest
        end
      else find_menu_scan b rest
  end.

(** A message the scan passes over: not the bot's, or not exactly one embed. *)
Definition passed_over (b : Bot) (m : Message) : Prop :=
  user_eqb (m_author m) (user b) = false \/ length (m_embeds m) <> 1%nat.

Definition find_menu (b : Bot) (message : Message) : M World (option found_menu) :=
  messages <- logs_from (m_channel message) 50%nat message ;;
  lift (find_menu_scan b messages).

(** [menu, page, list, allow_selection = await self.__find_menu(message)]:
    unpacking [None] raises [TypeError]. *)
Definition unpack_found (found : option found_menu) : M World found_menu :=
  match found with
  | Some t => ret t
  | None => raise TypeError
  end.

Definition page (b : Bot) (message : Message) (number_of_pages : Z) : M World unit :=
  found <- find_menu b message ;;
  located <- unpack_found found ;;
  let '(menu, page, list, allow_selection) := located in
  let next_page := page + number_of_pages in
  new_embed <- lift (create_embed_menu b (Some list) next_page allow_selection) ;;
  edit_message menu new_embed ;;;
  delete_message message.

Definition next (b : Bot) (message : Message) : M World unit := page b message 1.

Definition back (b : Bot) (message : Message) : M World unit := page b message (-1).

(** A call with one positional argument, as [select] makes on a menu's
    handler.  A user function runs (recorded in the trace); the bot's own
    callables of two parameters refuse the call, and its one-parameter
    methods fail reading [message.channel] off the argument. *)
Definition call_handler (b : Bot) (h : obj_id) (a : arg) : M World unit :=
  match heap b !! h with
  | Some f =>
      match f_code f with
      | UserCode => emit (ECall h [a] ∅)
      | BuiltinNext | BuiltinBack | BuiltinDismiss => raise AttributeError
      | _ => raise TypeError
      end
  | None => raise TypeError
  end.

(** The value of [choice] in the comparison [0 <= choice < len(list)]. *)
Definition int_of_choice (choice : arg) : result Z :=
  match choice with
  | AValue (VInt z) => Ok z
  | AValue (VBool b) => Ok (if b then 1 else 0)
  | _ => Raise TypeError
  end.

Definition select (b : Bot) (message : Message) (choice : arg) : M World unit :=
  found <- find_menu b message ;;
  located <- unpack_found found ;;
  let '(menu, page, list, allow_selection) := located in
  if negb allow_selection then raise (SyntaxError "That menu does not allow selection.")
  else
    c <- lift (int_of_choice choice) ;;
    if (0 <=? c) && (c <? Z.of_nat (String.length list)) then
      match menus b !! Some list with
      | None => raise KeyError
      | Some m =>
          selection <- lift (py_index (options m) c) ;;
          match handler m with
          | None => raise KeyError
          | Some h =>
              call_handler b h (AValue (VStr selection)) ;;;
              delete_messages [message; menu]
          end
      end
    else ret tt.

Definition dismiss (b : Bot) (message : Message) : M World unit :=
  found <- find_menu b message ;;
  located <- unpack_found found ;;
  let '(menu, page, list, allow_selection) := located in
  delete_messages [menu; message].

(** The body of [activate_menu(message, parsed_args)]. *)
Definition activate_menu (b : Bot) (identifier : option string) (allow_selection : bool)
    (message : Message) : M World unit :=
  embeded_menu <- lift (create_embed_menu b identifier 1 allow_selection) ;;
  send_message (user b) (ToChannel (m_channel message)) None (Some embeded_menu) ;;;
  delete_message message.

(** ** Calling what is stored in [self.commands] *)

Definition only_key (key : string) (kw : gmap string pyval) : bool :=
  bool_decide (delete key kw = ∅).

(** [command(message, **dict_args)], the call the wrapper makes.  A user
    function is opaque: its call is recorded in the trace with the arguments
    it receives. *)
Definition call_keywords (b : Bot) (c : obj_id) (message : Message)
    (dict_args : gmap string pyval) : M World unit :=
  match heap b !! c with
  | None => raise TypeError
  | Some f =>
      match f_code f with
      | UserCode => emit (ECall c [AMessage message] dict_args)
      | BuiltinNext => if bool_decide (dict_args = ∅) then next b message else raise TypeError
      | BuiltinBack => if bool_decide (dict_args = ∅) then back b message else raise TypeError
      | BuiltinDismiss =>
          if bool_decide (dict_args = ∅) then dismiss b message else raise TypeError
      | BuiltinSelect =>
          match dict_args !! "choice" with
          | Some v =>
              if only_key "choice" dict_args then select b message (AValue v)
              else raise TypeError
          | None => raise TypeError
          end
      | WrappedCommand _ =>
          match dict_args !! "parsed_args" with
          | Some _ =>
              if only_key "parsed_args" dict_args then raise AttributeError
              else raise TypeError
          | None => raise TypeError
          end
      | ActivateMenu identifier allow_selection =>
          match dict_args !! "parsed_args" with
          | Some _ =>
              if only_key "parsed_args" dict_args
              then activate_menu b identifier allow_selection message
              else raise TypeError
          | None => raise TypeError
          end
      end
  end.

(** [await command(message, parsed_args)] in [process_message].  For a
    wrapper this is the body of [wrapped_command]: [del parsed_args.command],
    [vars(parsed_args)], then the call above. *)
Definition call_command (b : Bot) (o : obj_id) (message : Message)
    (parsed_args : gmap string pyval) : M World unit :=
  match heap b !! o with
  | None => raise TypeError
  | Some f =>
      match f_code f with
      | WrappedCommand c =>
          match parsed_args !! "command" with
          | Some _ => call_keywords b c message (delete "command" parsed_args)
          | None => raise AttributeError
          end
      | UserCode => emit (ECall o [AMessage message; ANamespace parsed_args] ∅)
      | ActivateMenu identifier allow_selection =>
          activate_menu b identifier allow_selection message
      | BuiltinSelect => select b message (ANamespace parsed_args)
      | BuiltinNext | BuiltinBack | BuiltinDismiss => raise TypeError
      end
  end.

(** ** The permission pipeline and the dispatcher

    The library functions the dispatcher calls are parameters: [str.format]
    with keyword arguments, the comparison of a user with
    [discord.AppInfo.owner], [shlex.split] and the [parse_args] of the
    argument parser built from the registered sub-parsers. *)

Section Dispatcher.

Variable str_format : string -> gmap string pyval -> result string.
Variable is_app_owner : User -> bool.
Variable shlex_split : string -> result (list string).
Variable parse_args : list SubParser -> list string -> result (gmap string pyval).

Definition chars_of (s : string) : list string :=
  map (fun c => String c EmptyString) (list_ascii_of_string s).

(** What [for permission in v] runs over. *)
Definition iter_strings (v : pyval) : result (list string) :=
  match v with
  | VList l => Ok l
  | VStr s => Ok (chars_of s)
  | _ => Raise TypeError
  end.

Definition owner_refusal (author : User) : string :=
  mention author +:+ " that command is only accesible to the owner of the bot.".

(** The [for permission in command.permissions_required] loop; every
    [AttributeError] inside the [try] makes the check return [True]. *)
Fixpoint check_permission_loop (b : Bot) (command : obj_id) (message : Message)
    (author_permissions : MemberInfo) (permissions : list string) : M World pyval :=
  match permissions with
  | [] => ret (VBool true)
  | permission :: rest =>
      match server_permissions author_permissions !! permission with
      | None => ret (VBool true)
      | Some true => check_permission_loop b command message author_permissions rest
      | Some false =>
          let name := match nick author_permissions with
                      | Some n => VStr n
                      | None => VNone
                      end in
          let values : gmap string pyval :=
            {[ "name" := name; "mention" := VStr (mention (m_author message)) ]} in
          match getattr (heap b) command "check_failed" with
          | Some (VStr template) =>
              match str_format template values with
              | Ok message_text =>
                  send_message (user b) (ToChannel (m_channel message))
                    (Some message_text) None ;;;
                  ret (VBool false)
              | Raise AttributeError => ret (VBool true)
              | Raise e => raise e
              end
          | _ => ret (VBool true)
          end
      end
  end.

Definition check_permissions (b : Bot) (command : obj_id) (message : Message)
    : M World pyval :=
  match getattr (heap b) command "permissions_required" with
  | None => ret (VBool true)
  | Some required =>
      if truthy required then
        match member (m_author message) with
        | None => ret (VBool true)
        | Some author_permissions =>
            permissions <- lift (iter_strings required) ;;
            check_permission_loop b command message author_permissions permissions
        end
      else ret (VBool true)
  end.

(** [check_owner]: without [bot_owner] the check passes; with a false
    [bot_owner] the function ends without a [return]. *)
Definition check_owner (b : Bot) (command : obj_id) (message : Message) : M World pyval :=
  match getattr (heap b) command "bot_owner" with
  | None => ret (VBool true)
  | Some flag =>
      if truthy flag then
        if is_app_owner (m_author message) then ret (VBool true)
        else
          send_message (user b) (ToChannel (m_channel message))
            (Some (owner_refusal (m_author message))) None ;;;
          ret (VBool false)
      else ret VNone
  end.

Definition run_check (b : Bot) (c : check) (command : obj_id) (message : Message)
    : M World pyval :=
  match c with
  | CheckPermissions => check_permissions b command message
  | CheckOwner => check_owner b command message
  end.

(** [passed = True; for check in self.permission_checks: ...]: no
    [break], so every check runs. *)
Fixpoint run_checks (b : Bot) (checks : list check) (command : obj_id) (message : Message)
    (passed : bool) : M World bool :=
  match checks with
  | [] => ret passed
  | c :: rest =>
      outcome <- run_check b c command message ;;
      run_checks b rest command message (if truthy outcome then passed else false)
  end.

(** [command_name in self.commands] and [self.commands[command_name]]. *)
Definition lookup_command (b : Bot) (command_name : pyval) : option obj_id :=
  match command_name with
  | VStr s => commands b !! Some s
  | VNone => commands b !! None
  | _ => None
  end.

(** The body of [if command_name in self.commands:]. *)
Definition dispatch (b : Bot) (command : obj_id) (message : Message)
    (parsed_args : gmap string pyval) : M World unit :=
  passed <- run_checks b (permission_checks b) command message true ;;
  if passed then call_command b command message parsed_args
  else ret tt.

Definition process_message (b : Bot) (message : Message) : M World unit :=
  if negb (user_eqb (m_author message) (user b)) then
    if PyStr.startswith (m_content message) (prefix b) then
      except_SyntaxError
        (let message_no_prefix := PyStr.lstrip (prefix b) (m_content message) in
         message_seperated <- lift (shlex_split message_no_prefix) ;;
         parsed_args <- lift (parse_args (sub_parsers b) message_seperated) ;;
         match parsed_args !! "command" with
         | None => raise AttributeError
         | Some command_name =>
             match lookup_command b command_name with
             | Some command => dispatch b command message parsed_args
             | None => ret tt
             end
         end)
        (fun error_message =>
           send_message (user b) (ToUser (m_author message)) (Some error_message) None)
    else ret tt
  else ret tt.

(** Calling a bound coroutine method: [self] comes with the binding and
    the explicit arguments follow.  A number of arguments other than the
    declared one raises [TypeError] at the call; otherwise the call only
    builds the coroutine, whose body runs when it is awaited. *)
Definition call_bound {A} (params : list string) (explicit : nat) (body : M World A)
    : result (M World A) :=
  if Nat.eqb (length params) (S explicit) then Ok body else Raise TypeError.

Definition process_message_params : list string := ["self"; "message"].

(** [self.process_message(self, message)]: two explicit arguments, and the
    coroutine is dropped, not awaited. *)
Definition on_message (b : Bot) (message : Message) : M World unit :=
  coroutine <- lift (call_bound process_message_params 2 (process_message b message)) ;;
  ret tt.

End Dispatcher.

(** ** Reference instances of the library parameters

    Executable stand-ins used to run the dispatcher on concrete messages.
    [str_format] agrees with [str.format] called with keyword arguments on
    templates whose
    replacement fields are plain names and that hold no doubled braces;
    [shlex_split] agrees with [shlex.split] on text made of words and spaces
    (no quotes, no backslashes); [parse_args] agrees with the parser on a
    known command name followed by one plain token per registered argument. *)

Module Lib.

Fixpoint format_go (values : gmap string pyval) (s : string) (field : option string)
    (out : string) : result string :=
  match s with
  | EmptyString =>
      match field with
      | None => Ok out
      | Some _ => Raise ValueError
      end
  | String c s' =>
      match field with
      | Some name =>
          if Ascii.eqb c "}" then
            if String.eqb name "" then Raise IndexError
            else
              match values !! name with
              | Some v => format_go values s' None (out +:+ str_of v)
              | None => Raise KeyError
              end
          else format_go values s' (Some (name +:+ String c EmptyString)) out
      | None =>
          if Ascii.eqb c "{" then format_go values s' (Some EmptyString) out
          else if Ascii.eqb c "}" then Raise ValueError
          else format_go values s' None (out +:+ String c EmptyString)
      end
  end.

Definition str_format (template : string) (values : gmap string pyval) : result string :=
  format_go values template None "".

Fixpoint split_go (s current : string) : list string :=
  match s with
  | EmptyString => if String.eqb current "" then [] else [current]
  | String c s' =>
      if Ascii.eqb c " " then
        if String.eqb current "" then split_go s' ""
        else current :: split_go s' ""
      else split_go s' (current +:+ String c EmptyString)
  end.

Definition shlex_split (s : string) : result (list string) := Ok (split_go s "").

Definition usage_error : string := "usage error".

Fixpoint find_sub_parser (name : string) (l : list SubParser) (found : option SubParser)
    : option SubParser :=
  match l with
  | [] => found
  | sp :: rest =>
      find_sub_parser name rest
        (if bool_decide (sp_name sp = Some name) then Some sp else found)
  end.

Definition convert (e : GrammarEntry) (token : string) : option pyval :=
  match ge_type e with
  | ClsInt =>
      match PyStr.int_of_digits token with
      | Some z => Some (VInt z)
      | None => None
      end
  | _ => Some (VStr token)
  end.

Fixpoint bind_tokens (entries : list GrammarEntry) (tokens : list string)
    (ns : gmap string pyval) : option (gmap string pyval) :=
  match entries, tokens with
  | [], [] => Some ns
  | e :: entries', token :: tokens' =>
      match convert e token with
      | Some v => bind_tokens entries' tokens' (<[ge_name e := v]> ns)
      | None => None
      end
  | _, _ => None
  end.

Definition parse_args (sub_parsers : list SubParser) (tokens : list string)
    : result (gmap string pyval) :=
  match tokens with
  | [] => Ok {[ "command" := VNone ]}
  | name :: rest =>
      match find_sub_parser name sub_parsers None with
      | Some sp =>
          match bind_tokens (sp_args sp) rest {[ "command" := VStr name ]} with
          | Some ns => Ok ns
          | None => Raise (SyntaxError usage_error)
          end
      | None => Raise (SyntaxError usage_error)
      end
  end.

End Lib.

(** ** Concrete bots, users and channel logs *)

Module Scenario.

Definition me : User :=
  {| user_id := 1; user_name := "helper"; mention := "<@1>"; member := None |}.

(** A server member without the [manage_messages] permission. *)
Definition alice : User :=
  {| user_id := 2; user_name := "alice"; mention := "<@2>";
     member := Some {| nick := Some "Al";
                       server_permissions :=
                         {[ "administrator" := false; "manage_messages" := false;
                            "send_messages" := true ]} |} |}.

(** The bot after [Bot("helper", "!")]: objects 0 to 7 are the four bound
    methods and their wrappers. *)
Definition bot0 : Bot := snd (init me "helper" "!").

Definition user_function (name : string) (params : list Param) : FuncObj :=
  {| f_kind := KFunction; f_name := name; f_doc := None; f_params := params;
     f_attrs := ∅; f_code := UserCode |}.

Definition plain (name : string) : Param :=
  {| p_name := name; p_kind := POSITIONAL_OR_KEYWORD; p_annotation := AnnEmpty |}.

Definition user_message (id : nat) (content : string) : Message :=
  {| m_id := id; m_channel := 7; m_author := alice; m_content := content; m_embeds := [] |}.

Definition world_of (log : list Message) (next : nat) : World :=
  {| history := log; next_id := next; trace := [] |}.

(** [@bot.command def greet(message: discord.Message, name)] *)
Definition greet : FuncObj := user_function "greet" [message_param; plain "name"].

Definition bot_greet : Bot :=
  snd ((g <- alloc greet ;; command (Some g) None) bot0).

Definition greet_message : Message := user_message 10 "!greet Alice".

(** [@bot.command @bot.owner_only def ban(message: discord.Message, target)] *)
Definition ban : FuncObj := user_function "ban" [message_param; plain "target"].

(** [ban] once [owner_only] has marked it, and the bot at that point. *)
Definition ban_marked : FuncObj :=
  {| f_kind := KFunction; f_name := "ban"; f_doc := None;
     f_params := [message_param; plain "target"];
     f_attrs := {[ "bot_owner" := VBool true ]}; f_code := UserCode |}.

Definition bot_ban_marked : Bot :=
  snd ((g <- alloc ban ;; owner_only g) bot0).

Definition bot_ban : Bot :=
  snd ((g <- alloc ban ;; owner_only g ;;; command (Some g) None) bot0).

Definition ban_message : Message := user_message 10 "!ban bob".

(** [@bot.command def mute(message: discord.Message, silent: True)] *)
Definition mute : FuncObj :=
  user_function "mute"
    [message_param;
     {| p_name := "silent"; p_kind := POSITIONAL_OR_KEYWORD; p_annotation := AnnBool true |}].

Definition bot_mute : Bot :=
  snd ((g <- alloc mute ;; command (Some g) None) bot0).

(** [purge] is owner only and needs [manage_messages]. *)
Definition purge : FuncObj := user_function "purge" [message_param].

Definition purge_denied : string := "{mention} may not purge.".

Definition bot_purge : Bot :=
  snd ((g <- alloc purge ;;
        permissions_required g (VList ["manage_messages"]) (VStr purge_denied) ;;;
        owner_only g ;;;
        command (Some g) None) bot0).

Definition purge_message : Message := user_message 10 "!purge".

(** The selection handler of a menu. *)
Definition pick : FuncObj := user_function "pick" [plain "option"].

Definition fruit_options : list string := ["apple"; "banana"; "cherry"; "date"; "egg"].

(** [@bot.menu_command(fruit_options, name="fruits") def pick(option)] *)
Definition bot_fruits : Bot :=
  snd ((g <- alloc pick ;; menu_command fruit_options true (Some "fruits") None g) bot0).

(** The same options under the two-letter name ["ab"]. *)
Definition bot_ab : Bot :=
  snd ((g <- alloc pick ;; menu_command fruit_options true (Some "ab") None g) bot0).

(** A display-only menu. *)
Definition bot_rules : Bot :=
  snd ((g <- alloc pick ;;
        menu_command fruit_options false (Some "rules") (Some "Show the rules.") g) bot0).

(** [@bot.menu_command(fruit_options) def fruits(option)]: no explicit name. *)
Definition fruits_handler : FuncObj := user_function "fruits" [plain "option"].

Definition bot_unnamed : Bot :=
  snd ((g <- alloc fruits_handler ;; menu_command fruit_options true None None g) bot0).

Definition bot_message (id : nat) (embeds : list Embed) : Message :=
  {| m_id := id; m_channel := 7; m_author := me; m_content := ""; m_embeds := embeds |}.

(** The message the bot posts for page [page] of the menu [name]. *)
Definition menu_message (b : Bot) (id : nat) (name : string) (page : Z) (selection : bool)
    : Message :=
  bot_message id
    match create_embed_menu b (Some name) page selection with
    | Ok e => [e]
    | Raise _ => []
    end.

Definition fruits_menu : Message := menu_message bot_fruits 5 "fruits" 1 true.

Definition ab_menu : Message := menu_message bot_ab 5 "ab" 1 true.

Definition rules_menu : Message := menu_message bot_rules 5 "rules" 1 false.

(** A message of the bot with one embed that is not a menu. *)
Definition welcome : Message :=
  bot_message 9
    [ {| e_title := Some "Welcome"; e_footer := Some "new here?"; e_fields := [];
         e_description := None |} ].

End Scenario.

(** ** The channel around the ["fruits"] menu *)

Module Fruits.

Definition activation : Message := Scenario.user_message 10 "!fruits".

Definition page_1 : Embed :=
  {| e_title := Some "helper menu: fruits";
     e_footer := Some "Page: 1 List: fruits Selection: True";
     e_fields := [(1, "apple"); (2, "banana"); (3, "cherry"); (4, "date"); (5, "egg")];
     e_description := None |}.

(** The channel after the activation: the menu message, the command
    message deleted. *)
Definition activated : World :=
  {| history := [Scenario.bot_message 11 [page_1]]; next_id := 12;
     trace := [ESend (ToChannel 7) None (Some page_1); EDelete [10%nat]] |}.

Definition next_message : Message := Scenario.user_message 12 "!next".

(** ... and after the invoker typed ["!next"]. *)
Definition before_next : World :=
  {| history := next_message :: history activated; next_id := 13;
     trace := trace activated |}.

(** The footer of the menu message in a log. *)
Definition menu_footer (w : World) : option string :=
  match filter (fun m => m_id m = 11%nat) (history w) with
  | m :: _ =>
      match m_embeds m with
      | e :: _ => e_footer e
      | [] => None
      end
  | [] => None
  end.

End Fruits.

(** ** What registration derives from a signature *)

(** A parameter that [__parse_parameters] refuses: positional only and not
    annotated with [discord.Message]. *)
Definition rejected_param (p : Param) : bool :=
  match p_annotation p with
  | AnnClass ClsMessage => false
  | _ => match p_kind p with POSITIONAL_ONLY => true | _ => false end
  end.

(** A parameter that gets an argument of its own: positional-or-keyword or
    keyword only, and not annotated with [discord.Message]. *)
Definition registered_param (p : Param) : bool :=
  match p_annotation p with
  | AnnClass ClsMessage => false
  | _ => match p_kind p with POSITIONAL_OR_KEYWORD | KEYWORD_ONLY => true | _ => false end
  end.

(** The parameters reached before the first refused one. *)
Fixpoint accepted (ps : list Param) : list Param :=
  match ps with
  | [] => []
  | p :: rest => if rejected_param p then [] else p :: accepted rest
  end.

Definition entry_of (p : Param) : GrammarEntry :=
  {| ge_name := p_name p; ge_action := "store"; ge_const := None;
     ge_type := match p_annotation p with AnnClass ClsInt => ClsInt | _ => ClsStr end |}.

Definition add_entries (sp : SubParser) (entries : list GrammarEntry) : SubParser :=
  {| sp_name := sp_name sp; sp_help := sp_help sp; sp_args := sp_args sp ++ entries |}.

Definition positional_only_error : exn :=
  SyntaxError "Parameters can not be postional only.".

(** ** More functions to register *)

Module Cases.

(** [def kick(message: discord.Message, target, days: int, *reasons)] *)
Definition kick : FuncObj :=
  Scenario.user_function "kick"
    [message_param; Scenario.plain "target";
     {| p_name := "days"; p_kind := POSITIONAL_OR_KEYWORD; p_annotation := AnnClass ClsInt |};
     {| p_name := "reasons"; p_kind := VAR_POSITIONAL; p_annotation := AnnEmpty |}].

Definition bot_kick : Bot := snd (alloc kick Scenario.bot0).

(** [def legacy(message: discord.Message, first, /, second)] *)
Definition legacy : FuncObj :=
  Scenario.user_function "legacy"
    [ {| p_name := "message"; p_kind := POSITIONAL_ONLY; p_annotation := AnnClass ClsMessage |};
      {| p_name := "first"; p_kind := POSITIONAL_ONLY; p_annotation := AnnEmpty |};
      Scenario.plain "second" ].

Definition bot_legacy : Bot := snd (alloc legacy Scenario.bot0).

(** [greet] defined and not yet registered. *)
Definition bot_greet_defined : Bot := snd (alloc Scenario.greet Scenario.bot0).

End Cases.

(** ** Pages of a menu *)

Definition newline : string := String "010"%char EmptyString.

(** The description of a display-only page: each option followed by a
    newline. *)
Fixpoint lines (l : list string) : string :=
  match l with
  | [] => ""
  | option :: rest => (option +:+ newline) +:+ lines rest
  end.

(** The embed of a page that shows the five options from position [off],
    labelled from [start + 1]. *)
Definition page_embed (b : Bot) (title : option string) (page : Z) (allow_selection : bool)
    (options : list string) (off : nat) : Embed :=
  let shown := take 5 (drop off options) in
  {| e_title := Some (user_name (user b) +:+ " menu: " +:+ fmt_title title);
     e_footer := Some (state_string page (fmt_title title) allow_selection);
     e_fields := if allow_selection then zip (seqZ ((page - 1) * items_per_page + 1) 5) shown
                 else [];
     e_description := if allow_selection then None else Some (lines shown) |}.

(** The indices of a page hit the options from position [off] on. *)
Definition page_hits (options : list string) (start : Z) (off k : nat) : Prop :=
  forall j : nat, (j < k)%nat ->
    exists x, options !! (off + j)%nat = Some x
              /\ py_index options (start + Z.of_nat j) = Ok x.


(** The characters [str] of an integer is made of. *)
Definition decimal_char (c : ascii) : bool :=
  let n := nat_of_ascii c in ((48 <=? n)%nat && (n <=? 57)%nat) || Nat.eqb n 45.

(** ** The log between two commands *)

(** A new message arrives in the log. *)
Definition receive (m : Message) (w : World) : World :=
  {| history := m :: history w; next_id := next_id w; trace := trace w |}.

(** A message after [edit_message] replaced its embeds. *)
Definition with_embed (m : Message) (e : Embed) : Message :=
  {| m_id := m_id m; m_channel := m_channel m; m_author := m_author m;
     m_content := m_content m; m_embeds := [e] |}.

(** What the next reconstruction reads off a footer. *)
Definition reconstructed (menu : Message) (footer : string) : result (option found_menu) :=
  match decode_footer footer with
  | Some (page, list, allow_selection) => Ok (Some (menu, page, list, allow_selection))
  | None => Raise (SyntaxError "Invaild footer detected.")
  end.

(** ** [BotParser]: help and errors as return values

    [format_help()] and [prog] belong to [argparse.ArgumentParser] and are
    parameters.  A file is the text written to it. *)

Module BotParser.

(** [_print_message(message, file=None)]: the value returned, and the file
    after the call. *)
Definition _print_message (message : string) (file : option string)
    : option string * option string :=
  if truthy (VStr message) then
    match file with
    | None => (Some message, None)
    | Some written => (None, Some (written +:+ message))
    end
  else (None, file).

(** [print_help(file=None)] *)
Definition print_help (format_help : string) (file : option string)
    : option string * option string :=
  _print_message format_help file.

(** [error(message)]: the exception it raises.  [help_message += ...] on
    the [None] that [print_help] returns for an empty help is a
    [TypeError]. *)
Definition error (prog format_help message : string) : exn :=
  match fst (print_help format_help None) with
  | Some help_message =>
      SyntaxError (help_message +:+ prog +:+ ": error: " +:+ message +:+ newline)
  | None => TypeError
  end.

End BotParser.

(** A channel log in which a menu lies under fifty newer messages. *)
Module Busy.

Definition chatter : list Message :=
  map (fun i => Scenario.user_message i "hi") (reverse (seq 10 50)).

Definition trigger : Message := Scenario.user_message 60 "!next".

Definition log : World := Scenario.world_of (trigger :: chatter ++ [Scenario.fruits_menu]) 61.

End Busy.

(** ** A menu command and its page *)

(** The log after an activation: the page in a new message of the bot [me],
    the command message deleted. *)
Definition opened (me : User) (e : Embed) (message : Message) (w : World) : World :=
  {| history :=
       filter (fun m => m_id m ∉ [m_id message])
         ({| m_id := next_id w; m_channel := m_channel message; m_author := me;
             m_content := ""; m_embeds := [e] |} :: history w);
     next_id := S (next_id w);
     trace := trace w ++ [ESend (ToChannel (m_channel message)) None (Some e);
                          EDelete [m_id message]] |}.

(** A menu of two pages. *)
Module Letters.

Definition letter_options : list string :=
  ["a"; "b"; "c"; "d"; "e"; "f"; "g"; "h"; "i"; "j"].

(** [@bot.menu_command(letter_options, name="letters") def pick(option)] *)
Definition bot_letters : Bot :=
  snd ((g <- alloc Scenario.pick ;;
        menu_command letter_options true (Some "letters") None g) Scenario.bot0).

Definition letters : Menu := {| options := letter_options; handler := Some 8%nat |}.

Definition page_2 : Embed :=
  {| e_title := Some "helper menu: letters";
     e_footer := Some "Page: 2 List: letters Selection: True";
     e_fields := [(6, "f"); (7, "g"); (8, "h"); (9, "i"); (10, "j")];
     e_description := None |}.

(** What [back] renders from page 1. *)
Definition page_0 : Embed :=
  {| e_title := Some "helper menu: letters";
     e_footer := Some "Page: 0 List: letters Selection: True";
     e_fields := [(-4, "f"); (-3, "g"); (-2, "h"); (-1, "i"); (0, "j")];
     e_description := None |}.

Definition menu : Message := Scenario.menu_message bot_letters 11 "letters" 1 true.

Definition next_message : Message := Scenario.user_message 12 "!next".

Definition back_message : Message := Scenario.user_message 12 "!back".

Definition later_message : Message := Scenario.user_message 13 "!next".

Definition select_message : Message := Scenario.user_message 12 "!select 2".

Definition log (command : Message) : World := Scenario.world_of [command; menu] 13.

End Letters.

(** ** An unnamed menu on a function that shares its name with a menu *)

Module Shadowed.

Definition vegetable_options : list string := ["bean"; "kale"; "leek"; "pea"; "yam"].

(** [@bot.menu_command(fruit_options, name="fruits") def pick(option)], then
    [@bot.menu_command(vegetable_options) def fruits(option)]: objects 8 and
    9 are [pick] and the first activation, 10 and 11 the function [fruits]
    and the activation registered for it. *)
Definition bot : Bot :=
  snd ((g <- alloc Scenario.fruits_handler ;;
        menu_command vegetable_options true None None g) Scenario.bot_fruits).

End Shadowed.

(** * Theorems *)

(** ** The footer round trip *)

Lemma append_cons (a : ascii) (s t : string) : String a s +:+ t = String a (s +:+ t).
Proof. reflexivity. Qed.

Lemma append_empty_l (t : string) : "" +:+ t = t.
Proof. reflexivity. Qed.

Lemma strip_prefix_app (p rest : string) : PyStr.strip_prefix p (p +:+ rest) = Some rest.
Proof.
  induction p as [|a p IH]; [done|].
  rewrite append_cons. simpl. by rewrite Ascii.eqb_refl.
Qed.

Lemma append_snoc (acc : string) (c : ascii) (d : string) :
  (acc +:+ String c EmptyString) +:+ d = acc +:+ String c d.
Proof.
  induction acc as [|a acc IH]; [done|].
  rewrite !append_cons. f_equal. apply IH.
Qed.

Lemma append_empty_r (s : string) : s +:+ "" = s.
Proof. induction s as [|a s IH]; [done|]. rewrite append_cons. f_equal. apply IH. Qed.

Lemma class_star_run {X} (cls : ascii -> bool) (d acc rest : string)
    (k : string -> string -> option X) (x : X) :
  PyStr.all_chars cls d = true ->
  stops cls rest ->
  k (acc +:+ d) rest = Some x ->
  Re.class_star cls acc (d +:+ rest) k = Some x.
Proof.
  revert acc. induction d as [|c d IH]; intros acc Hall Hstop Hk.
  - rewrite append_empty_r in Hk. rewrite append_empty_l.
    destruct rest as [|c rest]; simpl in *; [done|]. by rewrite Hstop.
  - simpl in Hall. apply andb_prop in Hall as [Hc Hd].
    rewrite append_cons. simpl. rewrite Hc. rewrite (IH (acc +:+ String c "")); try done.
    by rewrite append_snoc.
Qed.

Lemma plus_run {X} (cls : ascii -> bool) (d rest : string) (g : gmap nat string)
    (k : @Re.kont X) (x : X) :
  d <> "" ->
  PyStr.all_chars cls d = true ->
  stops cls rest ->
  k d rest g = Some x ->
  Re.rmatch (Re.Plus cls) (d +:+ rest) g k = Some x.
Proof.
  intros Hne Hall Hstop Hk. destruct d as [|c d]; [done|].
  simpl in Hall. apply andb_prop in Hall as [Hc Hd].
  rewrite append_cons. simpl. rewrite Hc. by apply class_star_run.
Qed.

Lemma rmatch_Lit_app {X} (l rest : string) (g : gmap nat string) (k : @Re.kont X) :
  Re.rmatch (Re.Lit l) (l +:+ rest) g k = k l rest g.
Proof. simpl. by rewrite strip_prefix_app. Qed.

Lemma rmatch_Seq {X} (r1 r2 : Re.regex) (s : string) (g : gmap nat string) (k : @Re.kont X) :
  Re.rmatch (Re.Seq r1 r2) s g k
  = Re.rmatch r1 s g (fun t1 s1 g1 =>
      Re.rmatch r2 s1 g1 (fun t2 s2 g2 => k (t1 +:+ t2) s2 g2)).
Proof. reflexivity. Qed.

Lemma rmatch_Group {X} (i : nat) (r : Re.regex) (s : string) (g : gmap nat string) (k : @Re.kont X) :
  Re.rmatch (Re.Group i r) s g k
  = Re.rmatch r s g (fun t rest g' => k t rest (<[i := t]> g')).
Proof. reflexivity. Qed.

Lemma fullmatch_state_string (digits name : string) (sel : bool) :
  digits <> "" -> PyStr.all_chars digit_1_9 digits = true ->
  name <> "" -> PyStr.all_chars name_char name = true ->
  Re.fullmatch state_regex
    ("Page: " +:+ digits +:+ " List: " +:+ name +:+ " Selection: " +:+ PyStr.str_bool sel)
  = Some (<[3%nat := PyStr.str_bool sel]> (<[2%nat := name]> (<[1%nat := digits]> ∅))).
Proof.
  intros Hd1 Hd2 Hn1 Hn2.
  unfold Re.fullmatch, state_regex.
  rewrite rmatch_Seq, rmatch_Lit_app, rmatch_Seq, rmatch_Group.
  apply plus_run; [done|done|done|].
  rewrite rmatch_Seq, rmatch_Lit_app, rmatch_Seq, rmatch_Group.
  apply plus_run; [done|done|done|].
  rewrite rmatch_Seq, rmatch_Lit_app, rmatch_Group.
  destruct sel; reflexivity.
Qed.

Lemma str_int_nonempty (page : Z) : PyStr.str_int page <> "".
Proof.
  unfold PyStr.str_int. destruct (Z.to_int page) as [d|d]; simpl.
  - unfold NilZero.string_of_uint. destruct d; simpl; discriminate.
  - discriminate.
Qed.

Lemma int_of_digits_str_int (page : Z) :
  PyStr.all_chars digit_1_9 (PyStr.str_int page) = true ->
  PyStr.int_of_digits (PyStr.str_int page) = Some page.
Proof.
  unfold PyStr.str_int, PyStr.int_of_digits. intros Hall.
  destruct page as [|p|p].
  - discriminate Hall.
  - change (Z.to_int (Z.pos p)) with (Decimal.Pos (Pos.to_uint p)).
    cbn [NilZero.string_of_int].
    rewrite NilZero.usu by apply DecimalPos.Unsigned.to_uint_nonnil.
    unfold Z.of_uint. by rewrite DecimalPos.Unsigned.of_to.
  - discriminate Hall.
Qed.

Lemma eqb_str_bool (sel : bool) : String.eqb (PyStr.str_bool sel) "True" = sel.
Proof. by destruct sel. Qed.

(** C2 (amended): for every page at least 1 whose decimal form holds no
    digit 0, every name in [[a-zA-Z_]+] and either selection flag, decoding
    the footer that [__create_embed_menu] writes gives the state back. *)
Theorem state_roundtrip_zero_free_page (page : Z) (name : string) (sel : bool) :
  1 <= page ->
  PyStr.all_chars digit_1_9 (PyStr.str_int page) = true ->
  name <> "" ->
  PyStr.all_chars name_char name = true ->
  decode_footer (state_string page name sel) = Some (page, name, sel).
Proof.
  intros _ Hdigits Hne Hname.
  unfold decode_footer, state_string.
  rewrite fullmatch_state_string by (done || apply str_int_nonempty).
  cbv beta iota.
  rewrite lookup_insert_ne, lookup_insert_ne, lookup_insert_eq by done.
  rewrite lookup_insert_ne, lookup_insert_eq by done.
  rewrite lookup_insert_eq.
  by rewrite int_of_digits_str_int, eqb_str_bool.
Qed.

Lemma state_roundtrip_zero_free_page_witness :
  decode_footer (state_string 29 "fruits" true) = Some (29, "fruits", true).
Proof.
  apply (state_roundtrip_zero_free_page 29 "fruits" true); [lia | reflexivity | discriminate | reflexivity].
Defined.

(** C2 as stated fails at page 10: the footer ["Page: 10 List: fruits
    Selection: True"] does not match [[1-9]+] and decodes to nothing. *)
Lemma state_roundtrip_fails_at_page_10 :
  1 <= 10 /\ "fruits" <> "" /\ PyStr.all_chars name_char "fruits" = true /\
  decode_footer (state_string 10 "fruits" true) <> Some (10, "fruits", true).
Proof. repeat split; [lia | discriminate | vm_compute; discriminate]. Qed.

(** ** Dispatch through [on_message] *)

(** C1: [on_message] calls the bound method [process_message] with [self]
    passed a second time, so the call raises [TypeError] for every bot,
    every message and every state of the transport, and nothing has been
    sent, deleted or invoked when it does. *)
Theorem on_message_raises_before_dispatch
    (str_format : string -> gmap string pyval -> result string)
    (is_app_owner : User -> bool)
    (shlex_split : string -> result (list string))
    (parse_args : list SubParser -> list string -> result (gmap string pyval))
    (b : Bot) (message : Message) (w : World) :
  on_message str_format is_app_owner shlex_split parse_args b message w
  = (Raise TypeError, w).
Proof. reflexivity. Qed.

(** The message ["!greet Alice"] handed to [process_message] itself does
    invoke [greet] once, with [name="Alice"]. *)
Example process_message_invokes_greet_once :
  process_message Lib.str_format (fun _ => false) Lib.shlex_split Lib.parse_args
    Scenario.bot_greet Scenario.greet_message
    (Scenario.world_of [Scenario.greet_message] 11)
  = (Ok tt,
     {| history := [Scenario.greet_message]; next_id := 11;
        trace := [ECall 8%nat [AMessage Scenario.greet_message] {[ "name" := VStr "Alice" ]}] |}).
Proof. vm_compute. reflexivity. Qed.

(** The same message through [on_message] invokes nothing. *)
Example on_message_greet_invokes_nothing :
  on_message Lib.str_format (fun _ => false) Lib.shlex_split Lib.parse_args
    Scenario.bot_greet Scenario.greet_message
    (Scenario.world_of [Scenario.greet_message] 11)
  = (Raise TypeError, Scenario.world_of [Scenario.greet_message] 11).
Proof. reflexivity. Qed.

(** ** Argument grammar *)

(** C8: a parameter annotated [True] or [False] is registered with action
    ["store"] and type [str], an argument that consumes one token, not as a
    switch: the local [type] is [str] when [type(parameter.annotation)] is
    compared with [bool]. *)
Theorem bool_annotation_registers_store_str
    (parameter_name name : string) (kind : param_kind) (flag : bool) :
  keyword_postional_entry
    {| p_name := parameter_name; p_kind := kind; p_annotation := AnnBool flag |} name
  = Ok {| ge_name := name; ge_action := "store"; ge_const := None; ge_type := ClsStr |}.
Proof. destruct flag; reflexivity. Qed.

(** The sub-parser that registering [mute(message, silent: True)] builds. *)
Example mute_registers_string_argument :
  sub_parsers Scenario.bot_mute !! 4%nat
  = Some {| sp_name := Some "mute"; sp_help := None;
            sp_args := [ {| ge_name := "silent"; ge_action := "store"; ge_const := None;
                            ge_type := ClsStr |} ] |}.
Proof. vm_compute. reflexivity. Qed.

(** With the builtin [type] in place of the local one the [True] sentinel
    would reach the ["store_true"] branch. *)
Remark builtin_type_sees_bool (flag : bool) :
  py_is (call_class ClsType (AnnBool flag)) (RefClass ClsBool) = true
  /\ py_is (call_class ClsStr (AnnBool flag)) (RefClass ClsBool) = false.
Proof. split; reflexivity. Qed.

(** ** Reconstruction of the menu state *)

Lemma find_menu_scan_passed_over (b : Bot) (before rest : list Message) :
  Forall (passed_over b) before ->
  find_menu_scan b (before ++ rest) = find_menu_scan b rest.
Proof.
  induction 1 as [|m before Hm _ IH]; [done|].
  cbn [app find_menu_scan]. destruct Hm as [Hm|Hm].
  - by rewrite Hm.
  - destruct (user_eqb _ _); [|done].
    destruct (m_embeds m) as [|e [|e' es]]; done.
Qed.

(** The nearest bot message with one embed decides the scan when its title
    has the menu prefix: its decoded footer is returned. *)
Lemma find_menu_scan_found (b : Bot) (before rest : list Message) (message : Message)
    (embed : Embed) (title footer : string) (page : Z) (list : string) (sel : bool) :
  Forall (passed_over b) before ->
  user_eqb (m_author message) (user b) = true ->
  m_embeds message = [embed] ->
  e_title embed = Some title ->
  PyStr.startswith title (user_name (user b) +:+ " menu:") = true ->
  e_footer embed = Some footer ->
  decode_footer footer = Some (page, list, sel) ->
  find_menu_scan b (before ++ message :: rest) = Ok (Some (message, page, list, sel)).
Proof.
  intros Hbefore Hauthor Hembeds Htitle Hprefix Hfooter Hdecode.
  rewrite find_menu_scan_passed_over by done.
  cbn [find_menu_scan]. by rewrite Hauthor, Hembeds, Htitle, Hprefix, Hfooter, Hdecode.
Qed.

(** ... and a footer outside the grammar raises the corrupt-menu error. *)
Lemma find_menu_scan_corrupt (b : Bot) (before rest : list Message) (message : Message)
    (embed : Embed) (title footer : string) :
  Forall (passed_over b) before ->
  user_eqb (m_author message) (user b) = true ->
  m_embeds message = [embed] ->
  e_title embed = Some title ->
  PyStr.startswith title (user_name (user b) +:+ " menu:") = true ->
  e_footer embed = Some footer ->
  decode_footer footer = None ->
  find_menu_scan b (before ++ message :: rest) = Raise (SyntaxError "Invaild footer detected.").
Proof.
  intros Hbefore Hauthor Hembeds Htitle Hprefix Hfooter Hdecode.
  rewrite find_menu_scan_passed_over by done.
  cbn [find_menu_scan]. by rewrite Hauthor, Hembeds, Htitle, Hprefix, Hfooter, Hdecode.
Qed.

(** C3: a bot-authored message with exactly one embed whose title lacks the
    menu prefix is not passed over.  The scan stops at it and raises
    [UnboundLocalError], whatever older messages follow, because the
    [return] is reached with [page] unassigned. *)
Theorem find_menu_scan_foreign_title_unbound (b : Bot) (before rest : list Message)
    (message : Message) (embed : Embed) (title : string) :
  Forall (passed_over b) before ->
  user_eqb (m_author message) (user b) = true ->
  m_embeds message = [embed] ->
  e_title embed = Some title ->
  PyStr.startswith title (user_name (user b) +:+ " menu:") = false ->
  find_menu_scan b (before ++ message :: rest) = Raise UnboundLocalError.
Proof.
  intros Hbefore Hauthor Hembeds Htitle Hprefix.
  rewrite find_menu_scan_passed_over by done.
  cbn [find_menu_scan]. by rewrite Hauthor, Hembeds, Htitle, Hprefix.
Qed.

Lemma find_menu_scan_foreign_title_unbound_witness :
  find_menu_scan Scenario.bot_fruits
    ([Scenario.user_message 10 "hello"]
       ++ Scenario.welcome
       :: [Scenario.fruits_menu])
  = Raise UnboundLocalError.
Proof.
  apply (find_menu_scan_foreign_title_unbound Scenario.bot_fruits
           [Scenario.user_message 10 "hello"]
           [Scenario.fruits_menu]
           Scenario.welcome
           {| e_title := Some "Welcome"; e_footer := Some "new here?"; e_fields := [];
              e_description := None |}
           "Welcome").
  - constructor; [left; reflexivity | constructor].
  - reflexivity.
  - reflexivity.
  - reflexivity.
  - reflexivity.
Defined.

(** Without the foreign embed in between, the same log gives the menu. *)
Example find_menu_scan_fruits :
  find_menu_scan Scenario.bot_fruits
    [Scenario.user_message 10 "hello";
     Scenario.fruits_menu]
  = Ok (Some (Scenario.fruits_menu,
              1, "fruits", true)).
Proof. vm_compute. reflexivity. Qed.

(** [next] over the foreign embed: the fault leaves the log untouched. *)
Example next_over_foreign_embed :
  let log := [Scenario.user_message 12 "!next"; Scenario.welcome;
              Scenario.fruits_menu] in
  next Scenario.bot_fruits (Scenario.user_message 12 "!next") (Scenario.world_of log 13)
  = (Raise UnboundLocalError, Scenario.world_of log 13).
Proof. vm_compute. reflexivity. Qed.

(** The scan never looks past the 50 most recent older messages. *)
Lemma find_menu_window (b : Bot) (message : Message) (w : World) :
  exists window : list Message,
    (length window <= 50)%nat /\
    find_menu b message w = (find_menu_scan b window, w).
Proof.
  eexists. split; [|reflexivity]. rewrite length_take. lia.
Qed.

(** ** Navigation when no menu is located *)

Lemma find_menu_none_of_passed_over (b : Bot) (message : Message) (w : World) :
  Forall (passed_over b) (history w) ->
  find_menu b message w = (Ok None, w).
Proof.
  intros Hall. unfold find_menu, logs_from, bind, gets, lift.
  set (window := take _ _).
  assert (Forall (passed_over b) window) as Hwin.
  { unfold window. apply Forall_take, Forall_forall.
    intros m [_ Hm]%list_elem_of_filter. by eapply Forall_forall in Hall. }
  rewrite <- (app_nil_r window). by rewrite find_menu_scan_passed_over.
Qed.

(** C7: when the scan ends without a menu, [__find_menu] returns [None] and
    each of [next], [back], [select] and [dismiss] raises [TypeError] while
    unpacking it; the transport is left as it was. *)
Theorem navigation_without_menu_raises (b : Bot) (message : Message) (choice : arg)
    (w : World) :
  find_menu b message w = (Ok None, w) ->
  next b message w = (Raise TypeError, w)
  /\ back b message w = (Raise TypeError, w)
  /\ select b message choice w = (Raise TypeError, w)
  /\ dismiss b message w = (Raise TypeError, w).
Proof.
  intros Hfind. unfold next, back, page, select, dismiss, bind.
  rewrite Hfind. done.
Qed.

Lemma navigation_without_menu_raises_witness :
  next Scenario.bot_fruits (Scenario.user_message 12 "!dismiss")
    (Scenario.world_of [Scenario.user_message 12 "!dismiss"] 13)
  = (Raise TypeError, Scenario.world_of [Scenario.user_message 12 "!dismiss"] 13)
  /\ back Scenario.bot_fruits (Scenario.user_message 12 "!dismiss")
       (Scenario.world_of [Scenario.user_message 12 "!dismiss"] 13)
     = (Raise TypeError, Scenario.world_of [Scenario.user_message 12 "!dismiss"] 13)
  /\ select Scenario.bot_fruits (Scenario.user_message 12 "!dismiss") (AValue (VInt 0))
       (Scenario.world_of [Scenario.user_message 12 "!dismiss"] 13)
     = (Raise TypeError, Scenario.world_of [Scenario.user_message 12 "!dismiss"] 13)
  /\ dismiss Scenario.bot_fruits (Scenario.user_message 12 "!dismiss")
       (Scenario.world_of [Scenario.user_message 12 "!dismiss"] 13)
     = (Raise TypeError, Scenario.world_of [Scenario.user_message 12 "!dismiss"] 13).
Proof.
  apply (navigation_without_menu_raises Scenario.bot_fruits
           (Scenario.user_message 12 "!dismiss") (AValue (VInt 0))
           (Scenario.world_of [Scenario.user_message 12 "!dismiss"] 13)).
  reflexivity.
Defined.

(** [dismiss] twice: the first call deletes the menu and its own message,
    the second finds no menu and raises. *)
Example dismiss_twice :
  let menu := Scenario.fruits_menu in
  let first := Scenario.user_message 12 "!dismiss" in
  let second := Scenario.user_message 13 "!dismiss" in
  dismiss Scenario.bot_fruits first (Scenario.world_of [first; menu] 13)
  = (Ok tt, {| history := []; next_id := 13; trace := [EDelete [5; 12]%nat] |})
  /\ dismiss Scenario.bot_fruits second
       {| history := [second]; next_id := 14; trace := [EDelete [5; 12]%nat] |}
     = (Raise TypeError,
        {| history := [second]; next_id := 14; trace := [EDelete [5; 12]%nat] |}).
Proof. split; vm_compute; reflexivity. Qed.

(** ** Registration of commands that carry metadata *)

Lemma parse_parameter_list_frame (ps : list Param) (sp : nat) (b b1 : Bot) (r : result unit) :
  parse_parameter_list ps sp b = (r, b1) ->
  heap b1 = heap b /\ next_obj b1 = next_obj b /\ commands b1 = commands b.
Proof.
  revert b. induction ps as [|p ps IH]; intros b H.
  - by inversion H.
  - cbn [parse_parameter_list] in H.
    assert (forall b0 r0 b2, parse_keyword_postional p (p_name p) sp b0 = (r0, b2) ->
              heap b2 = heap b0 /\ next_obj b2 = next_obj b0 /\ commands b2 = commands b0)
      as Hstep.
    { intros b0 r0 b2. unfold parse_keyword_postional, bind, lift, add_argument, modify, raise.
      destruct (keyword_postional_entry p (p_name p)) as [e|e]; [|by inversion 1].
      destruct (String.eqb (ge_action e) "store"); by inversion 1. }
    destruct (p_annotation p) as [|[]| |]; destruct (p_kind p);
      try (by apply IH); try (by inversion H);
      unfold bind in H;
      destruct (parse_keyword_postional p (p_name p) sp b) as [[[]|e] bm] eqn:Hp;
      apply Hstep in Hp as (Hh & Hn & Hc);
      try (inversion H; subst; done);
      apply IH in H as (? & ? & ?); split_and!; congruence.
Qed.

Lemma parse_parameters_ok (c : obj_id) (name : option string) (f : FuncObj) (b b1 : Bot)
    (n : string) :
  heap b !! c = Some f ->
  parse_parameters c name b = (Ok n, b1) ->
  n = (if falsy_name name then f_name f else default "" name)
  /\ heap b1 = heap b /\ next_obj b1 = next_obj b /\ commands b1 = commands b.
Proof.
  intros Hf H. unfold parse_parameters, get_obj in H. unfold bind at 1 in H.
  rewrite Hf in H.
  assert (forall bm r, 
    (new_sub_parser <- add_parser
        (Some (if falsy_name name then f_name f else default "" name)) (f_doc f) ;;
     parse_parameter_list (f_params f) new_sub_parser ;;;
     ret (if falsy_name name then f_name f else default "" name)) b = (Ok r, bm) ->
    r = (if falsy_name name then f_name f else default "" name)
    /\ heap bm = heap b /\ next_obj bm = next_obj b /\ commands bm = commands b) as Hbody.
  { intros bm r Hr. unfold bind at 1 in Hr. cbn [add_parser] in Hr.
    unfold bind at 1 in Hr.
    destruct (parse_parameter_list _ _ _) as [[[]|e] bp] eqn:Hp; [|by inversion Hr].
    apply parse_parameter_list_frame in Hp as (Hh & Hn & Hc).
    inversion Hr; subst. done. }
  destruct (f_kind f); [by apply Hbody | by apply Hbody | by inversion H].
Qed.

Lemma mirrorAttr_spec (c n : obj_id) (f : FuncObj) (wc : obj_id) (attr : string) (b : Bot) :
  c <> n ->
  mirrors c n f b ->
  wc = c \/ wc = n ->
  exists (r : obj_id) (b' : Bot),
    mirrorAttr wc c wc attr b = (Ok r, b')
    /\ mirrors c n f b'
    /\ commands b' = commands b
    /\ (r = c \/ r = wc)
    /\ (is_Some (f_attrs f !! attr) -> r = c).
Proof.
  intros Hne [(f' & Hc & Hattrs & Hcode) (w & Hn & Hkind & Hwcode)] Hwc.
  unfold mirrorAttr, getattr. rewrite Hc, Hattrs.
  destruct (f_attrs f !! attr) as [v|] eqn:Hv.
  - unfold setattr. destruct Hwc as [-> | ->].
    + rewrite Hc. destruct (f_kind f') eqn:Hk.
      all: eexists _, _; split; [reflexivity|].
      all: repeat split; eauto; try (by left).
      all: try (by (eexists; split; [exact Hc|done])).
      all: try (by (eexists; split; [exact Hn|done])).
      all: cbn [heap set_heap].
      all: try (eexists; split; [apply lookup_insert_eq|]; by cbn).
      all: try (eexists; split; [rewrite lookup_insert_ne by done; exact Hn|done]).
      all: eexists; (split; [apply lookup_insert_eq|]); cbn;
        (split; [rewrite Hattrs; by apply insert_id|done]).
    + rewrite Hn, Hkind.
      eexists _, _; split; [reflexivity|].
      repeat split; eauto.
      * eexists; split; [cbn [heap set_heap]; rewrite lookup_insert_ne by done; exact Hc|done].
      * eexists; split; [cbn [heap set_heap]; apply lookup_insert_eq|]. by cbn.
  - eexists _, _; split; [reflexivity|].
    repeat split; eauto.
    + by intros [? ?].
Qed.

(** C4: for every function [c] that carries one of the three metadata
    attributes, [command] returns and stores [c] itself under the command's
    name, because [mirrorAttr] returns [source] once the attribute is copied;
    the wrapper it built (the object allocated at [next_obj b]) is left out
    of [self.commands].  On dispatch a user function stored this way is
    called with the message and the whole namespace as positional arguments,
    the [command] field included. *)
Theorem command_stores_original_when_marked (b b' : Bot) (c r : obj_id) (f : FuncObj)
    (name : option string) (attr : string) :
  heap b !! c = Some f ->
  c <> next_obj b ->
  attr ∈ ["bot_owner"; "check_failed"; "permissions_required"] ->
  is_Some (f_attrs f !! attr) ->
  command (Some c) name b = (Ok r, b') ->
  r = c
  /\ commands b' !! Some (if falsy_name name then f_name f else default "" name) = Some c
  /\ (exists w, heap b' !! next_obj b = Some w /\ f_code w = WrappedCommand c)
  /\ (exists f', heap b' !! c = Some f' /\ f_attrs f' = f_attrs f /\ f_code f' = f_code f)
  /\ (f_code f = UserCode ->
      forall (message : Message) (parsed_args : gmap string pyval) (w : World),
        call_command b' c message parsed_args w
        = emit (ECall c [AMessage message; ANamespace parsed_args] ∅) w).
Proof.
  intros Hf Hne Hattr Hsome H. unfold command in H.
  unfold bind at 1 in H.
  destruct (parse_parameters c name b) as [[n|e] b1] eqn:Hpp; [|by inversion H].
  apply (parse_parameters_ok _ _ _ _ _ _ Hf) in Hpp as (-> & Hh1 & Hn1 & Hc1).
  unfold bind at 1 in H. unfold wraps, get_obj in H. unfold bind at 1 in H.
  rewrite Hh1, Hf in H. cbn [alloc] in H. rewrite Hh1, Hn1 in H.
  set (n := next_obj b) in *.
  set (b2 := set_heap _ _ b1) in H.
  assert (mirrors c n f b2) as I2.
  { split; eexists; (split; [cbn [b2 heap set_heap]|]).
    - rewrite lookup_insert_ne by done. exact Hf.
    - done.
    - apply lookup_insert_eq.
    - done. }
  assert (commands b2 = commands b) as C2 by done.
  destruct (mirrorAttr_spec c n f n "bot_owner" b2 Hne I2 (or_intror eq_refl))
    as (r1 & b3 & E1 & I3 & C3 & R1 & A1).
  unfold bind at 1 in H. rewrite E1 in H.
  assert (r1 = c \/ r1 = n) as R1' by (destruct R1; auto).
  destruct (mirrorAttr_spec c n f r1 "check_failed" b3 Hne I3 R1')
    as (r2 & b4 & E2 & I4 & C4 & R2 & A2).
  unfold bind at 1 in H. rewrite E2 in H.
  assert (r2 = c \/ r2 = n) as R2' by (destruct R2, R1'; subst; auto).
  destruct (mirrorAttr_spec c n f r2 "permissions_required" b4 Hne I4 R2')
    as (r3 & b5 & E3 & I5 & C5 & R3 & A3).
  unfold bind at 1 in H. rewrite E3 in H.
  assert (r3 = c) as ->.
  { apply list_elem_of_In in Hattr. cbn in Hattr.
    destruct Hattr as [<-|[<-|[<-|[]]]].
    - specialize (A1 Hsome). subst r1.
      destruct R2 as [->| ->]; destruct R3 as [->| ->]; done.
    - specialize (A2 Hsome). subst r2. by destruct R3 as [->| ->].
    - by apply A3. }
  unfold bind, store_command, modify, ret in H. inversion H; subst r b'. clear H.
  destruct I5 as [Ic In].
  split; [done|]. cbn [commands set_commands heap].
  split; [by apply lookup_insert_eq|]. split.
  - destruct In as (w & Hw & _ & Hwc). eauto.
  - split; [done|]. intros Huser message parsed_args w.
    destruct Ic as (f' & Hf' & _ & Hcode). unfold call_command.
    cbn [heap set_commands]. rewrite Hf', Hcode, Huser. reflexivity.
Qed.

Lemma command_stores_original_when_marked_witness :
  8%nat = 8%nat
  /\ commands Scenario.bot_ban
       !! Some (if falsy_name None then f_name Scenario.ban_marked else default "" None)
     = Some 8%nat
  /\ (exists w, heap Scenario.bot_ban !! next_obj Scenario.bot_ban_marked = Some w
                /\ f_code w = WrappedCommand 8%nat)
  /\ (exists f', heap Scenario.bot_ban !! 8%nat = Some f'
                 /\ f_attrs f' = f_attrs Scenario.ban_marked
                 /\ f_code f' = f_code Scenario.ban_marked)
  /\ (f_code Scenario.ban_marked = UserCode ->
      forall (message : Message) (parsed_args : gmap string pyval) (w : World),
        call_command Scenario.bot_ban 8%nat message parsed_args w
        = emit (ECall 8%nat [AMessage message; ANamespace parsed_args] ∅) w).
Proof.
  apply (command_stores_original_when_marked Scenario.bot_ban_marked Scenario.bot_ban
           8%nat 8%nat Scenario.ban_marked None "bot_owner").
  - vm_compute; reflexivity.
  - vm_compute; discriminate.
  - apply list_elem_of_In; left; reflexivity.
  - eexists; vm_compute; reflexivity.
  - vm_compute; reflexivity.
Defined.


(** Registering [ban], which carries [bot_owner], allocates the wrapper
    (object 9, with a copy of the attribute) and stores the original function
    (object 8) under ["ban"]; ["!ban bob"] from the owner reaches [ban] with
    the namespace as second positional argument. *)
Example ban_is_stored_unwrapped :
  getattr (heap Scenario.bot_ban) 8%nat "bot_owner" = Some (VBool true)
  /\ f_code <$> heap Scenario.bot_ban !! 8%nat = Some UserCode
  /\ f_code <$> heap Scenario.bot_ban !! 9%nat = Some (WrappedCommand 8%nat)
  /\ getattr (heap Scenario.bot_ban) 9%nat "bot_owner" = Some (VBool true)
  /\ commands Scenario.bot_ban !! Some "ban" = Some 8%nat
  /\ trace (snd (process_message Lib.str_format (fun _ => true) Lib.shlex_split Lib.parse_args
                   Scenario.bot_ban Scenario.ban_message
                   (Scenario.world_of [Scenario.ban_message] 11)))
     = [ECall 8%nat
          [AMessage Scenario.ban_message;
           ANamespace {[ "command" := VStr "ban"; "target" := VStr "bob" ]}] ∅].
Proof. repeat split; vm_compute; reflexivity. Qed.

(** A command without metadata is stored wrapped, and the wrapper passes
    the parsed arguments by name without the [command] field. *)
Example command_without_metadata_stores_wrapper :
  commands Scenario.bot_greet !! Some "greet" = Some 9%nat
  /\ f_code <$> heap Scenario.bot_greet !! 9%nat = Some (WrappedCommand 8%nat).
Proof. split; vm_compute; reflexivity. Qed.

(** ** The permission pipeline *)

Lemma bind_ok {S A B} (m : M S A) (f : A -> M S B) (s s' : S) (a : A) :
  m s = (Ok a, s') -> bind m f s = f a s'.
Proof. intros H. unfold bind. by rewrite H. Qed.

Section Pipeline.

Variable str_format : string -> gmap string pyval -> result string.
Variable is_app_owner : User -> bool.
Variable shlex_split : string -> result (list string).
Variable parse_args : list SubParser -> list string -> result (gmap string pyval).

(** A message from someone else that starts with the prefix, tokenizes,
    parses and names a registered command reaches [dispatch]. *)
Lemma process_message_resolved (b : Bot) (message : Message) (tokens : list string)
    (parsed_args : gmap string pyval) (command_name : pyval) (command : obj_id) (w : World) :
  user_eqb (m_author message) (user b) = false ->
  PyStr.startswith (m_content message) (prefix b) = true ->
  shlex_split (PyStr.lstrip (prefix b) (m_content message)) = Ok tokens ->
  parse_args (sub_parsers b) tokens = Ok parsed_args ->
  parsed_args !! "command" = Some command_name ->
  lookup_command b command_name = Some command ->
  process_message str_format is_app_owner shlex_split parse_args b message w
  = except_SyntaxError
      (dispatch str_format is_app_owner b command message parsed_args)
      (fun error_message =>
         send_message (user b) (ToUser (m_author message)) (Some error_message) None) w.
Proof.
  intros Hauthor Hprefix Hsplit Hparse Hname Hlookup.
  unfold process_message. rewrite Hauthor, Hprefix. cbn [negb].
  unfold except_SyntaxError. rewrite Hsplit.
  erewrite bind_ok by reflexivity. rewrite Hparse.
  erewrite bind_ok by reflexivity. by rewrite Hname, Hlookup.
Qed.


Lemma check_permission_loop_missing (b : Bot) (command : obj_id) (message : Message)
    (author_permissions : MemberInfo) (held rest : list string) (missing template text : string)
    (w : World) :
  Forall (fun p => server_permissions author_permissions !! p = Some true) held ->
  server_permissions author_permissions !! missing = Some false ->
  getattr (heap b) command "check_failed" = Some (VStr template) ->
  str_format template
    {[ "name" := match nick author_permissions with Some n => VStr n | None => VNone end;
       "mention" := VStr (mention (m_author message)) ]} = Ok text ->
  check_permission_loop str_format b command message author_permissions
    (held ++ missing :: rest) w
  = (Ok (VBool false),
     snd (send_message (user b) (ToChannel (m_channel message)) (Some text) None w)).
Proof.
  intros Hheld Hmissing Htemplate Hformat.
  induction Hheld as [|p held Hp _ IH]; cbn [app check_permission_loop].
  - rewrite Hmissing, Htemplate, Hformat. reflexivity.
  - rewrite Hp. apply IH.
Qed.

Lemma check_permissions_missing (b : Bot) (command : obj_id) (message : Message)
    (author_permissions : MemberInfo) (held rest : list string) (missing template text : string)
    (w : World) :
  getattr (heap b) command "permissions_required" = Some (VList (held ++ missing :: rest)) ->
  getattr (heap b) command "check_failed" = Some (VStr template) ->
  member (m_author message) = Some author_permissions ->
  Forall (fun p => server_permissions author_permissions !! p = Some true) held ->
  server_permissions author_permissions !! missing = Some false ->
  str_format template
    {[ "name" := match nick author_permissions with Some n => VStr n | None => VNone end;
       "mention" := VStr (mention (m_author message)) ]} = Ok text ->
  check_permissions str_format b command message w
  = (Ok (VBool false),
     snd (send_message (user b) (ToChannel (m_channel message)) (Some text) None w)).
Proof.
  intros Hrequired Htemplate Hmember Hheld Hmissing Hformat.
  unfold check_permissions. rewrite Hrequired.
  assert (truthy (VList (held ++ missing :: rest)) = true) as ->
    by (by destruct held).
  rewrite Hmember.
  erewrite bind_ok by reflexivity.
  by eapply check_permission_loop_missing.
Qed.

Lemma check_owner_marked (b : Bot) (command : obj_id) (message : Message) (w : World) :
  getattr (heap b) command "bot_owner" = Some (VBool true) ->
  check_owner is_app_owner b command message w
  = if is_app_owner (m_author message) then (Ok (VBool true), w)
    else (Ok (VBool false),
          snd (send_message (user b) (ToChannel (m_channel message))
                 (Some (owner_refusal (m_author message))) None w)).
Proof.
  intros Howner. unfold check_owner. rewrite Howner. cbn [truthy].
  by destruct (is_app_owner (m_author message)).
Qed.

Lemma dispatch_after_failed_permission_check (b : Bot) (command : obj_id)
    (message : Message) (parsed_args : gmap string pyval)
    (author_permissions : MemberInfo) (held rest : list string)
    (missing template text : string) (w : World) :
  permission_checks b = [CheckPermissions; CheckOwner] ->
  getattr (heap b) command "bot_owner" = Some (VBool true) ->
  getattr (heap b) command "permissions_required" = Some (VList (held ++ missing :: rest)) ->
  getattr (heap b) command "check_failed" = Some (VStr template) ->
  member (m_author message) = Some author_permissions ->
  Forall (fun p => server_permissions author_permissions !! p = Some true) held ->
  server_permissions author_permissions !! missing = Some false ->
  str_format template
    {[ "name" := match nick author_permissions with Some n => VStr n | None => VNone end;
       "mention" := VStr (mention (m_author message)) ]} = Ok text ->
  let outcome := dispatch str_format is_app_owner b command message parsed_args w in
  fst outcome = Ok tt
  /\ trace (snd outcome)
     = trace w
         ++ ESend (ToChannel (m_channel message)) (Some text) None
         :: (if is_app_owner (m_author message) then []
             else [ESend (ToChannel (m_channel message))
                     (Some (owner_refusal (m_author message))) None]).
Proof.
  intros Hchecks Howner Hrequired Htemplate Hmember Hheld Hmissing Hformat outcome.
  subst outcome. unfold dispatch. rewrite Hchecks. cbn [run_checks].
  pose proof (check_permissions_missing b command message author_permissions held rest
                missing template text w Hrequired Htemplate Hmember Hheld Hmissing Hformat)
    as Hperm.
  set (w1 := snd (send_message (user b) (ToChannel (m_channel message)) (Some text) None w))
    in Hperm.
  pose proof (check_owner_marked b command message w1 Howner) as Hown.
  destruct (is_app_owner (m_author message)).
  - erewrite bind_ok; cycle 1.
    { erewrite bind_ok by (cbn [run_check]; exact Hperm).
      erewrite bind_ok by (cbn [run_check]; exact Hown).
      reflexivity. }
    cbn. done.
  - erewrite bind_ok; cycle 1.
    { erewrite bind_ok by (cbn [run_check]; exact Hperm).
      erewrite bind_ok by (cbn [run_check]; exact Hown).
      reflexivity. }
    cbn. by rewrite <- app_assoc.
Qed.

(** C5 (amended): for a command marked both owner only and with required
    permissions, when the invoker lacks one of the permissions the
    permission check sends the formatted denial, the owner check still
    runs after it (adding its refusal unless the invoker is the owner),
    and the handler is not invoked: the trace grows by these messages
    only. *)
Theorem failed_permission_check_does_not_stop_pipeline (b : Bot) (command : obj_id)
    (message : Message) (tokens : list string) (parsed_args : gmap string pyval)
    (command_name : pyval) (author_permissions : MemberInfo) (held rest : list string)
    (missing template text : string) (w : World) :
  user_eqb (m_author message) (user b) = false ->
  PyStr.startswith (m_content message) (prefix b) = true ->
  shlex_split (PyStr.lstrip (prefix b) (m_content message)) = Ok tokens ->
  parse_args (sub_parsers b) tokens = Ok parsed_args ->
  parsed_args !! "command" = Some command_name ->
  lookup_command b command_name = Some command ->
  permission_checks b = [CheckPermissions; CheckOwner] ->
  getattr (heap b) command "bot_owner" = Some (VBool true) ->
  getattr (heap b) command "permissions_required" = Some (VList (held ++ missing :: rest)) ->
  getattr (heap b) command "check_failed" = Some (VStr template) ->
  member (m_author message) = Some author_permissions ->
  Forall (fun p => server_permissions author_permissions !! p = Some true) held ->
  server_permissions author_permissions !! missing = Some false ->
  str_format template
    {[ "name" := match nick author_permissions with Some n => VStr n | None => VNone end;
       "mention" := VStr (mention (m_author message)) ]} = Ok text ->
  let outcome :=
    process_message str_format is_app_owner shlex_split parse_args b message w in
  fst outcome = Ok tt
  /\ trace (snd outcome)
     = trace w
         ++ ESend (ToChannel (m_channel message)) (Some text) None
         :: (if is_app_owner (m_author message) then []
             else [ESend (ToChannel (m_channel message))
                     (Some (owner_refusal (m_author message))) None]).
Proof.
  intros Hauthor Hprefix Hsplit Hparse Hname Hlookup
         Hchecks Howner Hrequired Htemplate Hmember Hheld Hmissing Hformat outcome.
  subst outcome.
  rewrite (process_message_resolved b message tokens parsed_args command_name command w)
    by done.
  pose proof (dispatch_after_failed_permission_check b command message parsed_args
                author_permissions held rest missing template text w
                Hchecks Howner Hrequired Htemplate Hmember Hheld Hmissing Hformat)
    as [Hfst Hsnd].
  unfold except_SyntaxError.
  destruct (dispatch str_format is_app_owner b command message parsed_args w)
    as [[[]|e] w'] eqn:Hd; [|discriminate Hfst].
  split; [done|exact Hsnd].
Qed.

End Pipeline.

Lemma failed_permission_check_does_not_stop_pipeline_witness :
  let outcome :=
    process_message Lib.str_format (fun _ => false) Lib.shlex_split Lib.parse_args
      Scenario.bot_purge Scenario.purge_message
      (Scenario.world_of [Scenario.purge_message] 11) in
  fst outcome = Ok tt
  /\ trace (snd outcome)
     = [] ++ ESend (ToChannel 7) (Some "<@2> may not purge.") None
          :: [ESend (ToChannel 7)
                (Some "<@2> that command is only accesible to the owner of the bot.") None].
Proof.
  apply (failed_permission_check_does_not_stop_pipeline Lib.str_format (fun _ => false)
           Lib.shlex_split Lib.parse_args
           Scenario.bot_purge 8%nat Scenario.purge_message ["purge"]
           {[ "command" := VStr "purge" ]} (VStr "purge")
           {| nick := Some "Al";
              server_permissions :=
                {[ "administrator" := false; "manage_messages" := false;
                   "send_messages" := true ]} |}
           [] [] "manage_messages" Scenario.purge_denied "<@2> may not purge."
           (Scenario.world_of [Scenario.purge_message] 11)).
  - reflexivity.
  - reflexivity.
  - reflexivity.
  - vm_compute; reflexivity.
  - reflexivity.
  - vm_compute; reflexivity.
  - reflexivity.
  - vm_compute; reflexivity.
  - vm_compute; reflexivity.
  - vm_compute; reflexivity.
  - reflexivity.
  - constructor.
  - vm_compute; reflexivity.
  - vm_compute; reflexivity.
Defined.

(** C5 as stated fails: ["!purge"] from a member who lacks
    [manage_messages] and is not the owner draws two denial messages, the
    second one from the owner check that ran after the first failure. *)
Lemma two_denials_for_one_dispatch :
  let outcome :=
    process_message Lib.str_format (fun _ => false) Lib.shlex_split Lib.parse_args
      Scenario.bot_purge Scenario.purge_message
      (Scenario.world_of [Scenario.purge_message] 11) in
  trace (snd outcome)
  = [ESend (ToChannel 7) (Some "<@2> may not purge.") None;
     ESend (ToChannel 7)
       (Some "<@2> that command is only accesible to the owner of the bot.") None]
  /\ ~ (length (trace (snd outcome)) <= 1)%nat.
Proof. split; [vm_compute; reflexivity | vm_compute; lia]. Qed.

(** ** [select] *)

(** C6: [select] compares the choice with the length of the menu's name,
    not with the number of its options.  On a located, selection-enabled
    menu a choice at or past the length of the name does nothing (no handler
    is invoked, nothing is deleted), also when it is a valid index into the
    options. *)
Theorem select_guard_compares_with_name_length (b : Bot) (message menu : Message)
    (page choice : Z) (list : string) (w : World) :
  find_menu b message w = (Ok (Some (menu, page, list, true)), w) ->
  Z.of_nat (String.length list) <= choice ->
  select b message (AValue (VInt choice)) w = (Ok tt, w).
Proof.
  intros Hfind Hchoice. unfold select.
  erewrite bind_ok by exact Hfind.
  erewrite bind_ok by reflexivity. cbv beta iota zeta. cbn [negb].
  erewrite bind_ok by reflexivity.
  assert ((choice <? Z.of_nat (String.length list)) = false) as -> by lia.
  by rewrite andb_false_r.
Qed.

(** [select 2] on the five-option menu ["ab"]. *)
Lemma select_guard_compares_with_name_length_witness :
  (0 <= 2 < Z.of_nat (length Scenario.fruit_options))
  /\ select Scenario.bot_ab (Scenario.user_message 12 "!select 2") (AValue (VInt 2))
       (Scenario.world_of [Scenario.user_message 12 "!select 2"; Scenario.ab_menu] 13)
     = (Ok tt,
        Scenario.world_of [Scenario.user_message 12 "!select 2"; Scenario.ab_menu] 13).
Proof.
  split; [cbn; lia|].
  apply (select_guard_compares_with_name_length Scenario.bot_ab
           (Scenario.user_message 12 "!select 2") Scenario.ab_menu 1 2 "ab"
           (Scenario.world_of [Scenario.user_message 12 "!select 2"; Scenario.ab_menu] 13)).
  - vm_compute; reflexivity.
  - vm_compute; discriminate.
Defined.

(** Below the length of the name the selection goes through: the handler
    gets the option and both messages are deleted. *)
Example select_within_name_length :
  let menu := Scenario.ab_menu in
  let message := Scenario.user_message 12 "!select 1" in
  select Scenario.bot_ab message (AValue (VInt 1)) (Scenario.world_of [message; menu] 13)
  = (Ok tt,
     {| history := []; next_id := 13;
        trace := [ECall 8%nat [AValue (VStr "banana")] ∅; EDelete [12; 5]%nat] |}).
Proof. vm_compute. reflexivity. Qed.

(** A choice below the length of the name but past the options raises. *)
Example select_past_the_options :
  let menu := Scenario.fruits_menu in
  let message := Scenario.user_message 12 "!select 5" in
  select Scenario.bot_fruits message (AValue (VInt 5)) (Scenario.world_of [message; menu] 13)
  = (Raise IndexError, Scenario.world_of [message; menu] 13).
Proof. vm_compute. reflexivity. Qed.

(** [select 2] on the six-letter menu ["fruits"] reaches the handler with
    the third option. *)
Example select_fruits_2 :
  let message := Scenario.user_message 12 "!select 2" in
  select Scenario.bot_fruits message (AValue (VInt 2))
    (Scenario.world_of [message; Scenario.fruits_menu] 13)
  = (Ok tt,
     {| history := []; next_id := 13;
        trace := [ECall 8%nat [AValue (VStr "cherry")] ∅; EDelete [12; 5]%nat] |}).
Proof. vm_compute. reflexivity. Qed.

(** [select 2] on the display-only menu ["rules"]. *)
Example select_rules_2 :
  let message := Scenario.user_message 12 "!select 2" in
  select Scenario.bot_rules message (AValue (VInt 2))
    (Scenario.world_of [message; Scenario.rules_menu] 13)
  = (Raise (SyntaxError "That menu does not allow selection."),
     Scenario.world_of [message; Scenario.rules_menu] 13).
Proof. vm_compute. reflexivity. Qed.

(** On a menu whose footer says [Selection: False], [select] raises
    [SyntaxError], whatever the choice. *)
Lemma select_on_display_only_menu (b : Bot) (message menu : Message) (page : Z)
    (list : string) (choice : arg) (w : World) :
  find_menu b message w = (Ok (Some (menu, page, list, false)), w) ->
  select b message choice w = (Raise (SyntaxError "That menu does not allow selection."), w).
Proof.
  intros Hfind. unfold select. erewrite bind_ok by exact Hfind. reflexivity.
Qed.

(** ** The ["fruits"] menu: activation and [next] *)


(** Rendering a selectable page raises [IndexError] as soon as one index of
    the page has no option behind it. *)
Lemma menu_fields_out_of_range (options : list string) (start : Z) :
  0 <= start ->
  Z.of_nat (length options) < start + items_per_page ->
  menu_fields options (py_range start (start + items_per_page)) = Raise IndexError.
Proof.
  intros Hstart Hlen. unfold py_range, items_per_page in *.
  replace (start + 5 - start) with 5 by lia.
  assert (forall i, Z.of_nat (length options) <= i -> 0 <= i ->
            py_index options i = Raise IndexError) as Hout.
  { intros i Hi Hi0. unfold py_index.
    destruct (i <? 0) eqn:Hneg; [lia|].
    destruct (i <? Z.of_nat (length options)) eqn:Hlt; [lia|].
    by rewrite andb_false_r. }
  assert (forall i, py_index options i = Raise IndexError
                    \/ exists o, py_index options i = Ok o) as Hcases.
  { intros i. destruct (py_index options i) as [o|e] eqn:Hi; [eauto|].
    left. unfold py_index in Hi. repeat case_match; congruence. }
  assert (seqZ start 5 = [start; start + 1; start + 2; start + 3; start + 4]) as ->.
  { unfold seqZ. change (Z.to_nat 5) with 5%nat. cbn [seq fmap list_fmap].
    do 5 (apply (f_equal2 cons); [lia|]). done. }
  cbn [menu_fields].
  rewrite (Hout (start + 4)) by lia.
  destruct (Hcases start) as [->|[o0 ->]]; [done|]. cbn [result_bind].
  destruct (Hcases (start + 1)) as [->|[o1 ->]]; [done|]. cbn [result_bind].
  destruct (Hcases (start + 2)) as [->|[o2 ->]]; [done|]. cbn [result_bind].
  destruct (Hcases (start + 3)) as [->|[o3 ->]]; [done|]. cbn [result_bind].
  done.
Qed.

(** C9 (amended): activating ["fruits"] sends page 1 with one field per
    option and the footer ["Page: 1 List: fruits Selection: True"], and
    deletes the command message.  [next] then locates that menu at page 1 and
    asks for page 2, whose indices 5 to 9 have no option behind them: the
    rendering raises [IndexError] before any edit, and the menu message
    keeps its page 1 footer. *)
Theorem fruits_next_is_out_of_range :
  call_command Scenario.bot_fruits 9%nat Fruits.activation {[ "command" := VStr "fruits" ]}
    (Scenario.world_of [Fruits.activation] 11)
  = (Ok tt, Fruits.activated)
  /\ find_menu Scenario.bot_fruits Fruits.next_message Fruits.before_next
     = (Ok (Some (Scenario.bot_message 11 [Fruits.page_1], 1, "fruits", true)),
        Fruits.before_next)
  /\ create_embed_menu Scenario.bot_fruits (Some "fruits") 2 true = Raise IndexError
  /\ next Scenario.bot_fruits Fruits.next_message Fruits.before_next
     = (Raise IndexError, Fruits.before_next)
  /\ Fruits.menu_footer Fruits.before_next = Some "Page: 1 List: fruits Selection: True".
Proof. repeat split; vm_compute; reflexivity. Qed.

(** C9 as stated fails: [next] does not complete with the footer at page 2. *)
Lemma fruits_next_does_not_reach_page_2 :
  ~ (fst (next Scenario.bot_fruits Fruits.next_message Fruits.before_next) = Ok tt
     /\ Fruits.menu_footer
          (snd (next Scenario.bot_fruits Fruits.next_message Fruits.before_next))
        = Some "Page: 2 List: fruits Selection: True").
Proof. intros [H _]. vm_compute in H. discriminate H. Qed.

(** ** Selectable menus registered without a name *)

(** C10: [menu_command] with selection and no explicit name, applied to the
    function [f], stores the menu under the key [None] and the activation
    command under [f]'s own name.  The activation looks the menu up under
    that name, where (no other menu having that name) there is nothing, and
    raises [KeyError] before anything is sent. *)
Theorem unnamed_select_menu_is_stored_under_None (b : Bot) (command : obj_id) (f : FuncObj)
    (menu_options : list string) (help : option string) :
  heap b !! command = Some f ->
  f_kind f = KFunction ->
  menus b !! Some (f_name f) = None ->
  let b' := snd (menu_command menu_options true None help command b) in
  menus b' !! None = Some {| options := menu_options; handler := Some command |}
  /\ menus b' !! Some (f_name f) = None
  /\ exists activate : obj_id,
       commands b' !! Some (f_name f) = Some activate
       /\ f_code <$> heap b' !! activate = Some (ActivateMenu (Some (f_name f)) true)
       /\ forall (message : Message) (parsed_args : gmap string pyval) (w : World),
            call_command b' activate message parsed_args w = (Raise KeyError, w).
Proof.
  intros Hf Hkind Hfree b'.
  assert (b' =
    set_commands (<[Some (f_name f) := next_obj b]> (commands b))
      (set_heap (<[next_obj b := activate_menu_obj (Some (f_name f)) true]> (heap b))
         (S (next_obj b))
         (set_menus (<[None := {| options := menu_options; handler := Some command |}]> (menus b))
            (set_sub_parsers
               (sub_parsers b ++ [{| sp_name := Some (f_name f); sp_help := f_doc f;
                                     sp_args := [] |}]) b)))) as ->.
  { subst b'. unfold menu_command, register_select_menu.
    erewrite bind_ok by (unfold get_obj; rewrite Hf; reflexivity).
    rewrite Hkind. reflexivity. }
  cbn [menus commands heap set_commands set_heap set_menus set_sub_parsers].
  split; [by rewrite lookup_insert_eq|].
  split; [by rewrite lookup_insert_ne|].
  exists (next_obj b). split; [by rewrite lookup_insert_eq|].
  split; [by rewrite lookup_insert_eq|].
  intros message parsed_args w. unfold call_command.
  cbn [heap set_commands set_heap]. rewrite lookup_insert_eq.
  cbn [f_code activate_menu_obj]. unfold activate_menu, create_embed_menu.
  cbn [menus set_commands set_heap set_menus].
  rewrite lookup_insert_ne by done. rewrite Hfree. reflexivity.
Qed.

Lemma unnamed_select_menu_is_stored_under_None_witness :
  let b' := snd (menu_command Scenario.fruit_options true None None 8%nat
                   (snd (alloc Scenario.fruits_handler Scenario.bot0))) in
  menus b' !! None = Some {| options := Scenario.fruit_options; handler := Some 8%nat |}
  /\ menus b' !! Some (f_name Scenario.fruits_handler) = None
  /\ exists activate : obj_id,
       commands b' !! Some (f_name Scenario.fruits_handler) = Some activate
       /\ f_code <$> heap b' !! activate
          = Some (ActivateMenu (Some (f_name Scenario.fruits_handler)) true)
       /\ forall (message : Message) (parsed_args : gmap string pyval) (w : World),
            call_command b' activate message parsed_args w = (Raise KeyError, w).
Proof.
  apply (unnamed_select_menu_is_stored_under_None
           (snd (alloc Scenario.fruits_handler Scenario.bot0)) 8%nat Scenario.fruits_handler
           Scenario.fruit_options None).
  - vm_compute; reflexivity.
  - reflexivity.
  - vm_compute; reflexivity.
Defined.

(** C10 as stated fails: where a menu named ["fruits"] exists already, the
    unnamed menu registered on the function [fruits] is stored under [None]
    and its activation command under ["fruits"], and activating it does not
    fail: the lookup under the function's name finds the other menu, whose
    page 1 is posted. *)
Lemma unnamed_menu_activation_renders_the_menu_of_that_name :
  menus Shadowed.bot !! None
  = Some {| options := Shadowed.vegetable_options; handler := Some 10%nat |}
  /\ commands Shadowed.bot !! Some (f_name Scenario.fruits_handler) = Some 11%nat
  /\ f_code <$> heap Shadowed.bot !! 11%nat
     = Some (ActivateMenu (Some (f_name Scenario.fruits_handler)) true)
  /\ call_command Shadowed.bot 11%nat Fruits.activation {[ "command" := VStr "fruits" ]}
       (Scenario.world_of [Fruits.activation] 11)
     = (Ok tt, Fruits.activated)
  /\ ~ (exists e : exn,
          fst (call_command Shadowed.bot 11%nat Fruits.activation
                 {[ "command" := VStr "fruits" ]}
                 (Scenario.world_of [Fruits.activation] 11))
          = Raise e).
Proof.
  repeat split; try (vm_compute; reflexivity).
  intros [e He]. vm_compute in He. discriminate He.
Qed.

(** The unnamed menu of the scenario, activated by ["!fruits"]. *)
Example unnamed_fruits_activation_fails :
  Scenario.bot_unnamed
  = snd (menu_command Scenario.fruit_options true None None 8%nat
           (snd (alloc Scenario.fruits_handler Scenario.bot0)))
  /\ commands Scenario.bot_unnamed !! Some "fruits" = Some 9%nat
  /\ call_command Scenario.bot_unnamed 9%nat Fruits.activation {[ "command" := VStr "fruits" ]}
       (Scenario.world_of [Fruits.activation] 11)
     = (Raise KeyError, Scenario.world_of [Fruits.activation] 11).
Proof. repeat split; vm_compute; reflexivity. Qed.

Lemma bind_raise {S A B} (m : M S A) (f : A -> M S B) (s s' : S) (e : exn) :
  m s = (Raise e, s') -> bind m f s = (Raise e, s').
Proof. intros H. unfold bind. by rewrite H. Qed.

(** * Further properties of the dispatcher *)

Section DispatcherProperties.

Variable str_format : string -> gmap string pyval -> result string.
Variable is_app_owner : User -> bool.
Variable shlex_split : string -> result (list string).
Variable parse_args : list SubParser -> list string -> result (gmap string pyval).

(** X1: no [SyntaxError] leaves [process_message]: whether it comes from the
    parser, from a navigation command or from a handler, the [except] clause
    turns it into a private message and the call returns. *)
Theorem process_message_never_raises_SyntaxError (b : Bot) (message : Message) (w : World)
    (msg : string) :
  fst (process_message str_format is_app_owner shlex_split parse_args b message w)
  <> Raise (SyntaxError msg).
Proof.
  unfold process_message.
  destruct (negb _); [|discriminate].
  destruct (PyStr.startswith _ _); [|discriminate].
  unfold except_SyntaxError.
  match goal with |- context [match ?m w with _ => _ end] => destruct (m w) as [[[]|e] w'] end;
    [discriminate|].
  destruct e; discriminate.
Qed.

(** X2: when the parser rejects the tokens, the help text it raised is sent
    to the author in private, nothing reaches the channel and nothing is
    invoked. *)
Theorem parse_error_goes_to_the_author (b : Bot) (message : Message) (tokens : list string)
    (help : string) (w : World) :
  user_eqb (m_author message) (user b) = false ->
  PyStr.startswith (m_content message) (prefix b) = true ->
  shlex_split (PyStr.lstrip (prefix b) (m_content message)) = Ok tokens ->
  parse_args (sub_parsers b) tokens = Raise (SyntaxError help) ->
  process_message str_format is_app_owner shlex_split parse_args b message w
  = (Ok tt,
     {| history := history w; next_id := next_id w;
        trace := trace w ++ [ESend (ToUser (m_author message)) (Some help) None] |}).
Proof.
  intros Hauthor Hprefix Hsplit Hparse.
  unfold process_message. rewrite Hauthor, Hprefix. cbn [negb].
  unfold except_SyntaxError. rewrite Hsplit.
  erewrite bind_ok by reflexivity. rewrite Hparse.
  erewrite bind_raise by reflexivity. reflexivity.
Qed.

(** X3: a message of the bot itself, or one that does not start with the
    prefix, is ignored: nothing is parsed, sent or invoked. *)
Theorem process_message_ignores (b : Bot) (message : Message) (w : World) :
  user_eqb (m_author message) (user b) = true
  \/ PyStr.startswith (m_content message) (prefix b) = false ->
  process_message str_format is_app_owner shlex_split parse_args b message w = (Ok tt, w).
Proof.
  intros [H|H]; unfold process_message; rewrite H; [done|].
  by destruct (negb _).
Qed.

End DispatcherProperties.

Lemma parse_error_goes_to_the_author_witness :
  process_message Lib.str_format (fun _ => false) Lib.shlex_split Lib.parse_args
    Scenario.bot0 (Scenario.user_message 10 "!frobnicate")
    (Scenario.world_of [Scenario.user_message 10 "!frobnicate"] 11)
  = (Ok tt,
     {| history := [Scenario.user_message 10 "!frobnicate"]; next_id := 11;
        trace := [] ++ [ESend (ToUser Scenario.alice) (Some Lib.usage_error) None] |}).
Proof.
  apply (parse_error_goes_to_the_author Lib.str_format (fun _ => false) Lib.shlex_split
           Lib.parse_args Scenario.bot0 (Scenario.user_message 10 "!frobnicate")
           ["frobnicate"] Lib.usage_error
           (Scenario.world_of [Scenario.user_message 10 "!frobnicate"] 11)).
  - reflexivity.
  - reflexivity.
  - reflexivity.
  - vm_compute; reflexivity.
Defined.

Lemma process_message_ignores_witness :
  process_message Lib.str_format (fun _ => false) Lib.shlex_split Lib.parse_args
    Scenario.bot0 (Scenario.user_message 10 "next")
    (Scenario.world_of [Scenario.user_message 10 "next"] 11)
  = (Ok tt, Scenario.world_of [Scenario.user_message 10 "next"] 11).
Proof.
  apply (process_message_ignores Lib.str_format (fun _ => false) Lib.shlex_split
           Lib.parse_args Scenario.bot0 (Scenario.user_message 10 "next")
           (Scenario.world_of [Scenario.user_message 10 "next"] 11)).
  right. reflexivity.
Defined.


(** ** Removal of the prefix *)

Lemma all_chars_mem_weaken (p chars : string) :
  (forall c, PyStr.mem_char c p = true -> PyStr.mem_char c chars = true) ->
  PyStr.all_chars (fun c => PyStr.mem_char c chars) p = true.
Proof.
  induction p as [|a p IH]; intros Hsub; [done|].
  cbn [PyStr.all_chars]. apply andb_true_intro. split.
  - apply Hsub. cbn [PyStr.mem_char]. by rewrite Ascii.eqb_refl.
  - apply IH. intros c Hc. apply Hsub. cbn [PyStr.mem_char]. by rewrite Hc, orb_true_r.
Qed.

Lemma lstrip_app_chars (chars q rest : string) :
  PyStr.all_chars (fun c => PyStr.mem_char c chars) q = true ->
  PyStr.lstrip chars (q +:+ rest) = PyStr.lstrip chars rest.
Proof.
  induction q as [|a q IH]; intros Hall; [done|].
  cbn [PyStr.all_chars] in Hall. apply andb_prop in Hall as [Ha Hq].
  rewrite append_cons. cbn [PyStr.lstrip]. rewrite Ha. by apply IH.
Qed.

Section PrefixRemoval.

Variable str_format : string -> gmap string pyval -> result string.
Variable is_app_owner : User -> bool.
Variable parse_args : list SubParser -> list string -> result (gmap string pyval).

(** X5: [process_message] removes the prefix with [lstrip], which strips a
    set of characters.  On a content made of the prefix, then any run of
    characters that occur in the prefix, then [rest], the one text the
    tokenizer is applied to is [lstrip(prefix, rest)]: two tokenizers that
    agree on that text give the same outcome, and when the message is not
    the bot's own and the tokenizer fails on that text with an exception
    other than [SyntaxError], that exception leaves [process_message] with
    nothing done. *)
Theorem prefix_removal_strips_prefix_characters
    (shlex_split shlex_split' : string -> result (list string))
    (b : Bot) (message : Message) (extra rest : string) (w : World) :
  m_content message = prefix b +:+ extra +:+ rest ->
  PyStr.all_chars (fun c => PyStr.mem_char c (prefix b)) extra = true ->
  shlex_split (PyStr.lstrip (prefix b) rest) = shlex_split' (PyStr.lstrip (prefix b) rest) ->
  process_message str_format is_app_owner shlex_split parse_args b message w
  = process_message str_format is_app_owner shlex_split' parse_args b message w
  /\ forall e : exn,
       user_eqb (m_author message) (user b) = false ->
       shlex_split (PyStr.lstrip (prefix b) rest) = Raise e ->
       (forall msg : string, e <> SyntaxError msg) ->
       process_message str_format is_app_owner shlex_split parse_args b message w
       = (Raise e, w).
Proof.
  intros Hcontent Hextra Hagree.
  assert (PyStr.lstrip (prefix b) (m_content message) = PyStr.lstrip (prefix b) rest)
    as Hstrip.
  { rewrite Hcontent.
    rewrite (lstrip_app_chars (prefix b) (prefix b)) by (by apply all_chars_mem_weaken).
    by apply lstrip_app_chars. }
  unfold process_message. rewrite !Hstrip. split.
  - destruct (negb _); [|done].
    destruct (PyStr.startswith _ _); [|done].
    unfold except_SyntaxError, lift, bind. by rewrite Hagree.
  - intros e Hauthor Hfail Hother. rewrite Hauthor. cbn [negb].
    rewrite Hcontent. unfold PyStr.startswith. rewrite strip_prefix_app.
    unfold except_SyntaxError, lift, bind. rewrite Hfail.
    destruct e; try reflexivity. by destruct (Hother msg).
Qed.

End PrefixRemoval.

(** ["!!next"] with the prefix ["!"]: a tokenizer that knows nothing but
    the text ["next"] serves as well as the reference one. *)
Lemma prefix_removal_strips_prefix_characters_witness :
  process_message Lib.str_format (fun _ => false) Lib.shlex_split Lib.parse_args
    Scenario.bot_fruits (Scenario.user_message 12 "!!next") Fruits.before_next
  = process_message Lib.str_format (fun _ => false)
      (fun text => if String.eqb text "next" then Ok ["next"] else Raise ValueError)
      Lib.parse_args
      Scenario.bot_fruits (Scenario.user_message 12 "!!next") Fruits.before_next
  /\ forall e : exn,
       user_eqb (m_author (Scenario.user_message 12 "!!next")) (user Scenario.bot_fruits)
       = false ->
       Lib.shlex_split (PyStr.lstrip (prefix Scenario.bot_fruits) "next") = Raise e ->
       (forall msg : string, e <> SyntaxError msg) ->
       process_message Lib.str_format (fun _ => false) Lib.shlex_split Lib.parse_args
         Scenario.bot_fruits (Scenario.user_message 12 "!!next") Fruits.before_next
       = (Raise e, Fruits.before_next).
Proof.
  apply (prefix_removal_strips_prefix_characters Lib.str_format (fun _ => false)
           Lib.parse_args Lib.shlex_split
           (fun text => if String.eqb text "next" then Ok ["next"] else Raise ValueError)
           Scenario.bot_fruits (Scenario.user_message 12 "!!next") "!" "next").
  - reflexivity.
  - reflexivity.
  - vm_compute; reflexivity.
Defined.

(** An unbalanced quote, which [shlex.split] refuses with [ValueError],
    is not caught by [process_message]. *)
Example tokenizer_failure_leaves_process_message :
  process_message Lib.str_format (fun _ => false)
    (fun text => if String.eqb text "say 'hi" then Raise ValueError else Lib.shlex_split text)
    Lib.parse_args
    Scenario.bot_fruits (Scenario.user_message 12 "!!say 'hi") Fruits.before_next
  = (Raise ValueError, Fruits.before_next).
Proof. vm_compute. reflexivity. Qed.

(** With the prefix ["bot "], the command of ["bot books"] reaches the
    tokenizer as ["ks"]. *)
Example lstrip_eats_into_the_command :
  PyStr.lstrip "bot " "bot books" = "ks" /\ PyStr.lstrip "!" "!!next" = "next".
Proof. split; reflexivity. Qed.

(** * Further properties of the permission checks *)

Section CheckProperties.

Variable str_format : string -> gmap string pyval -> result string.
Variable is_app_owner : User -> bool.

Lemma check_permission_loop_outcome (b : Bot) (command : obj_id) (message : Message)
    (author_permissions : MemberInfo) (permissions : list string) (w : World) :
  check_permission_loop str_format b command message author_permissions permissions w
  = (Ok (VBool true), w)
  \/ (exists text : string,
        check_permission_loop str_format b command message author_permissions permissions w
        = (Ok (VBool false),
           snd (send_message (user b) (ToChannel (m_channel message)) (Some text) None w)))
  \/ (exists e : exn,
        e <> AttributeError
        /\ check_permission_loop str_format b command message author_permissions permissions w
           = (Raise e, w)).
Proof.
  induction permissions as [|permission rest IH]; [by left|].
  cbn [check_permission_loop].
  destruct (server_permissions author_permissions !! permission) as [[]|]; [done| |by left].
  destruct (getattr (heap b) command "check_failed") as [[]|]; try by left.
  destruct (str_format _ _) as [text|e].
  - right; left. by exists text.
  - destruct e; try (by left); right; right; eexists; (split; [|reflexivity]); discriminate.
Qed.

(** X6: [check_permissions] has three outcomes and no other.  It returns
    [True] and does nothing; or it returns [False] after one message to the
    channel of the invocation; or it lets through an exception that is not
    an [AttributeError], having done nothing.  It never returns [None] and
    never fails without telling. *)
Theorem check_permissions_outcome (b : Bot) (command : obj_id) (message : Message)
    (w : World) :
  check_permissions str_format b command message w = (Ok (VBool true), w)
  \/ (exists text : string,
        check_permissions str_format b command message w
        = (Ok (VBool false),
           snd (send_message (user b) (ToChannel (m_channel message)) (Some text) None w)))
  \/ (exists e : exn,
        e <> AttributeError
        /\ check_permissions str_format b command message w = (Raise e, w)).
Proof.
  unfold check_permissions.
  destruct (getattr (heap b) command "permissions_required") as [required|]; [|by left].
  destruct (truthy required); [|by left].
  destruct (member (m_author message)) as [author_permissions|]; [|by left].
  destruct (iter_strings required) as [permissions|e] eqn:Hiter.
  - erewrite bind_ok by reflexivity. apply check_permission_loop_outcome.
  - right; right. exists e. split; [|reflexivity].
    destruct required; cbn in Hiter; congruence.
Qed.

Lemma check_permission_loop_all_held (b : Bot) (command : obj_id) (message : Message)
    (author_permissions : MemberInfo) (permissions : list string) (w : World) :
  Forall (fun p => server_permissions author_permissions !! p = Some true) permissions ->
  check_permission_loop str_format b command message author_permissions permissions w
  = (Ok (VBool true), w).
Proof.
  induction 1 as [|p rest Hp _ IH]; [done|].
  cbn [check_permission_loop]. by rewrite Hp.
Qed.

(** X7: a member who holds every required permission passes the check in
    silence. *)
Theorem check_permissions_passes_when_all_held (b : Bot) (command : obj_id)
    (message : Message) (author_permissions : MemberInfo) (permissions : list string)
    (w : World) :
  getattr (heap b) command "permissions_required" = Some (VList permissions) ->
  member (m_author message) = Some author_permissions ->
  Forall (fun p => server_permissions author_permissions !! p = Some true) permissions ->
  check_permissions str_format b command message w = (Ok (VBool true), w).
Proof.
  intros Hrequired Hmember Hheld. unfold check_permissions. rewrite Hrequired.
  destruct (truthy (VList permissions)); [|done]. rewrite Hmember.
  erewrite bind_ok by reflexivity.
  by apply check_permission_loop_all_held.
Qed.

(** X8: a required permission that the permissions object does not know
    (a misspelt name, say) makes the whole check pass at that point, also
    when permissions listed after it are not held: the [AttributeError] of
    [getattr] is caught as "no restriction". *)
Theorem check_permissions_passes_at_unknown_permission (b : Bot) (command : obj_id)
    (message : Message) (author_permissions : MemberInfo) (held rest : list string)
    (unknown : string) (w : World) :
  getattr (heap b) command "permissions_required" = Some (VList (held ++ unknown :: rest)) ->
  member (m_author message) = Some author_permissions ->
  Forall (fun p => server_permissions author_permissions !! p = Some true) held ->
  server_permissions author_permissions !! unknown = None ->
  check_permissions str_format b command message w = (Ok (VBool true), w).
Proof.
  intros Hrequired Hmember Hheld Hunknown. unfold check_permissions. rewrite Hrequired.
  assert (truthy (VList (held ++ unknown :: rest)) = true) as -> by (by destruct held).
  rewrite Hmember. erewrite bind_ok by reflexivity. clear Hrequired.
  induction Hheld as [|p held Hp _ IH]; cbn [app check_permission_loop].
  - by rewrite Hunknown.
  - by rewrite Hp.
Qed.

(** X9: the check is permissive wherever it cannot evaluate: a command
    without [permissions_required], one whose list is empty, and an author
    who is not a server member (a private channel) all pass in silence. *)
Theorem check_permissions_permissive (b : Bot) (command : obj_id) (message : Message)
    (w : World) :
  getattr (heap b) command "permissions_required" = None
  \/ getattr (heap b) command "permissions_required" = Some (VList [])
  \/ member (m_author message) = None ->
  check_permissions str_format b command message w = (Ok (VBool true), w).
Proof.
  intros [H|[H|H]]; unfold check_permissions.
  - by rewrite H.
  - by rewrite H.
  - destruct (getattr _ _ _) as [required|]; [|done].
    destruct (truthy required); [|done]. by rewrite H.
Qed.

(** X10: [check_owner] returns [None], sending nothing, for a command whose
    [bot_owner] is present but false, and [process_message] reads that as a
    failed check: such a command is never invoked, for the owner neither.
    The dispatch ends after the checks with the outcome and the effects of
    [check_permissions] and no other, so with nothing at all when the
    command has no [permissions_required]. *)
Theorem false_bot_owner_suppresses_the_command (b : Bot) (command : obj_id)
    (message : Message) (parsed_args : gmap string pyval) (flag : pyval) (w : World) :
  permission_checks b = [CheckPermissions; CheckOwner] ->
  getattr (heap b) command "bot_owner" = Some flag ->
  truthy flag = false ->
  check_owner is_app_owner b command message w = (Ok VNone, w)
  /\ dispatch str_format is_app_owner b command message parsed_args w
     = (match fst (check_permissions str_format b command message w) with
        | Ok _ => Ok tt
        | Raise e => Raise e
        end,
        snd (check_permissions str_format b command message w))
  /\ (getattr (heap b) command "permissions_required" = None ->
      dispatch str_format is_app_owner b command message parsed_args w = (Ok tt, w)).
Proof.
  intros Hchecks Howner Hflag.
  assert (forall w', check_owner is_app_owner b command message w' = (Ok VNone, w'))
    as Hcheck.
  { intros w'. unfold check_owner. by rewrite Howner, Hflag. }
  assert (dispatch str_format is_app_owner b command message parsed_args w
          = (match fst (check_permissions str_format b command message w) with
             | Ok _ => Ok tt
             | Raise e => Raise e
             end,
             snd (check_permissions str_format b command message w))) as Hdispatch.
  { unfold dispatch. rewrite Hchecks. cbn [run_checks run_check].
    destruct (check_permissions str_format b command message w) as [[outcome|e] w'] eqn:Hp.
    - erewrite bind_ok; cycle 1.
      { erewrite bind_ok by exact Hp.
        erewrite bind_ok by apply Hcheck. reflexivity. }
      reflexivity.
    - erewrite bind_raise; [reflexivity|].
      erewrite bind_raise; [reflexivity|exact Hp]. }
  split; [apply Hcheck|]. split; [exact Hdispatch|].
  intros Hrequired. rewrite Hdispatch.
  unfold check_permissions. by rewrite Hrequired.
Qed.

End CheckProperties.

Lemma check_permissions_passes_when_all_held_witness :
  check_permissions Lib.str_format
    (snd ((g <- alloc Scenario.purge ;;
           permissions_required g (VList ["send_messages"]) (VStr "no")) Scenario.bot0))
    8%nat Scenario.purge_message (Scenario.world_of [Scenario.purge_message] 11)
  = (Ok (VBool true), Scenario.world_of [Scenario.purge_message] 11).
Proof.
  apply (check_permissions_passes_when_all_held Lib.str_format _ 8%nat Scenario.purge_message
           {| nick := Some "Al";
              server_permissions :=
                {[ "administrator" := false; "manage_messages" := false;
                   "send_messages" := true ]} |}
           ["send_messages"]).
  - vm_compute; reflexivity.
  - reflexivity.
  - repeat constructor.
Defined.

Lemma check_permissions_passes_at_unknown_permission_witness :
  check_permissions Lib.str_format
    (snd ((g <- alloc Scenario.purge ;;
           permissions_required g (VList ["manage_mesages"; "administrator"]) (VStr "no"))
            Scenario.bot0))
    8%nat Scenario.purge_message (Scenario.world_of [Scenario.purge_message] 11)
  = (Ok (VBool true), Scenario.world_of [Scenario.purge_message] 11).
Proof.
  apply (check_permissions_passes_at_unknown_permission Lib.str_format _ 8%nat
           Scenario.purge_message
           {| nick := Some "Al";
              server_permissions :=
                {[ "administrator" := false; "manage_messages" := false;
                   "send_messages" := true ]} |}
           [] ["administrator"] "manage_mesages").
  - vm_compute; reflexivity.
  - reflexivity.
  - constructor.
  - vm_compute; reflexivity.
Defined.

Lemma check_permissions_permissive_witness :
  check_permissions Lib.str_format Scenario.bot_greet 9%nat Scenario.greet_message
    (Scenario.world_of [Scenario.greet_message] 11)
  = (Ok (VBool true), Scenario.world_of [Scenario.greet_message] 11).
Proof.
  apply (check_permissions_permissive Lib.str_format Scenario.bot_greet 9%nat
           Scenario.greet_message).
  left. vm_compute; reflexivity.
Defined.

(** [purge] needing [manage_messages], with [bot_owner] set to [False]. *)
Lemma false_bot_owner_suppresses_the_command_witness :
  check_owner (fun _ => true)
    (snd ((g <- alloc Scenario.purge ;;
           permissions_required g (VList ["manage_messages"]) (VStr Scenario.purge_denied) ;;;
           setattr g "bot_owner" (VBool false)) Scenario.bot0))
    8%nat Scenario.purge_message (Scenario.world_of [Scenario.purge_message] 11)
  = (Ok VNone, Scenario.world_of [Scenario.purge_message] 11)
  /\ dispatch Lib.str_format (fun _ => true)
       (snd ((g <- alloc Scenario.purge ;;
              permissions_required g (VList ["manage_messages"])
                (VStr Scenario.purge_denied) ;;;
              setattr g "bot_owner" (VBool false)) Scenario.bot0))
       8%nat Scenario.purge_message {[ "command" := VStr "purge" ]}
       (Scenario.world_of [Scenario.purge_message] 11)
     = (match fst (check_permissions Lib.str_format
                     (snd ((g <- alloc Scenario.purge ;;
                            permissions_required g (VList ["manage_messages"])
                              (VStr Scenario.purge_denied) ;;;
                            setattr g "bot_owner" (VBool false)) Scenario.bot0))
                     8%nat Scenario.purge_message
                     (Scenario.world_of [Scenario.purge_message] 11)) with
        | Ok _ => Ok tt
        | Raise e => Raise e
        end,
        snd (check_permissions Lib.str_format
               (snd ((g <- alloc Scenario.purge ;;
                      permissions_required g (VList ["manage_messages"])
                        (VStr Scenario.purge_denied) ;;;
                      setattr g "bot_owner" (VBool false)) Scenario.bot0))
               8%nat Scenario.purge_message
               (Scenario.world_of [Scenario.purge_message] 11)))
  /\ (getattr
        (heap (snd ((g <- alloc Scenario.purge ;;
                     permissions_required g (VList ["manage_messages"])
                       (VStr Scenario.purge_denied) ;;;
                     setattr g "bot_owner" (VBool false)) Scenario.bot0)))
        8%nat "permissions_required" = None ->
      dispatch Lib.str_format (fun _ => true)
        (snd ((g <- alloc Scenario.purge ;;
               permissions_required g (VList ["manage_messages"])
                 (VStr Scenario.purge_denied) ;;;
               setattr g "bot_owner" (VBool false)) Scenario.bot0))
        8%nat Scenario.purge_message {[ "command" := VStr "purge" ]}
        (Scenario.world_of [Scenario.purge_message] 11)
      = (Ok tt, Scenario.world_of [Scenario.purge_message] 11)).
Proof.
  apply (false_bot_owner_suppresses_the_command Lib.str_format (fun _ => true) _ 8%nat
           Scenario.purge_message {[ "command" := VStr "purge" ]} (VBool false)).
  - vm_compute; reflexivity.
  - vm_compute; reflexivity.
  - reflexivity.
Defined.

(** On that command the owner's ["!purge"] draws the permission refusal and
    nothing else; without [permissions_required] it draws nothing. *)
Example false_bot_owner_with_permissions_required :
  dispatch Lib.str_format (fun _ => true)
    (snd ((g <- alloc Scenario.purge ;;
           permissions_required g (VList ["manage_messages"]) (VStr Scenario.purge_denied) ;;;
           setattr g "bot_owner" (VBool false)) Scenario.bot0))
    8%nat Scenario.purge_message {[ "command" := VStr "purge" ]}
    (Scenario.world_of [Scenario.purge_message] 11)
  = (Ok tt,
     {| history := [ {| m_id := 11; m_channel := 7; m_author := Scenario.me;
                        m_content := "<@2> may not purge."; m_embeds := [] |};
                     Scenario.purge_message ];
        next_id := 12;
        trace := [ESend (ToChannel 7) (Some "<@2> may not purge.") None] |})
  /\ dispatch Lib.str_format (fun _ => true)
       (snd ((g <- alloc Scenario.purge ;; setattr g "bot_owner" (VBool false)) Scenario.bot0))
       8%nat Scenario.purge_message {[ "command" := VStr "purge" ]}
       (Scenario.world_of [Scenario.purge_message] 11)
     = (Ok tt, Scenario.world_of [Scenario.purge_message] 11).
Proof. split; vm_compute; reflexivity. Qed.

(** * Further properties of registration *)

Lemma keyword_postional_entry_store (p : Param) (name : string) :
  keyword_postional_entry p name
  = Ok {| ge_name := name; ge_action := "store"; ge_const := None;
          ge_type := match p_annotation p with AnnClass ClsInt => ClsInt | _ => ClsStr end |}.
Proof. unfold keyword_postional_entry. by destruct (p_annotation p) as [|[]| |]. Qed.

Lemma parse_keyword_postional_appends (p : Param) (sps : list SubParser) (sp : SubParser)
    (b : Bot) :
  sub_parsers b = sps ++ [sp] ->
  parse_keyword_postional p (p_name p) (length sps) b
  = (Ok tt, set_sub_parsers (sps ++ [add_entries sp [entry_of p]]) b).
Proof.
  intros Hsps. unfold parse_keyword_postional.
  rewrite keyword_postional_entry_store.
  erewrite bind_ok by reflexivity.
  unfold add_argument. cbn [ge_action String.eqb Ascii.eqb Bool.eqb]. cbn.
  unfold modify. rewrite Hsps.
  rewrite alter_app_r_alt by lia. rewrite Nat.sub_diag. reflexivity.
Qed.

Lemma add_entries_app (sp : SubParser) (l1 l2 : list GrammarEntry) :
  add_entries (add_entries sp l1) l2 = add_entries sp (l1 ++ l2).
Proof. unfold add_entries. cbn. by rewrite <- app_assoc. Qed.

Lemma add_entries_nil (sp : SubParser) : add_entries sp [] = sp.
Proof. destruct sp. unfold add_entries. cbn. by rewrite app_nil_r. Qed.

Lemma set_sub_parsers_id (b : Bot) : set_sub_parsers (sub_parsers b) b = b.
Proof. by destruct b. Qed.

Lemma parse_parameter_list_spec (ps : list Param) (sps : list SubParser) (sp : SubParser)
    (b : Bot) :
  sub_parsers b = sps ++ [sp] ->
  parse_parameter_list ps (length sps) b
  = (if forallb (fun p => negb (rejected_param p)) ps then Ok tt
     else Raise positional_only_error,
     set_sub_parsers
       (sps ++ [add_entries sp (map entry_of (List.filter registered_param (accepted ps)))])
       b).
Proof.
  revert sp b. induction ps as [|p ps IH]; intros sp b Hsps.
  - cbn. rewrite add_entries_nil, <- Hsps. by rewrite set_sub_parsers_id.
  - cbn [parse_parameter_list forallb accepted].
    pose proof (eq_refl (rejected_param p)) as Hr. unfold rejected_param at 2 in Hr.
    pose proof (eq_refl (registered_param p)) as Hg. unfold registered_param at 2 in Hg.
    destruct (p_annotation p) as [|[]| |]; destruct (p_kind p);
      cbn in Hr, Hg; rewrite Hr; cbn [negb andb];
      try (cbn [List.filter]; rewrite Hg; by apply IH);
      try (unfold raise; cbn; rewrite add_entries_nil, <- Hsps; by rewrite set_sub_parsers_id).
    all: cbn [List.filter]; rewrite Hg; cbn [map].
    all: erewrite bind_ok by (by apply parse_keyword_postional_appends).
    all: rewrite (IH (add_entries sp [entry_of p])) by done.
    all: by rewrite add_entries_app.
Qed.

Lemma accepted_all (ps : list Param) :
  forallb (fun p => negb (rejected_param p)) ps = true -> accepted ps = ps.
Proof.
  induction ps as [|p ps IH]; [done|]. cbn [forallb accepted].
  intros [Hp Hps]%andb_prop. destruct (rejected_param p); [done|]. by rewrite IH.
Qed.

Lemma parse_parameters_spec (b : Bot) (c : obj_id) (f : FuncObj) (name : option string) :
  heap b !! c = Some f ->
  f_kind f <> KOther ->
  parse_parameters c name b
  = (if forallb (fun p => negb (rejected_param p)) (f_params f)
     then Ok (if falsy_name name then f_name f else default "" name)
     else Raise positional_only_error,
     set_sub_parsers
       (sub_parsers b
          ++ [{| sp_name := Some (if falsy_name name then f_name f else default "" name);
                 sp_help := f_doc f;
                 sp_args := map entry_of (List.filter registered_param (accepted (f_params f))) |}])
       b).
Proof.
  intros Hf Hkind. unfold parse_parameters, get_obj. unfold bind at 1. rewrite Hf.
  assert (forall n : string,
    (new_sub_parser <- add_parser (Some n) (f_doc f) ;;
     parse_parameter_list (f_params f) new_sub_parser ;;; ret n) b
    = (if forallb (fun p => negb (rejected_param p)) (f_params f) then Ok n
       else Raise positional_only_error,
       set_sub_parsers
         (sub_parsers b
            ++ [{| sp_name := Some n; sp_help := f_doc f;
                   sp_args := map entry_of
                                (List.filter registered_param (accepted (f_params f))) |}])
         b)) as Hbody.
  { intros n. unfold bind at 1. cbn [add_parser]. unfold bind.
    rewrite (parse_parameter_list_spec (f_params f) (sub_parsers b)
               {| sp_name := Some n; sp_help := f_doc f; sp_args := [] |}) by done.
    by destruct (forallb _ _). }
  destruct (f_kind f); [apply Hbody | apply Hbody | done].
Qed.

Lemma parse_parameters_derives_grammar_aux (b : Bot) (c : obj_id) (f : FuncObj)
    (name : option string) :
  heap b !! c = Some f ->
  f_kind f <> KOther ->
  forallb (fun p => negb (rejected_param p)) (f_params f) = true ->
  parse_parameters c name b
  = (Ok (if falsy_name name then f_name f else default "" name),
     set_sub_parsers
       (sub_parsers b
          ++ [{| sp_name := Some (if falsy_name name then f_name f else default "" name);
                 sp_help := f_doc f;
                 sp_args := map entry_of (List.filter registered_param (f_params f)) |}])
       b).
Proof.
  intros Hf Hkind Hall. rewrite (parse_parameters_spec b c f name Hf Hkind).
  by rewrite Hall, accepted_all.
Qed.

(** X11: the grammar of a command has one argument for each parameter that
    is positional-or-keyword or keyword only and not annotated with
    [discord.Message], in declaration order; [*args] and [**kwargs] get
    none.  Every argument has the action ["store"] and no constant, and its
    type is [int] for a parameter annotated [int] and [str] otherwise; the
    help of the sub-parser is the doc string. *)
Theorem parse_parameters_derives_grammar (b : Bot) (c : obj_id) (f : FuncObj)
    (name : option string) :
  heap b !! c = Some f ->
  f_kind f <> KOther ->
  forallb (fun p => negb (rejected_param p)) (f_params f) = true ->
  parse_parameters c name b
  = (Ok (if falsy_name name then f_name f else default "" name),
     set_sub_parsers
       (sub_parsers b
          ++ [{| sp_name := Some (if falsy_name name then f_name f else default "" name);
                 sp_help := f_doc f;
                 sp_args := map entry_of (List.filter registered_param (f_params f)) |}])
       b).
Proof.
  intros Hf Hkind Hall. by apply parse_parameters_derives_grammar_aux.
Qed.

(** X12: a positional-only parameter aborts [command] with [SyntaxError],
    and no command is stored; but the sub-parser added before the
    parameters were looked at stays in the parser, with the arguments of
    the parameters that came first. *)
Theorem positional_only_leaves_a_sub_parser (b : Bot) (c : obj_id) (f : FuncObj)
    (name : option string) :
  heap b !! c = Some f ->
  f_kind f <> KOther ->
  forallb (fun p => negb (rejected_param p)) (f_params f) = false ->
  command (Some c) name b
  = (Raise positional_only_error,
     set_sub_parsers
       (sub_parsers b
          ++ [{| sp_name := Some (if falsy_name name then f_name f else default "" name);
                 sp_help := f_doc f;
                 sp_args :=
                   map entry_of (List.filter registered_param (accepted (f_params f))) |}])
       b).
Proof.
  intros Hf Hkind Hsome. unfold command.
  erewrite bind_raise; [reflexivity|].
  rewrite (parse_parameters_spec b c f name Hf Hkind). by rewrite Hsome.
Qed.

Lemma mirrorAttr_frame (wc source dest : obj_id) (attr : string) (b b' : Bot)
    (res : result obj_id) :
  mirrorAttr wc source dest attr b = (res, b') ->
  (exists r, res = Ok r /\ (r = source \/ r = wc))
  /\ commands b' = commands b /\ menus b' = menus b
  /\ sub_parsers b' = sub_parsers b /\ next_obj b' = next_obj b.
Proof.
  unfold mirrorAttr, setattr.
  destruct (getattr (heap b) source attr) as [v|]; [|inversion 1; subst; eauto 10].
  destruct (heap b !! dest) as [fd|]; [|inversion 1; subst; eauto 10].
  destruct (f_kind fd); inversion 1; subst; eauto 10.
Qed.

(** X13: a successful [command] stores what it returns under the command's
    name and changes no other entry of [self.commands] and no menu: a name
    registered before is replaced, the last registration wins.  What it
    stores is the function itself or the wrapper just built, and the parser
    gains the one sub-parser of the command. *)
Theorem command_registers_under_its_name (b b' : Bot) (c r : obj_id) (f : FuncObj)
    (name : option string) :
  heap b !! c = Some f ->
  command (Some c) name b = (Ok r, b') ->
  commands b' = <[Some (if falsy_name name then f_name f else default "" name) := r]> (commands b)
  /\ menus b' = menus b
  /\ (r = c \/ r = next_obj b)
  /\ sub_parsers b'
     = sub_parsers b
         ++ [{| sp_name := Some (if falsy_name name then f_name f else default "" name);
                sp_help := f_doc f;
                sp_args := map entry_of (List.filter registered_param (f_params f)) |}].
Proof.
  intros Hf H. unfold command in H. unfold bind at 1 in H.
  assert (f_kind f <> KOther) as Hkind.
  { intros Hk. unfold parse_parameters, get_obj in H. unfold bind at 1 in H.
    rewrite Hf, Hk in H. inversion H. }
  rewrite (parse_parameters_spec b c f name Hf Hkind) in H.
  destruct (forallb _ _) eqn:Hall; [|inversion H].
  rewrite accepted_all in H by done.
  set (n := if falsy_name name then f_name f else default "" name) in *.
  set (b1 := set_sub_parsers _ b) in H.
  unfold bind at 1 in H. unfold wraps, get_obj in H. unfold bind at 1 in H.
  change (heap b1) with (heap b) in H. rewrite Hf in H. cbn [alloc] in H.
  set (b2 := set_heap _ _ b1) in H.
  unfold bind at 1 in H.
  destruct (mirrorAttr (next_obj b1) c (next_obj b1) "bot_owner" b2) as [res1 b3] eqn:E1.
  apply mirrorAttr_frame in E1 as ((r1 & -> & R1) & C1 & M1 & S1 & N1).
  unfold bind at 1 in H.
  destruct (mirrorAttr r1 c r1 "check_failed" b3) as [res2 b4] eqn:E2.
  apply mirrorAttr_frame in E2 as ((r2 & -> & R2) & C2 & M2 & S2 & N2).
  unfold bind at 1 in H.
  destruct (mirrorAttr r2 c r2 "permissions_required" b4) as [res3 b5] eqn:E3.
  apply mirrorAttr_frame in E3 as ((r3 & -> & R3) & C3 & M3 & S3 & N3).
  unfold bind, store_command, modify, ret in H. inversion H; subst r b'. clear H.
  cbn [commands menus sub_parsers set_commands].
  rewrite C3, C2, C1, M3, M2, M1, S3, S2, S1.
  repeat split; try done.
  change (next_obj b1) with (next_obj b) in *.
  destruct R3 as [->| ->]; [by left|].
  destruct R2 as [->| ->]; [by left|].
  destruct R1 as [->| ->]; [by left|by right].
Qed.

(** X14: a [command] call that raises has stored no command, built no
    wrapper and touched no menu; it raises [TypeError] for an unknown
    object, and [SyntaxError] for something that is neither a function nor a
    method and for a positional-only parameter. *)
Theorem failed_command_stores_nothing (b b' : Bot) (c : obj_id) (name : option string)
    (e : exn) :
  command (Some c) name b = (Raise e, b') ->
  commands b' = commands b /\ menus b' = menus b /\ heap b' = heap b
  /\ (e = TypeError \/ e = SyntaxError "Commands must be functions."
      \/ e = positional_only_error).
Proof.
  intros H. unfold command in H. unfold bind at 1 in H.
  destruct (heap b !! c) as [f|] eqn:Hf; cycle 1.
  { unfold parse_parameters, get_obj in H. unfold bind at 1 in H. rewrite Hf in H.
    inversion H; subst. repeat split; auto. }
  assert (f_kind f = KOther \/ f_kind f <> KOther) as [Hk|Hkind]
    by (destruct (f_kind f); (by left) || (by right)).
  { unfold parse_parameters, get_obj in H. unfold bind at 1 in H. rewrite Hf, Hk in H.
    inversion H; subst. repeat split; auto. }
  rewrite (parse_parameters_spec b c f name Hf Hkind) in H.
  destruct (forallb _ _) eqn:Hall; [|inversion H; subst; repeat split; auto].
  exfalso.
  set (b1 := set_sub_parsers _ b) in H.
  unfold bind at 1 in H. unfold wraps, get_obj in H. unfold bind at 1 in H.
  change (heap b1) with (heap b) in H. rewrite Hf in H. cbn [alloc] in H.
  set (b2 := set_heap _ _ b1) in H.
  unfold bind at 1 in H.
  destruct (mirrorAttr (next_obj b1) c (next_obj b1) "bot_owner" b2) as [res1 b3] eqn:E1.
  apply mirrorAttr_frame in E1 as ((r1 & -> & _) & _).
  unfold bind at 1 in H.
  destruct (mirrorAttr r1 c r1 "check_failed" b3) as [res2 b4] eqn:E2.
  apply mirrorAttr_frame in E2 as ((r2 & -> & _) & _).
  unfold bind at 1 in H.
  destruct (mirrorAttr r2 c r2 "permissions_required" b4) as [res3 b5] eqn:E3.
  apply mirrorAttr_frame in E3 as ((r3 & -> & _) & _).
  unfold bind, store_command, modify, ret in H. inversion H.
Qed.

Lemma mirrorAttr_absent (wc source dest : obj_id) (attr : string) (b : Bot) :
  getattr (heap b) source attr = None ->
  mirrorAttr wc source dest attr b = (Ok wc, b).
Proof. intros H. unfold mirrorAttr. by rewrite H. Qed.

(** X15: for a function or method that carries none of [bot_owner],
    [check_failed] and [permissions_required], [command] returns and stores
    a new wrapper function: it has the name, the doc string, the parameters
    and a copy of the attributes of the original, which stays in the heap
    as it was. *)
Theorem command_without_metadata_stores_the_wrapper (b : Bot) (c : obj_id) (f : FuncObj)
    (name : option string) :
  heap b !! c = Some f ->
  f_kind f <> KOther ->
  forallb (fun p => negb (rejected_param p)) (f_params f) = true ->
  f_attrs f !! "bot_owner" = None ->
  f_attrs f !! "check_failed" = None ->
  f_attrs f !! "permissions_required" = None ->
  command (Some c) name b
  = (Ok (next_obj b),
     set_commands
       (<[Some (if falsy_name name then f_name f else default "" name) := next_obj b]>
          (commands b))
       (set_heap
          (<[next_obj b := {| f_kind := KFunction; f_name := f_name f; f_doc := f_doc f;
                              f_params := f_params f; f_attrs := f_attrs f;
                              f_code := WrappedCommand c |}]> (heap b))
          (S (next_obj b))
          (set_sub_parsers
             (sub_parsers b
                ++ [{| sp_name := Some (if falsy_name name then f_name f else default "" name);
                       sp_help := f_doc f;
                       sp_args := map entry_of (List.filter registered_param (f_params f)) |}])
             b))).
Proof.
  intros Hf Hkind Hall Ho Hc Hp. unfold command.
  erewrite bind_ok by (by apply parse_parameters_derives_grammar_aux).
  set (b1 := set_sub_parsers _ b).
  assert (wraps c b1
          = (Ok (next_obj b),
             set_heap (<[next_obj b := {| f_kind := KFunction; f_name := f_name f;
                                          f_doc := f_doc f; f_params := f_params f;
                                          f_attrs := f_attrs f;
                                          f_code := WrappedCommand c |}]> (heap b))
               (S (next_obj b)) b1)) as Hwraps.
  { unfold wraps, get_obj. unfold bind. change (heap b1) with (heap b). by rewrite Hf. }
  erewrite bind_ok by exact Hwraps.
  set (b2 := set_heap _ _ b1).
  assert (forall attr, f_attrs f !! attr = None -> getattr (heap b2) c attr = None) as Hget.
  { intros attr Hattr. unfold getattr. cbn [b2 heap set_heap].
    destruct (decide (next_obj b = c)) as [->|Hne].
    - rewrite lookup_insert_eq. cbn. exact Hattr.
    - rewrite lookup_insert_ne by done. change (heap b1) with (heap b).
      by rewrite Hf. }
  erewrite bind_ok by (apply mirrorAttr_absent; by apply Hget).
  erewrite bind_ok by (apply mirrorAttr_absent; by apply Hget).
  erewrite bind_ok by (apply mirrorAttr_absent; by apply Hget).
  reflexivity.
Qed.

(** * Further properties of the decorators and of the constructor *)

Lemma setattr_function (b : Bot) (o : obj_id) (f : FuncObj) (attr : string) (v : pyval) :
  heap b !! o = Some f ->
  f_kind f <> KMethod ->
  setattr o attr v b
  = (Ok tt,
     set_heap (<[o := {| f_kind := f_kind f; f_name := f_name f; f_doc := f_doc f;
                         f_params := f_params f; f_attrs := <[attr := v]> (f_attrs f);
                         f_code := f_code f |}]> (heap b)) (next_obj b) b).
Proof. intros Hf Hkind. unfold setattr. rewrite Hf. by destruct (f_kind f). Qed.

Section DecoratorProperties.

Variable str_format : string -> gmap string pyval -> result string.
Variable is_app_owner : User -> bool.

(** X16: [owner_only] applied to a function returns it marked, and from then
    on [check_owner] lets the application owner through in silence and
    answers everybody else with the refusal in the channel. *)
Theorem owner_only_restricts_to_the_owner (b : Bot) (c : obj_id) (f : FuncObj)
    (message : Message) (w : World) :
  heap b !! c = Some f ->
  f_kind f <> KMethod ->
  fst (owner_only c b) = Ok c
  /\ check_owner is_app_owner (snd (owner_only c b)) c message w
     = if is_app_owner (m_author message) then (Ok (VBool true), w)
       else (Ok (VBool false),
             snd (send_message (user b) (ToChannel (m_channel message))
                    (Some (owner_refusal (m_author message))) None w)).
Proof.
  intros Hf Hkind. unfold owner_only.
  erewrite bind_ok by (by apply setattr_function).
  split; [done|]. cbn [snd ret].
  unfold check_owner, getattr. cbn [heap set_heap user].
  rewrite lookup_insert_eq. cbn [f_attrs]. rewrite lookup_insert_eq. cbn [truthy].
  by destruct (is_app_owner (m_author message)).
Qed.


End DecoratorProperties.

Lemma init_heap_lookups (me : User) (prog pre : string) :
  f_code <$> heap (snd (init me prog pre)) !! 0%nat = Some BuiltinNext
  /\ f_code <$> heap (snd (init me prog pre)) !! 1%nat = Some (WrappedCommand 0%nat)
  /\ f_code <$> heap (snd (init me prog pre)) !! 2%nat = Some BuiltinBack
  /\ f_code <$> heap (snd (init me prog pre)) !! 3%nat = Some (WrappedCommand 2%nat)
  /\ f_code <$> heap (snd (init me prog pre)) !! 4%nat = Some BuiltinSelect
  /\ f_code <$> heap (snd (init me prog pre)) !! 5%nat = Some (WrappedCommand 4%nat)
  /\ f_code <$> heap (snd (init me prog pre)) !! 6%nat = Some BuiltinDismiss
  /\ f_code <$> heap (snd (init me prog pre)) !! 7%nat = Some (WrappedCommand 6%nat).
Proof. repeat split; vm_compute; reflexivity. Qed.

Lemma call_command_wrapper (b : Bot) (o c : obj_id) (message : Message)
    (parsed_args : gmap string pyval) (v : pyval) (w : World) :
  f_code <$> heap b !! o = Some (WrappedCommand c) ->
  parsed_args !! "command" = Some v ->
  call_command b o message parsed_args w
  = call_keywords b c message (delete "command" parsed_args) w.
Proof.
  intros Ho Hcommand. unfold call_command.
  destruct (heap b !! o) as [f|]; [|discriminate Ho].
  cbn in Ho. injection Ho as ->. by rewrite Hcommand.
Qed.

Lemma call_keywords_builtin (b : Bot) (c : obj_id) (message : Message) (w : World) :
  (f_code <$> heap b !! c = Some BuiltinNext ->
   call_keywords b c message ∅ w = next b message w)
  /\ (f_code <$> heap b !! c = Some BuiltinBack ->
      call_keywords b c message ∅ w = back b message w)
  /\ (f_code <$> heap b !! c = Some BuiltinDismiss ->
      call_keywords b c message ∅ w = dismiss b message w)
  /\ (forall choice : pyval,
        f_code <$> heap b !! c = Some BuiltinSelect ->
        call_keywords b c message {[ "choice" := choice ]} w
        = select b message (AValue choice) w).
Proof.
  unfold call_keywords.
  destruct (heap b !! c) as [f|]; [|repeat split; intros; discriminate].
  cbn. repeat split.
  - intros [= ->]. reflexivity.
  - intros [= ->]. reflexivity.
  - intros [= ->]. reflexivity.
  - intros choice [= ->]. rewrite lookup_singleton_eq.
    unfold only_key. rewrite delete_singleton_eq. reflexivity.
Qed.

(** X18: the constructor never raises, and the bot it builds has no menus,
    the two permission checks in order, and exactly the four navigation
    commands; each is stored as a wrapper, so that dispatching it with the
    parsed namespace runs [next], [back], [dismiss], or [select] with the
    parsed [choice]. *)
Theorem init_registers_the_navigation_commands (me : User) (prog pre : string) :
  fst (init me prog pre) = Ok tt
  /\ user (snd (init me prog pre)) = me
  /\ prefix (snd (init me prog pre)) = pre
  /\ menus (snd (init me prog pre)) = ∅
  /\ permission_checks (snd (init me prog pre)) = [CheckPermissions; CheckOwner]
  /\ map sp_name (sub_parsers (snd (init me prog pre)))
     = [Some "next"; Some "back"; Some "select"; Some "dismiss"]
  /\ exists n_next n_back n_select n_dismiss : obj_id,
       commands (snd (init me prog pre))
       = {[ Some "next" := n_next; Some "back" := n_back; Some "select" := n_select;
            Some "dismiss" := n_dismiss ]}
       /\ forall (message : Message) (w : World) (choice : pyval),
            call_command (snd (init me prog pre)) n_next message
              {[ "command" := VStr "next" ]} w
            = next (snd (init me prog pre)) message w
            /\ call_command (snd (init me prog pre)) n_back message
                 {[ "command" := VStr "back" ]} w
               = back (snd (init me prog pre)) message w
            /\ call_command (snd (init me prog pre)) n_dismiss message
                 {[ "command" := VStr "dismiss" ]} w
               = dismiss (snd (init me prog pre)) message w
            /\ call_command (snd (init me prog pre)) n_select message
                 {[ "command" := VStr "select"; "choice" := choice ]} w
               = select (snd (init me prog pre)) message (AValue choice) w.
Proof.
  destruct (init_heap_lookups me prog pre) as (H0 & H1 & H2 & H3 & H4 & H5 & H6 & H7).
  split; [vm_compute; reflexivity|].
  split; [vm_compute; reflexivity|].
  split; [vm_compute; reflexivity|].
  split; [vm_compute; reflexivity|].
  split; [vm_compute; reflexivity|].
  split; [vm_compute; reflexivity|].
  exists 1%nat, 3%nat, 5%nat, 7%nat. split; [vm_compute; reflexivity|].
  intros message w choice.
  set (b := snd (init me prog pre)) in *.
  destruct (call_keywords_builtin b 0%nat message w) as (Knext & _).
  destruct (call_keywords_builtin b 2%nat message w) as (_ & Kback & _).
  destruct (call_keywords_builtin b 6%nat message w) as (_ & _ & Kdismiss & _).
  destruct (call_keywords_builtin b 4%nat message w) as (_ & _ & _ & Kselect).
  split; [|split; [|split]].
  - erewrite call_command_wrapper by (exact H1 || apply lookup_singleton_eq).
    rewrite delete_singleton_eq. by apply Knext.
  - erewrite call_command_wrapper by (exact H3 || apply lookup_singleton_eq).
    rewrite delete_singleton_eq. by apply Kback.
  - erewrite call_command_wrapper by (exact H7 || apply lookup_singleton_eq).
    rewrite delete_singleton_eq. by apply Kdismiss.
  - erewrite call_command_wrapper by (exact H5 || apply lookup_insert_eq).
    rewrite delete_insert_eq. rewrite delete_singleton_ne by done. by apply Kselect.
Qed.

Lemma parse_parameters_derives_grammar_witness :
  parse_parameters 8%nat None Cases.bot_kick
  = (Ok (if falsy_name None then f_name Cases.kick else default "" None),
     set_sub_parsers
       (sub_parsers Cases.bot_kick
          ++ [{| sp_name := Some (if falsy_name None then f_name Cases.kick else default "" None);
                 sp_help := f_doc Cases.kick;
                 sp_args := map entry_of (List.filter registered_param (f_params Cases.kick)) |}])
       Cases.bot_kick).
Proof.
  apply (parse_parameters_derives_grammar Cases.bot_kick 8%nat Cases.kick None).
  - vm_compute; reflexivity.
  - discriminate.
  - reflexivity.
Defined.

(** The arguments derived for [kick]: [target] as a string, [days] as an
    integer, nothing for [message] and [*reasons]. *)
Example kick_grammar :
  map entry_of (List.filter registered_param (f_params Cases.kick))
  = [ {| ge_name := "target"; ge_action := "store"; ge_const := None; ge_type := ClsStr |};
      {| ge_name := "days"; ge_action := "store"; ge_const := None; ge_type := ClsInt |} ].
Proof. reflexivity. Qed.

Lemma positional_only_leaves_a_sub_parser_witness :
  command (Some 8%nat) None Cases.bot_legacy
  = (Raise positional_only_error,
     set_sub_parsers
       (sub_parsers Cases.bot_legacy
          ++ [{| sp_name := Some (if falsy_name None then f_name Cases.legacy
                                  else default "" None);
                 sp_help := f_doc Cases.legacy;
                 sp_args :=
                   map entry_of
                     (List.filter registered_param (accepted (f_params Cases.legacy))) |}])
       Cases.bot_legacy).
Proof.
  apply (positional_only_leaves_a_sub_parser Cases.bot_legacy 8%nat Cases.legacy None).
  - vm_compute; reflexivity.
  - discriminate.
  - reflexivity.
Defined.

Lemma command_registers_under_its_name_witness :
  commands Scenario.bot_greet
  = <[Some (if falsy_name None then f_name Scenario.greet else default "" None) := 9%nat]>
      (commands Cases.bot_greet_defined)
  /\ menus Scenario.bot_greet = menus Cases.bot_greet_defined
  /\ (9%nat = 8%nat \/ 9%nat = next_obj Cases.bot_greet_defined)
  /\ sub_parsers Scenario.bot_greet
     = sub_parsers Cases.bot_greet_defined
         ++ [{| sp_name := Some (if falsy_name None then f_name Scenario.greet
                                 else default "" None);
                sp_help := f_doc Scenario.greet;
                sp_args := map entry_of
                             (List.filter registered_param (f_params Scenario.greet)) |}].
Proof.
  apply (command_registers_under_its_name Cases.bot_greet_defined Scenario.bot_greet
           8%nat 9%nat Scenario.greet None).
  - vm_compute; reflexivity.
  - vm_compute; reflexivity.
Defined.

Lemma failed_command_stores_nothing_witness :
  commands (snd (command (Some 8%nat) None Cases.bot_legacy)) = commands Cases.bot_legacy
  /\ menus (snd (command (Some 8%nat) None Cases.bot_legacy)) = menus Cases.bot_legacy
  /\ heap (snd (command (Some 8%nat) None Cases.bot_legacy)) = heap Cases.bot_legacy
  /\ (positional_only_error = TypeError
      \/ positional_only_error = SyntaxError "Commands must be functions."
      \/ positional_only_error = positional_only_error).
Proof.
  apply (failed_command_stores_nothing Cases.bot_legacy
           (snd (command (Some 8%nat) None Cases.bot_legacy)) 8%nat None
           positional_only_error).
  vm_compute; reflexivity.
Defined.

Lemma command_without_metadata_stores_the_wrapper_witness :
  command (Some 8%nat) None Cases.bot_greet_defined
  = (Ok (next_obj Cases.bot_greet_defined),
     set_commands
       (<[Some (if falsy_name None then f_name Scenario.greet else default "" None)
          := next_obj Cases.bot_greet_defined]>
          (commands Cases.bot_greet_defined))
       (set_heap
          (<[next_obj Cases.bot_greet_defined
             := {| f_kind := KFunction; f_name := f_name Scenario.greet;
                   f_doc := f_doc Scenario.greet; f_params := f_params Scenario.greet;
                   f_attrs := f_attrs Scenario.greet; f_code := WrappedCommand 8%nat |}]>
             (heap Cases.bot_greet_defined))
          (S (next_obj Cases.bot_greet_defined))
          (set_sub_parsers
             (sub_parsers Cases.bot_greet_defined
                ++ [{| sp_name := Some (if falsy_name None then f_name Scenario.greet
                                        else default "" None);
                       sp_help := f_doc Scenario.greet;
                       sp_args := map entry_of
                                    (List.filter registered_param
                                       (f_params Scenario.greet)) |}])
             Cases.bot_greet_defined))).
Proof.
  apply (command_without_metadata_stores_the_wrapper Cases.bot_greet_defined 8%nat
           Scenario.greet None).
  - vm_compute; reflexivity.
  - discriminate.
  - reflexivity.
  - reflexivity.
  - reflexivity.
  - reflexivity.
Defined.

Lemma owner_only_restricts_to_the_owner_witness :
  fst (owner_only 8%nat Cases.bot_greet_defined) = Ok 8%nat
  /\ check_owner (fun u => Nat.eqb (user_id u) 2)
       (snd (owner_only 8%nat Cases.bot_greet_defined)) 8%nat Scenario.greet_message
       (Scenario.world_of [Scenario.greet_message] 11)
     = if (fun u => Nat.eqb (user_id u) 2) (m_author Scenario.greet_message)
       then (Ok (VBool true), Scenario.world_of [Scenario.greet_message] 11)
       else (Ok (VBool false),
             snd (send_message (user Cases.bot_greet_defined)
                    (ToChannel (m_channel Scenario.greet_message))
                    (Some (owner_refusal (m_author Scenario.greet_message))) None
                    (Scenario.world_of [Scenario.greet_message] 11))).
Proof.
  apply (owner_only_restricts_to_the_owner (fun u => Nat.eqb (user_id u) 2)
           Cases.bot_greet_defined 8%nat Scenario.greet Scenario.greet_message
           (Scenario.world_of [Scenario.greet_message] 11)).
  - vm_compute; reflexivity.
  - discriminate.
Defined.


(** * Further properties of the menus *)

Lemma append_assoc (s t u : string) : (s +:+ t) +:+ u = s +:+ (t +:+ u).
Proof. induction s as [|a s IH]; [done|]. rewrite !append_cons. by rewrite IH. Qed.

Lemma py_index_nonneg {A} (l : list A) (i : Z) (x : A) :
  0 <= i -> l !! Z.to_nat i = Some x -> py_index l i = Ok x.
Proof.
  intros Hi Hx. unfold py_index.
  destruct (i <? 0) eqn:Hneg; [lia|].
  apply lookup_lt_Some in Hx as Hlt.
  assert ((0 <=? i) && (i <? Z.of_nat (length l)) = true) as ->
    by (apply andb_true_intro; split; lia).
  by rewrite Hx.
Qed.

Lemma py_index_negative {A} (l : list A) (i : Z) (x : A) :
  i < 0 -> 0 <= i + Z.of_nat (length l) ->
  l !! Z.to_nat (i + Z.of_nat (length l)) = Some x -> py_index l i = Ok x.
Proof.
  intros Hi Hlow Hx. unfold py_index.
  destruct (i <? 0) eqn:Hneg; [|lia].
  assert ((0 <=? i + Z.of_nat (length l))
          && (i + Z.of_nat (length l) <? Z.of_nat (length l)) = true) as ->
    by (apply andb_true_intro; split; lia).
  by rewrite Hx.
Qed.

Lemma py_index_out_of_range {A} (l : list A) (i : Z) :
  Z.of_nat (length l) <= i \/ i < - Z.of_nat (length l) -> py_index l i = Raise IndexError.
Proof.
  intros Hi. unfold py_index.
  destruct (i <? 0) eqn:Hneg.
  - destruct (0 <=? i + Z.of_nat (length l)) eqn:Hlow; [|done].
    destruct (i + Z.of_nat (length l) <? Z.of_nat (length l)) eqn:Hup; [lia|done].
  - destruct (i <? Z.of_nat (length l)) eqn:Hup; [lia|]. by rewrite andb_false_r.
Qed.

Lemma page_hits_S (options : list string) (start : Z) (off k : nat) :
  page_hits options start off (S k) ->
  (exists x, options !! off = Some x /\ py_index options start = Ok x)
  /\ page_hits options (start + 1) (S off) k.
Proof.
  intros H. split.
  - destruct (H 0%nat ltac:(lia)) as (x & Hx & Hi).
    exists x. rewrite Nat.add_0_r in Hx. by rewrite Z.add_0_r in Hi.
  - intros j Hj. destruct (H (S j) ltac:(lia)) as (x & Hx & Hi).
    exists x. split.
    + by replace (S off + j)%nat with (off + S j)%nat by lia.
    + by replace (start + 1 + Z.of_nat j) with (start + Z.of_nat (S j)) by lia.
Qed.

Lemma menu_fields_slice (options : list string) (k : nat) (start : Z) (off : nat) :
  page_hits options start off k ->
  menu_fields options (seqZ start (Z.of_nat k))
  = Ok (zip (seqZ (start + 1) (Z.of_nat k)) (take k (drop off options))).
Proof.
  revert start off. induction k as [|k IH]; intros start off H; [done|].
  apply page_hits_S in H as ((x & Hx & Hi) & Hrest).
  rewrite !(seqZ_cons _ (Z.of_nat (S k))) by lia.
  replace (Z.pred (Z.of_nat (S k))) with (Z.of_nat k) by lia.
  replace (Z.succ start) with (start + 1) by lia.
  replace (Z.succ (start + 1)) with (start + 1 + 1) by lia.
  cbn [menu_fields]. rewrite Hi. cbn [result_bind].
  rewrite (IH _ _ Hrest). cbn [result_bind].
  by rewrite (drop_S _ _ _ Hx).
Qed.

Lemma menu_description_slice (options : list string) (k : nat) (start : Z) (off : nat)
    (description : string) :
  page_hits options start off k ->
  menu_description options (seqZ start (Z.of_nat k)) description
  = Ok (description +:+ lines (take k (drop off options))).
Proof.
  revert start off description. induction k as [|k IH]; intros start off description H.
  - cbn. by rewrite append_empty_r.
  - apply page_hits_S in H as ((x & Hx & Hi) & Hrest).
    rewrite (seqZ_cons _ (Z.of_nat (S k))) by lia.
    replace (Z.pred (Z.of_nat (S k))) with (Z.of_nat k) by lia.
    cbn [menu_description]. rewrite Hi. cbn [result_bind].
    replace (Z.succ start) with (start + 1) by lia.
    rewrite (IH _ _ _ Hrest).
    rewrite (drop_S _ _ _ Hx). cbn [take lines].
    by rewrite append_assoc.
Qed.

Lemma create_embed_menu_slice (b : Bot) (title : option string) (page : Z) (sel : bool)
    (m : Menu) (off : nat) :
  menus b !! title = Some m ->
  page_hits (options m) ((page - 1) * items_per_page) off 5 ->
  create_embed_menu b title page sel = Ok (page_embed b title page sel (options m) off).
Proof.
  intros Hm Hhits. unfold create_embed_menu, page_embed. rewrite Hm.
  unfold py_range.
  replace ((page - 1) * items_per_page + items_per_page - (page - 1) * items_per_page)
    with (Z.of_nat 5) by (unfold items_per_page; lia).
  destruct sel.
  - by rewrite (menu_fields_slice _ _ _ _ Hhits).
  - by rewrite (menu_description_slice _ _ _ _ _ Hhits).
Qed.

Lemma page_hits_forward (options : list string) (start : Z) (k : nat) :
  0 <= start ->
  start + Z.of_nat k <= Z.of_nat (length options) ->
  page_hits options start (Z.to_nat start) k.
Proof.
  intros Hstart Hlen j Hj.
  destruct (lookup_lt_is_Some_2 options (Z.to_nat start + j)) as [x Hx]; [lia|].
  exists x. split; [done|]. apply py_index_nonneg; [lia|].
  by replace (Z.to_nat (start + Z.of_nat j)) with (Z.to_nat start + j)%nat by lia.
Qed.

Lemma page_hits_backward (options : list string) (start : Z) (k : nat) :
  start + Z.of_nat k <= 0 ->
  0 <= start + Z.of_nat (length options) ->
  page_hits options start (Z.to_nat (start + Z.of_nat (length options))) k.
Proof.
  intros Hstart Hlen j Hj.
  destruct (lookup_lt_is_Some_2 options
              (Z.to_nat (start + Z.of_nat (length options)) + j)) as [x Hx]; [lia|].
  exists x. split; [done|]. apply py_index_negative; [lia|lia|].
  by replace (Z.to_nat (start + Z.of_nat j + Z.of_nat (length options)))
    with (Z.to_nat (start + Z.of_nat (length options)) + j)%nat by lia.
Qed.

(** X19: a page [page >= 1] of a menu with at least [5 * page] options
    renders: the title is the bot's name, [" menu: "] and the menu name, the
    footer is the encoded state of that page, and the page shows options
    [5 * (page - 1)] to [5 * page - 1], as fields labelled with their
    1-based position when selection is on, as one description with a line
    per option when it is off. *)
Theorem full_page_renders (b : Bot) (title : option string) (page : Z) (sel : bool) (m : Menu) :
  menus b !! title = Some m ->
  1 <= page ->
  5 * page <= Z.of_nat (length (options m)) ->
  create_embed_menu b title page sel
  = Ok (page_embed b title page sel (options m) (Z.to_nat (5 * (page - 1)))).
Proof.
  intros Hm Hpage Hlen.
  replace (5 * (page - 1)) with ((page - 1) * items_per_page) by (unfold items_per_page; lia).
  apply create_embed_menu_slice; [done|].
  apply page_hits_forward; unfold items_per_page; lia.
Qed.

(** X20: for a page [page <= 0], as [back] asks for from page 1, the indices
    are negative and count from the end of the list: with at least
    [5 * (1 - page)] options the page renders, showing the five options that
    start [5 * (1 - page)] before the end (the last five for page 0), under
    the labels [5 * (page - 1) + 1] and following (-4 to 0 for page 0). *)
Theorem page_below_one_renders_from_the_end (b : Bot) (title : option string) (page : Z)
    (sel : bool) (m : Menu) :
  menus b !! title = Some m ->
  page <= 0 ->
  5 * (1 - page) <= Z.of_nat (length (options m)) ->
  create_embed_menu b title page sel
  = Ok (page_embed b title page sel (options m)
          (Z.to_nat (Z.of_nat (length (options m)) - 5 * (1 - page)))).
Proof.
  intros Hm Hpage Hlen.
  replace (Z.of_nat (length (options m)) - 5 * (1 - page))
    with ((page - 1) * items_per_page + Z.of_nat (length (options m)))
    by (unfold items_per_page; lia).
  apply create_embed_menu_slice; [done|].
  apply page_hits_backward; unfold items_per_page; lia.
Qed.

Lemma py_index_raises_IndexError {A} (l : list A) (i : Z) (e : exn) :
  py_index l i = Raise e -> e = IndexError.
Proof. unfold py_index. repeat case_match; congruence. Qed.

Lemma menu_fields_some_out_of_range (options : list string) (indices : list Z) :
  Exists (fun i => py_index options i = Raise IndexError) indices ->
  menu_fields options indices = Raise IndexError.
Proof.
  induction indices as [|i rest IH]; intros H; [by apply Exists_nil in H|].
  cbn [menu_fields].
  destruct (py_index options i) as [x|e] eqn:Hi.
  - cbn [result_bind]. apply Exists_cons in H as [H|H]; [congruence|].
    by rewrite IH.
  - by rewrite (py_index_raises_IndexError _ _ _ Hi).
Qed.

Lemma menu_description_some_out_of_range (options : list string) (indices : list Z)
    (description : string) :
  Exists (fun i => py_index options i = Raise IndexError) indices ->
  menu_description options indices description = Raise IndexError.
Proof.
  revert description. induction indices as [|i rest IH]; intros description H;
    [by apply Exists_nil in H|].
  cbn [menu_description].
  destruct (py_index options i) as [x|e] eqn:Hi.
  - cbn [result_bind]. apply Exists_cons in H as [H|H]; [congruence|].
    by apply IH.
  - by rewrite (py_index_raises_IndexError _ _ _ Hi).
Qed.

(** X21: a page that is not wholly backed by options does not render, with
    or without selection: for [page >= 1] and fewer than [5 * page] options,
    and for [page <= 0] and fewer than [5 * (1 - page)], [__create_embed_menu]
    raises [IndexError].  So a menu of fewer than five options has no page
    at all, and the last options of a menu whose length is no multiple of
    five are never shown. *)
Theorem partial_page_does_not_render (b : Bot) (title : option string) (page : Z) (sel : bool)
    (m : Menu) :
  menus b !! title = Some m ->
  (1 <= page /\ Z.of_nat (length (options m)) < 5 * page)
  \/ (page <= 0 /\ Z.of_nat (length (options m)) < 5 * (1 - page)) ->
  create_embed_menu b title page sel = Raise IndexError.
Proof.
  intros Hm Hshort. unfold create_embed_menu. rewrite Hm.
  set (start := (page - 1) * items_per_page).
  assert (Exists (fun i => py_index (options m) i = Raise IndexError)
            (py_range start (start + items_per_page))) as Hex.
  { unfold py_range.
    replace (start + items_per_page - start) with 5
      by (unfold items_per_page; lia).
    apply Exists_exists. destruct Hshort as [[Hp Hl]|[Hp Hl]].
    - exists (start + 4). split.
      + apply elem_of_seqZ. lia.
      + apply py_index_out_of_range. left. unfold start, items_per_page. lia.
    - exists start. split.
      + apply elem_of_seqZ. lia.
      + apply py_index_out_of_range. right. unfold start, items_per_page. lia. }
  destruct sel.
  - by rewrite menu_fields_some_out_of_range.
  - by rewrite menu_description_some_out_of_range.
Qed.

(** ** Footers the grammar rejects *)

Lemma string_of_uint_decimal (d : Decimal.uint) :
  PyStr.all_chars decimal_char (NilEmpty.string_of_uint d) = true.
Proof. induction d; cbn; done. Qed.

Lemma str_int_decimal (page : Z) : PyStr.all_chars decimal_char (PyStr.str_int page) = true.
Proof.
  unfold PyStr.str_int, NilZero.string_of_int, NilZero.string_of_uint.
  destruct (Z.to_int page) as [d|d]; destruct d; cbn; try done;
    apply string_of_uint_decimal.
Qed.

Lemma all_chars_app (cls : ascii -> bool) (s t : string) :
  PyStr.all_chars cls (s +:+ t) = PyStr.all_chars cls s && PyStr.all_chars cls t.
Proof.
  induction s as [|a s IH]; [done|]. rewrite append_cons. cbn [PyStr.all_chars].
  by rewrite IH, andb_assoc.
Qed.

(** A string with a character outside [cls] splits at the first one. *)
Lemma all_chars_false_split (cls : ascii -> bool) (s : string) :
  PyStr.all_chars cls s = false ->
  exists (d : string) (c : ascii) (r : string),
    s = d +:+ String c r /\ PyStr.all_chars cls d = true /\ cls c = false.
Proof.
  induction s as [|a s IH]; [done|]. cbn [PyStr.all_chars]. intros H.
  destruct (cls a) eqn:Ha.
  - destruct (IH H) as (d & c & r & -> & Hd & Hc).
    exists (String a d), c, r. rewrite append_cons. cbn [PyStr.all_chars].
    by rewrite Ha, Hd.
  - by exists "", a, s.
Qed.

Lemma class_star_none {X} (cls : ascii -> bool) (d : string) (c : ascii) (r acc : string)
    (k : string -> string -> option X) :
  PyStr.all_chars cls d = true ->
  cls c = false ->
  (forall t d2, PyStr.all_chars cls d2 = true -> k t (d2 +:+ String c r) = None) ->
  Re.class_star cls acc (d +:+ String c r) k = None.
Proof.
  revert acc. induction d as [|a d IH]; intros acc Hd Hc Hk.
  - rewrite append_empty_l. cbn [Re.class_star]. rewrite Hc. by apply (Hk acc "").
  - cbn [PyStr.all_chars] in Hd. apply andb_prop in Hd as [Ha Hd].
    rewrite append_cons. cbn [Re.class_star]. rewrite Ha.
    rewrite IH by done.
    rewrite <- append_cons. apply Hk. cbn [PyStr.all_chars]. by rewrite Ha, Hd.
Qed.

Lemma plus_none {X} (cls : ascii -> bool) (d : string) (c : ascii) (r : string)
    (g : gmap nat string) (k : @Re.kont X) :
  PyStr.all_chars cls d = true ->
  cls c = false ->
  (forall t d2 g', PyStr.all_chars cls d2 = true -> k t (d2 +:+ String c r) g' = None) ->
  Re.rmatch (Re.Plus cls) (d +:+ String c r) g k = None.
Proof.
  intros Hd Hc Hk. destruct d as [|a d].
  - rewrite append_empty_l. cbn [Re.rmatch]. by rewrite Hc.
  - cbn [PyStr.all_chars] in Hd. apply andb_prop in Hd as [Ha Hd].
    rewrite append_cons. cbn [Re.rmatch]. rewrite Ha.
    apply class_star_none; [done|done|]. intros t d2 Hd2. by apply Hk.
Qed.

Lemma strip_prefix_other_head (a x : ascii) (p s : string) :
  a <> x -> PyStr.strip_prefix (String a p) (String x s) = None.
Proof.
  intros Hne. cbn [PyStr.strip_prefix].
  destruct (Ascii.eqb a x) eqn:Heq; [|done]. by apply Ascii.eqb_eq in Heq.
Qed.

Lemma digit_1_9_not_space (c : ascii) : digit_1_9 c = true -> " "%char <> c.
Proof. intros H Heq. subst c. discriminate H. Qed.

Lemma decimal_not_space (c : ascii) : decimal_char c = true -> " "%char <> c.
Proof. intros H Heq. subst c. discriminate H. Qed.

Lemma decode_footer_outside_grammar (page : Z) (name : string) (sel : bool) :
  PyStr.all_chars digit_1_9 (PyStr.str_int page) = false ->
  decode_footer (state_string page name sel) = None.
Proof.
  intros Hpage.
  destruct (all_chars_false_split _ _ Hpage) as (d & c & r & Hsplit & Hd & Hc).
  assert (decimal_char c = true) as Hdec.
  { pose proof (str_int_decimal page) as Hall. rewrite Hsplit, all_chars_app in Hall.
    apply andb_prop in Hall as [_ Hall]. cbn [PyStr.all_chars] in Hall.
    by apply andb_prop in Hall as [Hall _]. }
  unfold decode_footer, state_string, Re.fullmatch, state_regex.
  rewrite rmatch_Seq, rmatch_Lit_app, rmatch_Seq, rmatch_Group.
  rewrite Hsplit, append_assoc, append_cons.
  rewrite plus_none; [done|done|done|].
  intros t d2 g' Hd2. rewrite rmatch_Seq. cbn [Re.rmatch].
  destruct d2 as [|a d2].
  - rewrite append_empty_l. rewrite strip_prefix_other_head; [done|].
    by apply decimal_not_space.
  - rewrite append_cons. rewrite strip_prefix_other_head; [done|].
    cbn [PyStr.all_chars] in Hd2. apply andb_prop in Hd2 as [Ha _].
    by apply digit_1_9_not_space.
Qed.

(** X22: the footer written for a page whose decimal form holds a character
    outside 1-9 (a digit 0, or the minus sign of a negative page) is rejected
    by the state grammar, whatever the menu name: pages 10, 20, 101, page 0
    and the negative pages cannot be read back. *)
Theorem decode_rejects_page_outside_grammar (page : Z) (name : string) (sel : bool) :
  PyStr.all_chars digit_1_9 (PyStr.str_int page) = false ->
  decode_footer (state_string page name sel) = None.
Proof. apply decode_footer_outside_grammar. Qed.

Lemma decode_rejects_page_outside_grammar_witness :
  decode_footer (state_string 0 "fruits" true) = None.
Proof.
  apply (decode_rejects_page_outside_grammar 0 "fruits" true). reflexivity.
Defined.

(** ** Reconstruction after a rendering *)

Lemma decode_footer_state_string (page : Z) (name : string) (sel : bool) :
  PyStr.all_chars digit_1_9 (PyStr.str_int page) = true ->
  name <> "" ->
  PyStr.all_chars name_char name = true ->
  decode_footer (state_string page name sel) = Some (page, name, sel).
Proof.
  intros Hdigits Hne Hname.
  unfold decode_footer, state_string.
  rewrite fullmatch_state_string by (done || apply str_int_nonempty).
  cbv beta iota.
  rewrite lookup_insert_ne, lookup_insert_ne, lookup_insert_eq by done.
  rewrite lookup_insert_ne, lookup_insert_eq by done.
  rewrite lookup_insert_eq.
  by rewrite int_of_digits_str_int, eqb_str_bool.
Qed.

Lemma strip_prefix_app_both (p q s : string) :
  PyStr.strip_prefix (p +:+ q) (p +:+ s) = PyStr.strip_prefix q s.
Proof.
  induction p as [|a p IH]; [done|].
  rewrite !append_cons. cbn [PyStr.strip_prefix]. by rewrite Ascii.eqb_refl.
Qed.

Lemma menu_title_has_prefix (uname name : string) :
  PyStr.startswith (uname +:+ " menu: " +:+ name) (uname +:+ " menu:") = true.
Proof.
  unfold PyStr.startswith. rewrite strip_prefix_app_both.
  change (" menu: " +:+ name) with (" menu:" +:+ (" " +:+ name)).
  by rewrite strip_prefix_app.
Qed.

Lemma create_embed_menu_Ok (b : Bot) (title : option string) (page : Z) (sel : bool)
    (e : Embed) :
  create_embed_menu b title page sel = Ok e ->
  e_title e = Some (user_name (user b) +:+ " menu: " +:+ fmt_title title)
  /\ e_footer e = Some (state_string page (fmt_title title) sel).
Proof.
  unfold create_embed_menu. destruct (menus b !! title) as [m|]; [|discriminate].
  destruct sel.
  - destruct (menu_fields _ _); [|discriminate]. cbn. by intros [= <-].
  - destruct (menu_description _ _ _); [|discriminate]. cbn. by intros [= <-].
Qed.

Lemma find_menu_scan_rendered (b : Bot) (name : string) (page : Z) (sel : bool) (e : Embed)
    (before rest : list Message) (message : Message) :
  create_embed_menu b (Some name) page sel = Ok e ->
  Forall (passed_over b) before ->
  user_eqb (m_author message) (user b) = true ->
  m_embeds message = [e] ->
  find_menu_scan b (before ++ message :: rest)
  = reconstructed message (state_string page name sel).
Proof.
  intros [Htitle Hfooter]%create_embed_menu_Ok Hbefore Hauthor Hembeds.
  rewrite find_menu_scan_passed_over by done.
  cbn [find_menu_scan]. rewrite Hauthor, Hembeds, Htitle.
  cbn [fmt_title default]. rewrite menu_title_has_prefix, Hfooter.
  unfold reconstructed. cbn [fmt_title default].
  by destruct (decode_footer _) as [[[p l] s]|].
Qed.

(** X23: a message of the bot whose one embed was rendered by
    [__create_embed_menu] for a page in the grammar and a name in
    [[a-zA-Z_]+] is what the scan returns, with exactly the page, name and
    selection flag it was rendered for, however many messages of others or
    with another number of embeds come before it. *)
Theorem rendered_menu_is_found_with_its_state (b : Bot) (name : string) (page : Z)
    (sel : bool) (e : Embed) (before rest : list Message) (message : Message) :
  create_embed_menu b (Some name) page sel = Ok e ->
  PyStr.all_chars digit_1_9 (PyStr.str_int page) = true ->
  name <> "" ->
  PyStr.all_chars name_char name = true ->
  Forall (passed_over b) before ->
  user_eqb (m_author message) (user b) = true ->
  m_embeds message = [e] ->
  find_menu_scan b (before ++ message :: rest) = Ok (Some (message, page, name, sel)).
Proof.
  intros He Hpage Hne Hname Hbefore Hauthor Hembeds.
  rewrite (find_menu_scan_rendered b name page sel e) by done.
  unfold reconstructed. by rewrite decode_footer_state_string.
Qed.

(** X24: a message of the bot whose one embed was rendered for a page
    outside the grammar (page 0 or below, or a page with a digit 0) stops
    the scan with the corrupt-menu [SyntaxError]; menus further back are not
    looked at. *)
Theorem rendered_menu_outside_grammar_is_corrupt (b : Bot) (name : string) (page : Z)
    (sel : bool) (e : Embed) (before rest : list Message) (message : Message) :
  create_embed_menu b (Some name) page sel = Ok e ->
  PyStr.all_chars digit_1_9 (PyStr.str_int page) = false ->
  Forall (passed_over b) before ->
  user_eqb (m_author message) (user b) = true ->
  m_embeds message = [e] ->
  find_menu_scan b (before ++ message :: rest)
  = Raise (SyntaxError "Invaild footer detected.").
Proof.
  intros He Hpage Hbefore Hauthor Hembeds.
  rewrite (find_menu_scan_rendered b name page sel e) by done.
  unfold reconstructed.
  assert (decode_footer (state_string page name sel) = None) as ->; [|done].
  by apply decode_footer_outside_grammar.
Qed.

(** ** A page change and the reconstruction after it *)



(** ** The scan window *)

(** X26: a menu that lies under fifty or more newer messages of the channel
    that are not menus of the bot is out of reach: the scan ends after the
    fifty most recent older messages and [__find_menu] returns [None]. *)
Theorem menu_beyond_the_window_is_not_found (b : Bot) (message : Message) (w : World)
    (newer older : list Message) :
  filter (fun m => m_channel m = m_channel message /\ (m_id m < m_id message)%nat) (history w)
  = newer ++ older ->
  (50 <= length newer)%nat ->
  Forall (passed_over b) (take 50 newer) ->
  find_menu b message w = (Ok None, w).
Proof.
  intros Hfilter Hlen Hnewer. unfold find_menu, logs_from, gets, lift, bind.
  rewrite Hfilter, take_app_le by done.
  rewrite <- (app_nil_r (take 50 newer)). by rewrite find_menu_scan_passed_over.
Qed.

Lemma menu_beyond_the_window_is_not_found_witness :
  find_menu Scenario.bot_fruits Busy.trigger Busy.log = (Ok None, Busy.log).
Proof.
  apply (menu_beyond_the_window_is_not_found Scenario.bot_fruits Busy.trigger Busy.log
           Busy.chatter [Scenario.fruits_menu]).
  - vm_compute; reflexivity.
  - vm_compute; lia.
  - apply Forall_forall. intros m Hm. left.
    apply elem_of_take in Hm as (i & Hm & _).
    unfold Busy.chatter in Hm. apply list_lookup_fmap_Some in Hm as (j & -> & _).
    reflexivity.
Defined.

(** With one message less in between, the same menu is found. *)
Example menu_within_the_window :
  fst (find_menu Scenario.bot_fruits Busy.trigger
         (Scenario.world_of (Busy.trigger :: drop 1 Busy.chatter ++ [Scenario.fruits_menu]) 61))
  = Ok (Some (Scenario.fruits_menu, 1, "fruits", true)).
Proof. vm_compute. reflexivity. Qed.

(** ** Witnesses for the pages *)

Lemma full_page_renders_witness :
  create_embed_menu Letters.bot_letters (Some "letters") 2 true = Ok Letters.page_2.
Proof.
  apply (full_page_renders Letters.bot_letters (Some "letters") 2 true Letters.letters).
  - vm_compute; reflexivity.
  - lia.
  - vm_compute; discriminate.
Defined.

Lemma page_below_one_renders_from_the_end_witness :
  create_embed_menu Letters.bot_letters (Some "letters") 0 true = Ok Letters.page_0.
Proof.
  apply (page_below_one_renders_from_the_end Letters.bot_letters (Some "letters") 0 true
           Letters.letters).
  - vm_compute; reflexivity.
  - lia.
  - vm_compute; discriminate.
Defined.

Lemma partial_page_does_not_render_witness :
  create_embed_menu Letters.bot_letters (Some "letters") 3 true = Raise IndexError.
Proof.
  apply (partial_page_does_not_render Letters.bot_letters (Some "letters") 3 true
           Letters.letters).
  - vm_compute; reflexivity.
  - left. split; [lia|]. vm_compute; reflexivity.
Defined.

Lemma rendered_menu_is_found_with_its_state_witness :
  find_menu_scan Letters.bot_letters
    ([Letters.later_message; Scenario.user_message 12 "hello"]
       ++ Scenario.bot_message 11 [Letters.page_2] :: [Scenario.welcome])
  = Ok (Some (Scenario.bot_message 11 [Letters.page_2], 2, "letters", true)).
Proof.
  apply (rendered_menu_is_found_with_its_state Letters.bot_letters "letters" 2 true
           Letters.page_2).
  - vm_compute; reflexivity.
  - vm_compute; reflexivity.
  - discriminate.
  - vm_compute; reflexivity.
  - repeat constructor.
  - vm_compute; reflexivity.
  - reflexivity.
Defined.

Lemma rendered_menu_outside_grammar_is_corrupt_witness :
  find_menu_scan Letters.bot_letters
    ([Letters.next_message]
       ++ Scenario.bot_message 11 [Letters.page_0] :: [Letters.menu])
  = Raise (SyntaxError "Invaild footer detected.").
Proof.
  apply (rendered_menu_outside_grammar_is_corrupt Letters.bot_letters "letters" 0 true
           Letters.page_0).
  - vm_compute; reflexivity.
  - vm_compute; reflexivity.
  - repeat constructor.
  - vm_compute; reflexivity.
  - reflexivity.
Defined.


(** The two-page menu: [next] on page 1 is read back as page 2, and [back]
    on page 1 leaves a menu the next command finds corrupt. *)
Example letters_next_reaches_page_2 :
  fst (find_menu Letters.bot_letters Letters.later_message
         (receive Letters.later_message
            (snd (next Letters.bot_letters Letters.next_message
                    (Letters.log Letters.next_message)))))
  = Ok (Some (with_embed Letters.menu Letters.page_2, 2, "letters", true)).
Proof. vm_compute. reflexivity. Qed.

Example letters_back_corrupts_the_menu :
  fst (back Letters.bot_letters Letters.back_message (Letters.log Letters.back_message))
  = Ok tt
  /\ fst (find_menu Letters.bot_letters Letters.later_message
            (receive Letters.later_message
               (snd (back Letters.bot_letters Letters.back_message
                       (Letters.log Letters.back_message)))))
     = Raise (SyntaxError "Invaild footer detected.").
Proof. vm_compute. split; reflexivity. Qed.

(** ** Menu registration and activation *)

Lemma activate_menu_opens (b : Bot) (title : option string) (sel : bool) (m : Menu)
    (message : Message) (w : World) :
  menus b !! title = Some m ->
  (5 <= length (options m))%nat ->
  activate_menu b title sel message w
  = (Ok tt, opened (user b) (page_embed b title 1 sel (options m) 0) message w).
Proof.
  intros Hm Hlen. unfold activate_menu.
  rewrite (create_embed_menu_slice b title 1 sel m 0 Hm).
  - unfold lift, send_message, delete_message, delete_messages, emit, modify, bind, opened.
    cbn. by rewrite <- app_assoc.
  - apply (page_hits_forward (options m) 0 5); lia.
Qed.

Lemma menu_command_select_result (b : Bot) (command : obj_id) (f : FuncObj) (name : string)
    (menu_options : list string) (help : option string) :
  heap b !! command = Some f ->
  f_kind f = KFunction ->
  menu_command menu_options true (Some name) help command b
  = (Ok (Some command),
     {| user := user b; title := title b; prefix := prefix b;
        sub_parsers := sub_parsers b
                       ++ [{| sp_name := Some name; sp_help := f_doc f; sp_args := [] |}];
        commands := <[Some name := next_obj b]> (commands b);
        menus := <[Some name := {| options := menu_options; handler := Some command |}]>
                   (menus b);
        permission_checks := permission_checks b;
        heap := <[next_obj b := activate_menu_obj (Some name) true]> (heap b);
        next_obj := S (next_obj b) |}).
Proof.
  intros Hf Hkind. unfold menu_command, register_select_menu, get_obj.
  unfold bind at 1. rewrite Hf, Hkind. reflexivity.
Qed.

Lemma menu_command_display_result (b : Bot) (decorated : obj_id) (name help : option string)
    (menu_options : list string) :
  menu_command menu_options false name help decorated b
  = (Ok None,
     {| user := user b; title := title b; prefix := prefix b;
        sub_parsers := sub_parsers b ++ [{| sp_name := name; sp_help := help; sp_args := [] |}];
        commands := <[name := next_obj b]> (commands b);
        menus := <[name := {| options := menu_options; handler := None |}]> (menus b);
        permission_checks := permission_checks b;
        heap := <[next_obj b := activate_menu_obj name false]> (heap b);
        next_obj := S (next_obj b) |}).
Proof. reflexivity. Qed.

(** X27: [menu_command] with selection and an explicit name, applied to a
    plain function, returns the function, appends a sub-parser under the
    name with the function's docstring as help, stores the options and the
    function as handler under the name, and registers a new activation
    command under it; with at least five options, dispatching that command
    posts page 1 of the menu in the channel and deletes the command
    message. *)
Theorem named_select_menu_opens_on_page_one (b : Bot) (command : obj_id) (f : FuncObj)
    (name : string) (menu_options : list string) (help : option string) :
  heap b !! command = Some f ->
  f_kind f = KFunction ->
  (5 <= length menu_options)%nat ->
  fst (menu_command menu_options true (Some name) help command b) = Ok (Some command)
  /\ sub_parsers (snd (menu_command menu_options true (Some name) help command b))
     = sub_parsers b ++ [{| sp_name := Some name; sp_help := f_doc f; sp_args := [] |}]
  /\ menus (snd (menu_command menu_options true (Some name) help command b)) !! Some name
     = Some {| options := menu_options; handler := Some command |}
  /\ commands (snd (menu_command menu_options true (Some name) help command b)) !! Some name
     = Some (next_obj b)
  /\ forall (message : Message) (parsed_args : gmap string pyval) (w : World),
       call_command (snd (menu_command menu_options true (Some name) help command b))
         (next_obj b) message parsed_args w
       = (Ok tt,
          opened (user b) (page_embed b (Some name) 1 true menu_options 0) message w).
Proof.
  intros Hf Hkind Hlen.
  rewrite (menu_command_select_result b command f name menu_options help Hf Hkind).
  cbn [fst snd sub_parsers menus commands].
  split; [done|]. split; [done|].
  split; [by rewrite lookup_insert_eq|].
  split; [by rewrite lookup_insert_eq|].
  intros message parsed_args w. unfold call_command. cbn [heap].
  rewrite lookup_insert_eq. cbn [f_code activate_menu_obj].
  rewrite (activate_menu_opens _ (Some name) true
             {| options := menu_options; handler := Some command |} message w);
    [reflexivity| |exact Hlen].
  cbn [menus]. by rewrite lookup_insert_eq.
Qed.

Lemma named_select_menu_opens_on_page_one_witness :
  fst (menu_command Scenario.fruit_options true (Some "fruits") None 8%nat
         Scenario.bot_ban_marked)
  = Ok (Some 8%nat)
  /\ sub_parsers (snd (menu_command Scenario.fruit_options true (Some "fruits") None 8%nat
                         Scenario.bot_ban_marked))
     = sub_parsers Scenario.bot_ban_marked
       ++ [{| sp_name := Some "fruits"; sp_help := f_doc Scenario.ban_marked; sp_args := [] |}]
  /\ menus (snd (menu_command Scenario.fruit_options true (Some "fruits") None 8%nat
                   Scenario.bot_ban_marked)) !! Some "fruits"
     = Some {| options := Scenario.fruit_options; handler := Some 8%nat |}
  /\ commands (snd (menu_command Scenario.fruit_options true (Some "fruits") None 8%nat
                      Scenario.bot_ban_marked)) !! Some "fruits"
     = Some (next_obj Scenario.bot_ban_marked)
  /\ forall (message : Message) (parsed_args : gmap string pyval) (w : World),
       call_command (snd (menu_command Scenario.fruit_options true (Some "fruits") None 8%nat
                            Scenario.bot_ban_marked))
         (next_obj Scenario.bot_ban_marked) message parsed_args w
       = (Ok tt,
          opened (user Scenario.bot_ban_marked)
            (page_embed Scenario.bot_ban_marked (Some "fruits") 1 true Scenario.fruit_options 0)
            message w).
Proof.
  apply (named_select_menu_opens_on_page_one Scenario.bot_ban_marked 8%nat Scenario.ban_marked
           "fruits" Scenario.fruit_options None).
  - vm_compute; reflexivity.
  - reflexivity.
  - vm_compute; lia.
Defined.

(** X28: [menu_command] without selection registers at once and returns
    [None]: a sub-parser under the name with the given help, the options
    without a handler, and a new activation command; with at least five
    options, dispatching that command posts page 1 as one description, a
    line per option, and deletes the command message. *)
Theorem display_menu_opens_on_page_one (b : Bot) (decorated : obj_id) (name help : option string)
    (menu_options : list string) :
  (5 <= length menu_options)%nat ->
  fst (menu_command menu_options false name help decorated b) = Ok None
  /\ sub_parsers (snd (menu_command menu_options false name help decorated b))
     = sub_parsers b ++ [{| sp_name := name; sp_help := help; sp_args := [] |}]
  /\ menus (snd (menu_command menu_options false name help decorated b)) !! name
     = Some {| options := menu_options; handler := None |}
  /\ commands (snd (menu_command menu_options false name help decorated b)) !! name
     = Some (next_obj b)
  /\ forall (message : Message) (parsed_args : gmap string pyval) (w : World),
       call_command (snd (menu_command menu_options false name help decorated b))
         (next_obj b) message parsed_args w
       = (Ok tt, opened (user b) (page_embed b name 1 false menu_options 0) message w).
Proof.
  intros Hlen.
  rewrite (menu_command_display_result b decorated name help menu_options).
  cbn [fst snd sub_parsers menus commands].
  split; [done|]. split; [done|].
  split; [by rewrite lookup_insert_eq|].
  split; [by rewrite lookup_insert_eq|].
  intros message parsed_args w. unfold call_command. cbn [heap].
  rewrite lookup_insert_eq. cbn [f_code activate_menu_obj].
  rewrite (activate_menu_opens _ name false
             {| options := menu_options; handler := None |} message w);
    [reflexivity| |exact Hlen].
  cbn [menus]. by rewrite lookup_insert_eq.
Qed.

Lemma display_menu_opens_on_page_one_witness :
  fst (menu_command Scenario.fruit_options false (Some "rules") (Some "Show the rules.")
         0%nat Scenario.bot0)
  = Ok None
  /\ sub_parsers (snd (menu_command Scenario.fruit_options false (Some "rules")
                         (Some "Show the rules.") 0%nat Scenario.bot0))
     = sub_parsers Scenario.bot0
       ++ [{| sp_name := Some "rules"; sp_help := Some "Show the rules."; sp_args := [] |}]
  /\ menus (snd (menu_command Scenario.fruit_options false (Some "rules")
                   (Some "Show the rules.") 0%nat Scenario.bot0)) !! Some "rules"
     = Some {| options := Scenario.fruit_options; handler := None |}
  /\ commands (snd (menu_command Scenario.fruit_options false (Some "rules")
                      (Some "Show the rules.") 0%nat Scenario.bot0)) !! Some "rules"
     = Some (next_obj Scenario.bot0)
  /\ forall (message : Message) (parsed_args : gmap string pyval) (w : World),
       call_command (snd (menu_command Scenario.fruit_options false (Some "rules")
                            (Some "Show the rules.") 0%nat Scenario.bot0))
         (next_obj Scenario.bot0) message parsed_args w
       = (Ok tt,
          opened (user Scenario.bot0)
            (page_embed Scenario.bot0 (Some "rules") 1 false Scenario.fruit_options 0)
            message w).
Proof.
  apply (display_menu_opens_on_page_one Scenario.bot0 0%nat (Some "rules")
           (Some "Show the rules.") Scenario.fruit_options).
  vm_compute; lia.
Defined.

(** ** Selection *)



(** ["select 2"] on page 1 of the letters picks ["c"], shown under label 3. *)
Example select_2_picks_the_third_option :
  (3, "c") ∈ e_fields (page_embed Letters.bot_letters (Some "letters") 1 true
                         Letters.letter_options 0)
  /\ trace (snd (select Letters.bot_letters Letters.select_message (AValue (VInt 2))
                   (Letters.log Letters.select_message)))
     = [ECall 8%nat [AValue (VStr "c")] ∅; EDelete [12%nat; 11%nat]].
Proof. split; [|vm_compute; reflexivity]. cbn. set_solver. Qed.

(** ** [BotParser] *)

(** X30: [BotParser.error] never returns and writes nowhere: with a
    non-empty help text it raises [SyntaxError] carrying the help followed
    by the program name, [": error: "], the message and a newline; with an
    empty help text [print_help] returns [None] and the concatenation fails
    with [TypeError].  Given a file, [print_help] appends the help to it and
    returns [None]. *)
Theorem error_raises_help_and_message (prog format_help message : string) :
  BotParser.error prog format_help message
  = (if String.eqb format_help ""
     then TypeError
     else SyntaxError (format_help +:+ prog +:+ ": error: " +:+ message +:+ newline))
  /\ forall written : string,
       BotParser.print_help format_help (Some written)
       = (None, Some (written +:+ format_help)).
Proof.
  unfold BotParser.error, BotParser.print_help, BotParser._print_message, truthy.
  destruct (String.eqb_spec format_help "") as [->|Hne]; cbn [negb fst].
  - split; [done|]. intros written. by rewrite append_empty_r.
  - done.
Qed.
